(** * MovieHouse: the browse / search / lazy-loading logic of the front-end

    The repository holds several near-identical React components.  Two of
    them are embedded here, each in a module of its own:

    - [AppJs]     : [src/App.js].  The second component of the unnamed
                    bundle has the same fetchers and handlers, up to error
                    texts, URL suffixes and the advertising script, which is
                    left out; the third one differs in how it builds the
                    endpoints only.
    - [Hardened]  : the first component of the unnamed bundle, which adds
                    payload validation, identifier de-duplication, a
                    [createDebounce] helper and a guard in [handleLoadMore].

    [OptimizedImage] is the lazy-loading image of
    [src/components/OptimizedImage.jsx].

    React state is a record, and every handler is a function on a [World]:
    the state, the refs, the browser timers, the network requests that wait
    for an answer and the scroll observer.  An [async] function is cut at
    its [await]: the part before it issues the request, the part after it
    is applied when the answer is delivered.  Effects run in [commit] after
    each handler, when one of their dependencies changed; a handler reads
    the state of the last render. *)

From Stdlib Require Import ZArith String Ascii List Lia DecimalString.
From stdpp Require Import base gmap sets list strings.

Open Scope string_scope.
Open Scope Z_scope.

(** ** JavaScript values and strings *)

Module Js.

(** Characters stand for the code units U+0000..U+00FF. *)
Definition isWhiteSpace (c : ascii) : bool :=
  let n := nat_of_ascii c in
  ((9 <=? n)%nat && (n <=? 13)%nat) || (n =? 32)%nat || (n =? 160)%nat.

Fixpoint trimStart (s : string) : string :=
  match s with
  | EmptyString => EmptyString
  | String c rest => if isWhiteSpace c then trimStart rest else s
  end.

Fixpoint trimEnd (s : string) : string :=
  match s with
  | EmptyString => EmptyString
  | String c rest =>
      let t := trimEnd rest in
      if isWhiteSpace c && String.eqb t "" then EmptyString else String c t
  end.

(** [String.prototype.trim] *)
Definition trim (s : string) : string := trimEnd (trimStart s).

(** [String.prototype.startsWith] *)
Definition startsWith (s p : string) : bool := String.prefix p s.

(** A number inside a template literal. *)
Definition showZ (z : Z) : string := NilZero.string_of_int (Z.to_int z).

(** A string in boolean position. *)
Definition truthyStr (s : string) : bool := negb (String.eqb s "").

Inductive Value :=
| Undefined
| Null
| Bool (b : bool)
| Number (n : Z)
| Str (s : string)
| Object
| Function (source : string).

Definition truthy (v : Value) : bool :=
  match v with
  | Undefined | Null => false
  | Bool b => b
  | Number n => negb (n =? 0)
  | Str s => truthyStr s
  | Object | Function _ => true
  end.

Definition typeof (v : Value) : string :=
  match v with
  | Undefined => "undefined"
  | Null => "object"
  | Bool _ => "boolean"
  | Number _ => "number"
  | Str _ => "string"
  | Object => "object"
  | Function _ => "function"
  end.

(** How an expression ends: with a value, or with a thrown error. *)
Inductive Completion (A : Type) :=
| Normal (a : A)
| Throw (message : string).
Arguments Normal {A} a.
Arguments Throw {A} message.

#[export] Instance completion_ret : MRet Completion := fun A a => Normal a.

#[export] Instance completion_bind : MBind Completion := fun A B k c =>
  match c with
  | Normal a => k a
  | Throw m => Throw m
  end.

(** [v.trim()] and [v.startsWith(p)]: only strings have these methods. *)
Definition callTrim (v : Value) : Completion string :=
  match v with
  | Str s => Normal (trim s)
  | Undefined | Null => Throw "TypeError: Cannot read properties of undefined"
  | _ => Throw "TypeError: trim is not a function"
  end.

Definition callStartsWith (v : Value) (p : string) : Completion bool :=
  match v with
  | Str s => Normal (startsWith s p)
  | Undefined | Null => Throw "TypeError: Cannot read properties of undefined"
  | _ => Throw "TypeError: startsWith is not a function"
  end.

(** [===] against a string literal. *)
Definition strictEqStr (v : Value) (lit : string) : bool :=
  match v with
  | Str s => String.eqb s lit
  | _ => false
  end.

(** A value inside a template literal (a plain object prints as
    [[object Object]], a function as its source text). *)
Definition show (v : Value) : string :=
  match v with
  | Undefined => "undefined"
  | Null => "null"
  | Bool true => "true"
  | Bool false => "false"
  | Number n => showZ n
  | Str s => s
  | Object => "[object Object]"
  | Function source => source
  end.

(** [object[key]] on an object literal: its own entry, else the member of
    that name on its prototype, else [undefined]. *)
Definition getMember (inherited : string -> option Value)
    (object : gmap string Value) (key : string) : Value :=
  match object !! key with
  | Some v => v
  | None =>
      match inherited key with
      | Some v => v
      | None => Undefined
      end
  end.

End Js.

Import Js.

(** ** The environment of the bundle

    [API_KEY] is [process.env.REACT_APP_TMDB_API_KEY] ([None] when the
    variable is not set).  [inherited name] is the member [name] that every
    object literal inherits from [Object.prototype] ([toString],
    [constructor], ...), and [None] for a name that is not inherited; the
    source text of a native function is chosen by the engine. *)

Record Env := {
  API_KEY : option string;
  inherited : string -> option Value
}.

Definition showKey (env : Env) : string :=
  match API_KEY env with
  | Some k => k
  | None => "undefined"
  end.

(** [!API_KEY] *)
Definition keyMissing (env : Env) : bool :=
  match API_KEY env with
  | Some k => negb (truthyStr k)
  | None => true
  end.

(** The members V8 and SpiderMonkey find on [Object.prototype]. *)
Definition engineProto (name : string) : option Value :=
  if String.eqb name "__proto__" then Some Object
  else if String.eqb name "constructor"
  then Some (Function "function Object() { [native code] }")
  else if existsb (String.eqb name)
            ["toString"; "toLocaleString"; "valueOf"; "hasOwnProperty";
             "isPrototypeOf"; "propertyIsEnumerable"; "__defineGetter__";
             "__defineSetter__"; "__lookupGetter__"; "__lookupSetter__"]
       then Some (Function ("function " +:+ name +:+ "() { [native code] }"))
       else None.

Definition browserEnv : Env :=
  {| API_KEY := Some "k3y"; inherited := engineProto |}.

(** ** Image utilities (identical in [src/App.js] and in the bundle) *)

Definition TMDB_IMAGE_BASE : string := "https://image.tmdb.org/t/p/".

Definition imageSizes : gmap string Value :=
  list_to_map
    [("thumbnail", Str "w92"); ("small", Str "w154"); ("card", Str "w342");
     ("medium", Str "w500"); ("large", Str "w780"); ("xlarge", Str "w1280");
     ("original", Str "original")].

(** [imageSizes[size] || imageSizes.card] *)
Definition sizeString (env : Env) (size : string) : Value :=
  let own := getMember (inherited env) imageSizes size in
  if truthy own then own else getMember (inherited env) imageSizes "card".

Definition getImageUrl (env : Env) (path : Value) (size : string)
  : Completion (option string) :=
  if negb (truthy path) then Normal None
  else if negb (String.eqb (typeof path) "string") then Normal None
  else
    trimmed ← callTrim path;
    if String.eqb trimmed "" then Normal None
    else if strictEqStr path "null" then Normal None
    else
      slash ← callStartsWith path "/";
      let cleanPath := if slash : bool then show path else "/" +:+ show path in
      Normal (Some (TMDB_IMAGE_BASE +:+ show (sizeString env size) +:+ cleanPath)).

(** [getBackdropImage] *)
Definition getBackdropImage (env : Env) (path : Value) : Completion (option string) :=
  if negb (truthy path) then Normal None
  else getImageUrl env path "large".

(** ** Data model *)

(** An entry of a [results] array; only the members the controllers read.
    [None] is a member that is absent (or [null]). *)
Record MediaItem := {
  item_id : option Z;
  item_title : option string;
  item_name : option string
}.

Definition truthyNum (n : option Z) : bool :=
  match n with
  | Some z => negb (z =? 0)
  | None => false
  end.

Definition truthyText (t : option string) : bool :=
  match t with
  | Some s => truthyStr s
  | None => false
  end.

(** [item && typeof item === 'object' && item.id && (item.title || item.name)];
    the entries modelled here are objects. *)
Definition isValidMediaItem (item : MediaItem) : bool :=
  truthyNum (item_id item) && (truthyText (item_title item) || truthyText (item_name item)).

(** The value [await res.json()] produces. *)
Inductive JsonBody :=
| BadJson (message : string)
    (* the promise rejects: the body is not JSON *)
| JsonNull
    (* the body is the JSON text [null] *)
| JsonData (results : option (list MediaItem)) (total_pages total_results : option Z).
    (* a JSON object, read through three of its members.  [results] is the
       member when it is an array, and [None] when the member is absent,
       [null] or another value that is falsy ([false], [0], the empty
       string); a number is [None] when the member is absent.  A body
       whose [results] is a truthy value other than an array is not among
       the bodies of this development: [src/App.js] would store that value
       as its list. *)

(** What [await fetch(url)] produces. *)
Inductive FetchOutcome :=
| Rejected (message : string)
| Responded (status : Z) (body : JsonBody).

(** [res.ok] *)
Definition res_ok (status : Z) : bool := (200 <=? status) && (status <=? 299).

(** The hook values of [App], and [hasError] of the [SimpleErrorBoundary]
    around it.  [totalResults] and [selectedLanguage] exist in the hardened
    component only. *)
Record AppState := {
  movies : list MediaItem;
  featured : option MediaItem;
  category : string;
  search : string;
  watchUrl : option string;
  loading : bool;
  error : option string;
  searchResults : list MediaItem;
  isSearching : bool;
  suggestions : list MediaItem;
  showTVDetails : bool;
  showTVSeriesPage : bool;
  page : Z;
  hasMore : bool;
  totalResults : Z;
  selectedLanguage : string;
  boundaryHasError : bool
}.

Definition setMovies (v : list MediaItem) (s : AppState) : AppState :=
  {| movies := v; featured := featured s; category := category s; search := search s;
     watchUrl := watchUrl s; loading := loading s; error := error s;
     searchResults := searchResults s; isSearching := isSearching s;
     suggestions := suggestions s; showTVDetails := showTVDetails s;
     showTVSeriesPage := showTVSeriesPage s; page := page s; hasMore := hasMore s;
     totalResults := totalResults s; selectedLanguage := selectedLanguage s;
     boundaryHasError := boundaryHasError s |}.

Definition setFeatured (v : option MediaItem) (s : AppState) : AppState :=
  {| movies := movies s; featured := v; category := category s; search := search s;
     watchUrl := watchUrl s; loading := loading s; error := error s;
     searchResults := searchResults s; isSearching := isSearching s;
     suggestions := suggestions s; showTVDetails := showTVDetails s;
     showTVSeriesPage := showTVSeriesPage s; page := page s; hasMore := hasMore s;
     totalResults := totalResults s; selectedLanguage := selectedLanguage s;
     boundaryHasError := boundaryHasError s |}.

Definition setSearch (v : string) (s : AppState) : AppState :=
  {| movies := movies s; featured := featured s; category := category s; search := v;
     watchUrl := watchUrl s; loading := loading s; error := error s;
     searchResults := searchResults s; isSearching := isSearching s;
     suggestions := suggestions s; showTVDetails := showTVDetails s;
     showTVSeriesPage := showTVSeriesPage s; page := page s; hasMore := hasMore s;
     totalResults := totalResults s; selectedLanguage := selectedLanguage s;
     boundaryHasError := boundaryHasError s |}.

Definition setLoading (v : bool) (s : AppState) : AppState :=
  {| movies := movies s; featured := featured s; category := category s; search := search s;
     watchUrl := watchUrl s; loading := v; error := error s;
     searchResults := searchResults s; isSearching := isSearching s;
     suggestions := suggestions s; showTVDetails := showTVDetails s;
     showTVSeriesPage := showTVSeriesPage s; page := page s; hasMore := hasMore s;
     totalResults := totalResults s; selectedLanguage := selectedLanguage s;
     boundaryHasError := boundaryHasError s |}.

Definition setError (v : option string) (s : AppState) : AppState :=
  {| movies := movies s; featured := featured s; category := category s; search := search s;
     watchUrl := watchUrl s; loading := loading s; error := v;
     searchResults := searchResults s; isSearching := isSearching s;
     suggestions := suggestions s; showTVDetails := showTVDetails s;
     showTVSeriesPage := showTVSeriesPage s; page := page s; hasMore := hasMore s;
     totalResults := totalResults s; selectedLanguage := selectedLanguage s;
     boundaryHasError := boundaryHasError s |}.

Definition setSearchResults (v : list MediaItem) (s : AppState) : AppState :=
  {| movies := movies s; featured := featured s; category := category s; search := search s;
     watchUrl := watchUrl s; loading := loading s; error := error s;
     searchResults := v; isSearching := isSearching s;
     suggestions := suggestions s; showTVDetails := showTVDetails s;
     showTVSeriesPage := showTVSeriesPage s; page := page s; hasMore := hasMore s;
     totalResults := totalResults s; selectedLanguage := selectedLanguage s;
     boundaryHasError := boundaryHasError s |}.

Definition setIsSearching (v : bool) (s : AppState) : AppState :=
  {| movies := movies s; featured := featured s; category := category s; search := search s;
     watchUrl := watchUrl s; loading := loading s; error := error s;
     searchResults := searchResults s; isSearching := v;
     suggestions := suggestions s; showTVDetails := showTVDetails s;
     showTVSeriesPage := showTVSeriesPage s; page := page s; hasMore := hasMore s;
     totalResults := totalResults s; selectedLanguage := selectedLanguage s;
     boundaryHasError := boundaryHasError s |}.

Definition setSuggestions (v : list MediaItem) (s : AppState) : AppState :=
  {| movies := movies s; featured := featured s; category := category s; search := search s;
     watchUrl := watchUrl s; loading := loading s; error := error s;
     searchResults := searchResults s; isSearching := isSearching s;
     suggestions := v; showTVDetails := showTVDetails s;
     showTVSeriesPage := showTVSeriesPage s; page := page s; hasMore := hasMore s;
     totalResults := totalResults s; selectedLanguage := selectedLanguage s;
     boundaryHasError := boundaryHasError s |}.

Definition setPage (v : Z) (s : AppState) : AppState :=
  {| movies := movies s; featured := featured s; category := category s; search := search s;
     watchUrl := watchUrl s; loading := loading s; error := error s;
     searchResults := searchResults s; isSearching := isSearching s;
     suggestions := suggestions s; showTVDetails := showTVDetails s;
     showTVSeriesPage := showTVSeriesPage s; page := v; hasMore := hasMore s;
     totalResults := totalResults s; selectedLanguage := selectedLanguage s;
     boundaryHasError := boundaryHasError s |}.

Definition setHasMore (v : bool) (s : AppState) : AppState :=
  {| movies := movies s; featured := featured s; category := category s; search := search s;
     watchUrl := watchUrl s; loading := loading s; error := error s;
     searchResults := searchResults s; isSearching := isSearching s;
     suggestions := suggestions s; showTVDetails := showTVDetails s;
     showTVSeriesPage := showTVSeriesPage s; page := page s; hasMore := v;
     totalResults := totalResults s; selectedLanguage := selectedLanguage s;
     boundaryHasError := boundaryHasError s |}.

Definition setTotalResults (v : Z) (s : AppState) : AppState :=
  {| movies := movies s; featured := featured s; category := category s; search := search s;
     watchUrl := watchUrl s; loading := loading s; error := error s;
     searchResults := searchResults s; isSearching := isSearching s;
     suggestions := suggestions s; showTVDetails := showTVDetails s;
     showTVSeriesPage := showTVSeriesPage s; page := page s; hasMore := hasMore s;
     totalResults := v; selectedLanguage := selectedLanguage s;
     boundaryHasError := boundaryHasError s |}.

(** A state updater threw while React was rendering: the update is dropped
    and the error reaches the boundary. *)
Definition renderThrows (s : AppState) : AppState :=
  {| movies := movies s; featured := featured s; category := category s; search := search s;
     watchUrl := watchUrl s; loading := loading s; error := error s;
     searchResults := searchResults s; isSearching := isSearching s;
     suggestions := suggestions s; showTVDetails := showTVDetails s;
     showTVSeriesPage := showTVSeriesPage s; page := page s; hasMore := hasMore s;
     totalResults := totalResults s; selectedLanguage := selectedLanguage s;
     boundaryHasError := true |}.

(** [useState] initial values. *)
Definition initialState : AppState :=
  {| movies := []; featured := None; category := "trending"; search := "";
     watchUrl := None; loading := false; error := None; searchResults := [];
     isSearching := false; suggestions := []; showTVDetails := false;
     showTVSeriesPage := false; page := 1; hasMore := true; totalResults := 0;
     selectedLanguage := "en"; boundaryHasError := false |}.

(** [try { body } catch (err) { handler(err.message) } finally { final }]:
    what the body had already set stays set when it throws. *)
Definition tryCatchFinally
    (body : AppState -> AppState * Completion unit)
    (handler : string -> AppState -> AppState)
    (final : AppState -> AppState) (s : AppState) : AppState :=
  let '(s1, outcome) := body s in
  final (match outcome with
         | Normal _ => s1
         | Throw message => handler message s1
         end).

(** [displayMovies.length > 0] and friends *)
Definition nonEmpty {A} (l : list A) : bool :=
  match l with [] => false | _ :: _ => true end.

Definition isNone {A} (o : option A) : bool :=
  match o with None => true | Some _ => false end.

(** ** The browser around the component *)

(** What a timer callback does when it fires. *)
Inductive TimerAction :=
| CallSuggestions (value : string)   (* [fetchSearchSuggestions(value)] *)
| CallSearch (value : string).       (* [performSearch(value)] *)

Record Timer := {
  timer_id : nat;
  timer_delay : nat;
  timer_action : TimerAction
}.

(** A network request; [shouldReset] is the third argument of the hardened
    fetchers ([src/App.js] has none and records [true]). *)
Inductive Request :=
| PageRequest (endpoint : string) (pageNum : Z) (shouldReset : bool)
| SuggestionRequest (query : string)
| SearchRequest (query : string).

Definition isPageRequest (r : Request) : bool :=
  match r with PageRequest _ _ _ => true | _ => false end.

Definition isSuggestionRequest (r : Request) : bool :=
  match r with SuggestionRequest _ => true | _ => false end.

Definition isSearchRequest (r : Request) : bool :=
  match r with SearchRequest _ => true | _ => false end.

(** An [IntersectionObserver] made by the scroll effect: [observing] holds
    while it watches a grid cell that is in the document. *)
Record Observer := {
  observer_id : nat;
  observing : bool
}.

Record World := {
  st : AppState;
  typingTimeoutRef : option nat;        (* [typingTimeoutRef.current] *)
  debounceTimeoutId : option nat;       (* [timeoutId] inside [createDebounce] *)
  observerRef : option Observer;        (* [observerRef.current] *)
  scrollCleanup : bool;                 (* the scroll effect last returned a cleanup *)
  timers : list Timer;                  (* set and neither fired nor cleared *)
  timerCount : nat;                     (* timers created so far *)
  inflight : list (nat * Request);      (* requests that wait for their answer *)
  sent : list Request;                  (* every request issued, oldest first *)
  observerCount : nat;                  (* observers created so far *)
  loadMoreCalls : list nat              (* observers whose callback called [handleLoadMore] *)
}.

Definition withState (f : AppState -> AppState) (w : World) : World :=
  {| st := f (st w); typingTimeoutRef := typingTimeoutRef w;
     debounceTimeoutId := debounceTimeoutId w; observerRef := observerRef w;
     scrollCleanup := scrollCleanup w; timers := timers w; timerCount := timerCount w;
     inflight := inflight w; sent := sent w; observerCount := observerCount w;
     loadMoreCalls := loadMoreCalls w |}.

Definition setTypingTimeoutRef (v : option nat) (w : World) : World :=
  {| st := st w; typingTimeoutRef := v;
     debounceTimeoutId := debounceTimeoutId w; observerRef := observerRef w;
     scrollCleanup := scrollCleanup w; timers := timers w; timerCount := timerCount w;
     inflight := inflight w; sent := sent w; observerCount := observerCount w;
     loadMoreCalls := loadMoreCalls w |}.

Definition setDebounceTimeoutId (v : option nat) (w : World) : World :=
  {| st := st w; typingTimeoutRef := typingTimeoutRef w;
     debounceTimeoutId := v; observerRef := observerRef w;
     scrollCleanup := scrollCleanup w; timers := timers w; timerCount := timerCount w;
     inflight := inflight w; sent := sent w; observerCount := observerCount w;
     loadMoreCalls := loadMoreCalls w |}.

Definition setObserverRef (v : option Observer) (w : World) : World :=
  {| st := st w; typingTimeoutRef := typingTimeoutRef w;
     debounceTimeoutId := debounceTimeoutId w; observerRef := v;
     scrollCleanup := scrollCleanup w; timers := timers w; timerCount := timerCount w;
     inflight := inflight w; sent := sent w; observerCount := observerCount w;
     loadMoreCalls := loadMoreCalls w |}.

Definition setScrollCleanup (v : bool) (w : World) : World :=
  {| st := st w; typingTimeoutRef := typingTimeoutRef w;
     debounceTimeoutId := debounceTimeoutId w; observerRef := observerRef w;
     scrollCleanup := v; timers := timers w; timerCount := timerCount w;
     inflight := inflight w; sent := sent w; observerCount := observerCount w;
     loadMoreCalls := loadMoreCalls w |}.

(** [setTimeout(callback, delay)]: the new timer and its (non-zero) id. *)
Definition setTimeout (action : TimerAction) (delay : nat) (w : World) : nat * World :=
  let id := S (timerCount w) in
  (id,
   {| st := st w; typingTimeoutRef := typingTimeoutRef w;
      debounceTimeoutId := debounceTimeoutId w; observerRef := observerRef w;
      scrollCleanup := scrollCleanup w;
      timers := timers w ++ [{| timer_id := id; timer_delay := delay; timer_action := action |}];
      timerCount := id;
      inflight := inflight w; sent := sent w; observerCount := observerCount w;
      loadMoreCalls := loadMoreCalls w |}).

(** [clearTimeout(id)]: nothing happens for an id that already fired. *)
Definition clearTimeout (id : nat) (w : World) : World :=
  {| st := st w; typingTimeoutRef := typingTimeoutRef w;
     debounceTimeoutId := debounceTimeoutId w; observerRef := observerRef w;
     scrollCleanup := scrollCleanup w;
     timers := filter (fun t => timer_id t ≠ id) (timers w);
     timerCount := timerCount w;
     inflight := inflight w; sent := sent w; observerCount := observerCount w;
     loadMoreCalls := loadMoreCalls w |}.

(** [fetch(url)] up to the [await]: the request leaves and waits. *)
Definition sendRequest (r : Request) (w : World) : World :=
  {| st := st w; typingTimeoutRef := typingTimeoutRef w;
     debounceTimeoutId := debounceTimeoutId w; observerRef := observerRef w;
     scrollCleanup := scrollCleanup w; timers := timers w; timerCount := timerCount w;
     inflight := inflight w ++ [(S (length (sent w)), r)];
     sent := sent w ++ [r];
     observerCount := observerCount w;
     loadMoreCalls := loadMoreCalls w |}.

Definition findRequest (rid : nat) (l : list (nat * Request)) : option Request :=
  match filter (fun e => fst e = rid) l with
  | (_, r) :: _ => Some r
  | [] => None
  end.

(** The answer to request [rid] arrived: it no longer waits. *)
Definition takeRequest (rid : nat) (w : World) : option Request * World :=
  (findRequest rid (inflight w),
   {| st := st w; typingTimeoutRef := typingTimeoutRef w;
      debounceTimeoutId := debounceTimeoutId w; observerRef := observerRef w;
      scrollCleanup := scrollCleanup w; timers := timers w; timerCount := timerCount w;
      inflight := filter (fun e => fst e ≠ rid) (inflight w);
      sent := sent w; observerCount := observerCount w;
      loadMoreCalls := loadMoreCalls w |}).

(** [new IntersectionObserver(callback)] stored in [observerRef.current],
    followed by [observe(lastMovieRef.current)] when the ref is set. *)
Definition newObserver (hasTarget : bool) (w : World) : World :=
  let id := S (observerCount w) in
  {| st := st w; typingTimeoutRef := typingTimeoutRef w;
     debounceTimeoutId := debounceTimeoutId w;
     observerRef := Some {| observer_id := id; observing := hasTarget |};
     scrollCleanup := scrollCleanup w; timers := timers w; timerCount := timerCount w;
     inflight := inflight w; sent := sent w; observerCount := id;
     loadMoreCalls := loadMoreCalls w |}.

(** [if (observerRef.current) observerRef.current.disconnect()] *)
Definition disconnectObserver (w : World) : World :=
  match observerRef w with
  | Some o => setObserverRef (Some {| observer_id := observer_id o; observing := false |}) w
  | None => w
  end.

(** What a render that leaves the grid out does to the document, before any
    effect runs: the cells are removed, so the cell an observer watched is
    detached and is never reported as intersecting again.  (A render that
    keeps the grid is taken to keep the cell that is watched; which cells
    React keeps when the list changes under a grid that stays depends on
    the keys of the items and is not followed.) *)
Definition targetRemoved (w : World) : World :=
  match observerRef w with
  | Some o => setObserverRef (Some {| observer_id := observer_id o; observing := false |}) w
  | None => w
  end.

Definition noteLoadMoreCall (id : nat) (w : World) : World :=
  {| st := st w; typingTimeoutRef := typingTimeoutRef w;
     debounceTimeoutId := debounceTimeoutId w; observerRef := observerRef w;
     scrollCleanup := scrollCleanup w; timers := timers w; timerCount := timerCount w;
     inflight := inflight w; sent := sent w; observerCount := observerCount w;
     loadMoreCalls := loadMoreCalls w ++ [id] |}.

Definition initialWorld : World :=
  {| st := initialState; typingTimeoutRef := None; debounceTimeoutId := None;
     observerRef := None; scrollCleanup := false; timers := []; timerCount := 0%nat;
     inflight := []; sent := []; observerCount := 0%nat; loadMoreCalls := [] |}.

(** What can happen to the mounted component. *)
Inductive Event :=
| SearchChange (value : string)                (* [onChange] of the search box *)
| EnterKey                                      (* [onKeyDown] with [e.key === 'Enter'] *)
| TimerFires (id : nat)
| Responds (rid : nat) (outcome : FetchOutcome)
| LoadMoreClick                                 (* the "Load More" button *)
| Intersection (observer : nat) (isIntersecting : bool).

Definition pendingPageFetches (w : World) : nat :=
  length (filter (fun e => isPageRequest (snd e) = true) (inflight w)).

(** ** [src/App.js] *)

Module AppJs.

Definition tvCatMap : gmap string Value :=
  list_to_map
    [("popular_tv", Str "popular"); ("top_rated_tv", Str "top_rated");
     ("on_the_air", Str "on_the_air"); ("airing_today", Str "airing_today");
     ("tv_action", Number 10759); ("tv_comedy", Number 35); ("tv_drama", Number 18);
     ("tv_scifi", Number 10765); ("tv_animation", Number 16);
     ("tagalog_tv", Str "tagalog_tv"); ("tv_mystery", Number 9648);
     ("tv_reality", Number 10764); ("tv_documentary", Number 99)].

Definition genreNames : list string :=
  ["action"; "comedy"; "drama"; "horror"; "romance"; "thriller"; "scifi"; "animation"].

Definition genreMap : gmap string Value :=
  list_to_map
    [("action", Number 28); ("comedy", Number 35); ("drama", Number 18);
     ("horror", Number 27); ("romance", Number 10749); ("thriller", Number 53);
     ("scifi", Number 878); ("animation", Number 16)].

(** The [url] of [fetchTrending]. *)
Definition fetchTrending_url (env : Env) (showTV : bool) (pageNum : Z) : string :=
  "https://api.themoviedb.org/3/trending/" +:+ (if showTV then "tv" else "movie")
  +:+ "/week?api_key=" +:+ showKey env +:+ "&page=" +:+ showZ pageNum.

(** The [endpoint] that [fetchByCategory] builds before it fetches. *)
Definition fetchByCategory_endpoint (env : Env) (showTV : bool) (cat : string) (pageNum : Z)
  : string :=
  if showTV then
    let tvCat := getMember (inherited env) tvCatMap cat in
    if String.eqb (typeof tvCat) "number" then
      "https://api.themoviedb.org/3/discover/tv?api_key=" +:+ showKey env
      +:+ "&with_genres=" +:+ show tvCat
      +:+ "&sort_by=popularity.desc&page=" +:+ showZ pageNum
    else if strictEqStr tvCat "tagalog_tv" then
      "https://api.themoviedb.org/3/discover/tv?api_key=" +:+ showKey env
      +:+ "&with_original_language=tl&sort_by=popularity.desc&page=" +:+ showZ pageNum
    else
      "https://api.themoviedb.org/3/tv/" +:+ show tvCat
      +:+ "?api_key=" +:+ showKey env +:+ "&page=" +:+ showZ pageNum
  else
    if String.eqb cat "filipino" then
      "https://api.themoviedb.org/3/discover/movie?api_key=" +:+ showKey env
      +:+ "&with_original_language=tl&region=PH&sort_by=popularity.desc&page="
      +:+ showZ pageNum
    else if existsb (String.eqb cat) genreNames then
      let genreId := getMember (inherited env) genreMap cat in
      "https://api.themoviedb.org/3/discover/movie?api_key=" +:+ showKey env
      +:+ "&with_genres=" +:+ show genreId
      +:+ "&sort_by=popularity.desc&page=" +:+ showZ pageNum
    else
      "https://api.themoviedb.org/3/movie/" +:+ cat
      +:+ "?api_key=" +:+ showKey env +:+ "&page=" +:+ showZ pageNum.

(** [fetchTrending(pageNum)] up to [await fetch(url)]. *)
Definition fetchTrending (env : Env) (pageNum : Z) (w : World) : World :=
  let w := withState (setLoading true) w in
  let w := withState (setError None) w in
  sendRequest (PageRequest (fetchTrending_url env (showTVSeriesPage (st w)) pageNum)
                           pageNum true) w.

(** [fetchByCategory(cat, pageNum)] up to [await fetch(endpoint)]. *)
Definition fetchByCategory (env : Env) (cat : string) (pageNum : Z) (w : World) : World :=
  let w := withState (setLoading true) w in
  let w := withState (setError None) w in
  sendRequest (PageRequest (fetchByCategory_endpoint env (showTVSeriesPage (st w)) cat pageNum)
                           pageNum true) w.

(** [pageNum < data.total_pages]: a comparison with [undefined] is false. *)
Definition belowTotal (pageNum : Z) (total_pages : option Z) : bool :=
  match total_pages with
  | Some t => pageNum <? t
  | None => false
  end.

(** The rest of the [try] block of [fetchTrending] (and, word for word, of
    [fetchByCategory]) once [fetch] has settled. *)
Definition pageFetched_try (pageNum : Z) (outcome : FetchOutcome) (s : AppState)
  : AppState * Completion unit :=
  match outcome with
  | Rejected message => (s, Throw message)
  | Responded status body =>
      if negb (res_ok status) then (s, Throw "Failed to fetch")
      else
        match body with
        | BadJson message => (s, Throw message)
        | JsonNull =>
            if pageNum =? 1
            then (s, Throw "TypeError: Cannot read properties of null")
            else
              (* the updater handed to [setMovies] reads [data.results] when
                 React renders; [data.total_pages] throws at once *)
              (renderThrows s, Throw "TypeError: Cannot read properties of null")
        | JsonData results total_pages _ =>
            let s :=
              if pageNum =? 1 then
                let s := setMovies (default [] results) s in
                setFeatured (head (default [] results)) s
              else
                setMovies (movies s ++ default [] results) s in
            let s := setHasMore (belowTotal pageNum total_pages) s in
            let s := setPage pageNum s in
            (s, Normal tt)
        end
  end.

Definition pageFetched (pageNum : Z) (outcome : FetchOutcome) : AppState -> AppState :=
  tryCatchFinally
    (pageFetched_try pageNum outcome)
    (fun _ s => setError (Some "Failed to load content") s)
    (setLoading false).

(** [handleLoadMore] *)
Definition handleLoadMore (env : Env) (w : World) : World :=
  if String.eqb (category (st w)) "trending"
  then fetchTrending env (page (st w) + 1) w
  else fetchByCategory env (category (st w)) (page (st w) + 1) w.

(** [category === "trending" ? fetchTrending() : fetchByCategory(category)] *)
Definition fetchFirstPage (env : Env) (w : World) : World :=
  if String.eqb (category (st w)) "trending"
  then fetchTrending env 1 w
  else fetchByCategory env (category (st w)) 1 w.

(** [fetchSearchSuggestions(query)] up to its [await]. *)
Definition fetchSearchSuggestions (query : string) (w : World) : World :=
  if (String.length (trim query) <? 2)%nat
  then withState (setSuggestions []) w
  else sendRequest (SuggestionRequest query) w.

(** ... and after it: [res.ok] is not looked at. *)
Definition suggestionsFetched (outcome : FetchOutcome) (s : AppState) : AppState :=
  match outcome with
  | Rejected _ => setSuggestions [] s
  | Responded _ (BadJson _) => setSuggestions [] s
  | Responded _ JsonNull => setSuggestions [] s
  | Responded _ (JsonData results _ _) => setSuggestions (take 5 (default [] results)) s
  end.

(** [performSearch(query)] up to its [await]. *)
Definition performSearch (env : Env) (query : string) (w : World) : World :=
  if negb (truthyStr (trim query)) then
    let w := withState (setSearchResults []) w in
    let w := withState (setSuggestions []) w in
    let w := withState (setIsSearching false) w in
    let w := withState (setSearch "") w in
    let w := withState (setPage 1) w in
    let w := withState (setHasMore true) w in
    fetchFirstPage env w
  else
    let w := withState (setIsSearching true) w in
    let w := withState (setLoading true) w in
    let w := withState (setError None) w in
    sendRequest (SearchRequest query) w.

Definition searchFetched_try (outcome : FetchOutcome) (s : AppState)
  : AppState * Completion unit :=
  match outcome with
  | Rejected message => (s, Throw message)
  | Responded status body =>
      if negb (res_ok status) then (s, Throw "Search failed")
      else
        match body with
        | BadJson message => (s, Throw message)
        | JsonNull => (s, Throw "TypeError: Cannot read properties of null")
        | JsonData results _ _ =>
            let s := setSearchResults (default [] results) s in
            let s := setSuggestions [] s in
            let s := setFeatured None s in
            let s := setMovies [] s in
            let s := setPage 1 s in
            let s := setHasMore false s in
            (s, Normal tt)
        end
  end.

Definition searchFetched (outcome : FetchOutcome) : AppState -> AppState :=
  tryCatchFinally
    (searchFetched_try outcome)
    (fun _ s =>
       let s := setError (Some "Search failed") s in
       let s := setSearchResults [] s in
       setSuggestions [] s)
    (fun s => setLoading false (setIsSearching false s)).

(** [if (typingTimeoutRef.current) clearTimeout(typingTimeoutRef.current)] *)
Definition clearTypingTimeout (w : World) : World :=
  match typingTimeoutRef w with
  | Some id => clearTimeout id w
  | None => w
  end.

(** [handleSearchChange]: both timers are stored in the one ref, the second
    assignment replaces the first. *)
Definition handleSearchChange (env : Env) (value : string) (w : World) : World :=
  let w := withState (setSearch value) w in
  let w := clearTypingTimeout w in
  if negb (truthyStr (trim value)) then
    let w := withState (setSearchResults []) w in
    let w := withState (setSuggestions []) w in
    let w := withState (setIsSearching false) w in
    let w := withState (setPage 1) w in
    let w := withState (setHasMore true) w in
    fetchFirstPage env w
  else if (2 <=? String.length (trim value))%nat then
    let w := withState (setIsSearching true) w in
    let '(id, w) := setTimeout (CallSuggestions value) 300 w in
    let w := setTypingTimeoutRef (Some id) w in
    let '(id, w) := setTimeout (CallSearch value) 500 w in
    setTypingTimeoutRef (Some id) w
  else w.

(** *** What is on screen *)

(** [const displayMovies = search.trim() ? searchResults : movies] *)
Definition displayMovies (s : AppState) : list MediaItem :=
  if truthyStr (trim (search s)) then searchResults s else movies s.

(** The grid is in the tree, so [lastMovieRef.current] is its last cell. *)
Definition gridRendered (s : AppState) : bool :=
  isNone (watchUrl s) && negb (loading s) && isNone (error s)
  && nonEmpty (displayMovies s) && negb (showTVDetails s).

(** The "Load More" button is in the tree and not [disabled]. *)
Definition loadMoreButton (s : AppState) : bool :=
  gridRendered s && negb (truthyStr (trim (search s))) && hasMore s && negb (loading s).

(** The list of suggestions is in the tree. *)
Definition suggestionsShown (s : AppState) : bool :=
  nonEmpty (suggestions s) && (2 <=? String.length (trim (search s)))%nat.

(** *** Effects *)

(** Dependencies of the scroll effect:
    [[loading, hasMore, search, handleLoadMore]], where [handleLoadMore]
    changes with [category], [page] and (through the fetchers)
    [showTVSeriesPage]. *)
Definition sameScrollDeps (a b : AppState) : bool :=
  Bool.eqb (loading a) (loading b) && Bool.eqb (hasMore a) (hasMore b)
  && String.eqb (search a) (search b) && String.eqb (category a) (category b)
  && (page a =? page b) && Bool.eqb (showTVSeriesPage a) (showTVSeriesPage b).

(** The scroll effect, run for the render of [s]. *)
Definition scrollEffect (s : AppState) (w : World) : World :=
  if loading s || negb (hasMore s) || truthyStr (trim (search s))
  then setScrollCleanup false w
  else
    let w := disconnectObserver w in
    let w := newObserver (gridRendered s) w in
    setScrollCleanup true w.

Definition scrollEffect_cleanup (w : World) : World :=
  if scrollCleanup w then disconnectObserver w else w.

(** The callback the scroll effect gives to its observer. *)
Definition onIntersection (env : Env) (id : nat) (isIntersecting : bool) (w : World) : World :=
  if isIntersecting then handleLoadMore env (noteLoadMoreCall id w) else w.

(** Dependencies of the load effect:
    [[category, showTVSeriesPage, search, fetchTrending, fetchByCategory]]. *)
Definition sameLoadDeps (a b : AppState) : bool :=
  String.eqb (category a) (category b)
  && Bool.eqb (showTVSeriesPage a) (showTVSeriesPage b)
  && String.eqb (search a) (search b).

Definition loadEffect (env : Env) (s : AppState) (w : World) : World :=
  if negb (truthyStr (search s)) then
    let w := withState (setPage 1) w in
    let w := withState (setHasMore true) w in
    if String.eqb (category s) "trending"
    then fetchTrending env 1 w
    else fetchByCategory env (category s) 1 w
  else w.

(** Its cleanup runs before every re-run, hence after every change of
    [search]. *)
Definition loadEffect_cleanup (w : World) : World := clearTypingTimeout w.

(** One commit: the component rendered [st w] after having rendered [prev].
    The render is applied to the document; then the cleanups of the effects
    whose dependencies changed run, then their bodies, in the order of
    declaration. *)
Definition commitOnce (env : Env) (prev : AppState) (w : World) : World :=
  let s := st w in
  let scroll := negb (sameScrollDeps prev s) in
  let load := negb (sameLoadDeps prev s) in
  let w := if gridRendered s then w else targetRemoved w in
  let w := if scroll then scrollEffect_cleanup w else w in
  let w := if load then loadEffect_cleanup w else w in
  let w := if scroll then scrollEffect s w else w in
  if load then loadEffect env s w else w.

(** State set by an effect is rendered and committed in turn; the effects
    set nothing that the load effect depends on, so two rounds settle. *)
Definition commit (env : Env) (prev : AppState) (w : World) : World :=
  commitOnce env (st w) (commitOnce env prev w).

(** The first render: every effect runs. *)
Definition mount (env : Env) : World :=
  let w := scrollEffect initialState initialWorld in
  let w := loadEffect env initialState w in
  commitOnce env initialState w.

Definition fire (env : Env) (action : TimerAction) (w : World) : World :=
  match action with
  | CallSuggestions value => fetchSearchSuggestions value w
  | CallSearch value => performSearch env value w
  end.

(** [handleKeyDown], for the Enter key. *)
Definition handleEnter (env : Env) (w : World) : World :=
  if truthyStr (trim (search (st w))) then performSearch env (search (st w)) w else w.

Definition handle (env : Env) (ev : Event) (w : World) : World :=
  match ev with
  | SearchChange value => handleSearchChange env value w
  | EnterKey => handleEnter env w
  | TimerFires id =>
      match filter (fun t => timer_id t = id) (timers w) with
      | t :: _ => fire env (timer_action t) (clearTimeout id w)
      | [] => w
      end
  | Responds rid outcome =>
      let '(request, w) := takeRequest rid w in
      match request with
      | Some (PageRequest _ pageNum _) => withState (pageFetched pageNum outcome) w
      | Some (SuggestionRequest _) => withState (suggestionsFetched outcome) w
      | Some (SearchRequest _) => withState (searchFetched outcome) w
      | None => w
      end
  | LoadMoreClick =>
      if loadMoreButton (st w) then handleLoadMore env w else w
  | Intersection id isIntersecting =>
      match observerRef w with
      | Some o =>
          if (observer_id o =? id)%nat && observing o
          then onIntersection env id isIntersecting w
          else w
      | None => w
      end
  end.

(** One turn of the event loop.  A world in which the error boundary has
    replaced the component is not followed any further. *)
Definition step (env : Env) (w : World) (ev : Event) : World :=
  if boundaryHasError (st w) then w
  else commit env (st w) (handle env ev w).

Definition run (env : Env) (evs : list Event) (w : World) : World :=
  fold_left (step env) evs w.

End AppJs.

(** ** The hardened component (first component of the unnamed bundle) *)

Module Hardened.

(** [!API_KEY || API_KEY === 'undefined'] *)
Definition keyUnusable (env : Env) : bool :=
  keyMissing env || String.eqb (showKey env) "undefined".

Definition fetchTrending_url (env : Env) (s : AppState) (pageNum : Z) : string :=
  AppJs.fetchTrending_url env (showTVSeriesPage s) pageNum
  +:+ "&language=" +:+ selectedLanguage s.

(** Every endpoint of [src/App.js] with [&language=...] after it. *)
Definition fetchByCategory_endpoint (env : Env) (s : AppState) (cat : string) (pageNum : Z)
  : string :=
  AppJs.fetchByCategory_endpoint env (showTVSeriesPage s) cat pageNum
  +:+ "&language=" +:+ selectedLanguage s.

(** [fetchTrending(pageNum, shouldReset)] up to [await fetch(url)]. *)
Definition fetchTrending (env : Env) (pageNum : Z) (shouldReset : bool) (w : World) : World :=
  if keyUnusable env then w
  else
    let w := if shouldReset then withState (setLoading true) w else w in
    let w := withState (setError None) w in
    sendRequest (PageRequest (fetchTrending_url env (st w) pageNum) pageNum shouldReset) w.

(** [fetchByCategory(cat, pageNum, shouldReset)] up to [await fetch(endpoint)]. *)
Definition fetchByCategory (env : Env) (cat : string) (pageNum : Z) (shouldReset : bool)
    (w : World) : World :=
  if keyUnusable env then w
  else
    let w := if shouldReset then withState (setLoading true) w else w in
    let w := withState (setError None) w in
    sendRequest
      (PageRequest (fetchByCategory_endpoint env (st w) cat pageNum) pageNum shouldReset) w.

(** The updater given to [setMovies] for a further page:
    [existingIds] is a [Set] of the identifiers already shown. *)
Definition mergePage (prev validResults : list MediaItem) : list MediaItem :=
  let existingIds : gset (option Z) := list_to_set (item_id <$> prev) in
  let newItems := filter (fun item => item_id item ∉ existingIds) validResults in
  prev ++ newItems.

(** [err.message || fallback] *)
Definition messageOr (message fallback : string) : string :=
  if truthyStr message then message else fallback.

(** The rest of the [try] block of [fetchTrending] (and, word for word, of
    [fetchByCategory]) once [fetch] has settled. *)
Definition pageFetched_try (pageNum : Z) (shouldReset : bool) (outcome : FetchOutcome)
    (s : AppState) : AppState * Completion unit :=
  match outcome with
  | Rejected message => (s, Throw message)
  | Responded status body =>
      if negb (res_ok status) then
        if status =? 429
        then (s, Throw "API rate limit exceeded. Please try again later.")
        else (s, Throw ("Failed to fetch data: " +:+ showZ status))
      else
        match body with
        | BadJson message => (s, Throw message)
        | JsonNull => (s, Throw "TypeError: Cannot read properties of null")
        | JsonData None _ _ => (s, Throw "Invalid data received from API")
        | JsonData (Some results) total_pages total_results =>
            let validResults := List.filter isValidMediaItem results in
            let s :=
              if (pageNum =? 1) || shouldReset then
                let s := setMovies validResults s in
                setFeatured (head validResults) s
              else
                setMovies (mergePage (movies s) validResults) s in
            let s := setTotalResults (default 0 total_results) s in
            let s :=
              setHasMore
                (pageNum <? (if truthyNum total_pages then default 1 total_pages else 1)) s in
            let s := setPage pageNum s in
            (s, Normal tt)
        end
  end.

Definition pageFetched (pageNum : Z) (shouldReset : bool) (outcome : FetchOutcome)
  : AppState -> AppState :=
  tryCatchFinally
    (pageFetched_try pageNum shouldReset outcome)
    (fun message s =>
       let s := setError (Some (messageOr message "Failed to load content")) s in
       if pageNum =? 1 then setFeatured None (setMovies [] s) else s)
    (fun s => if shouldReset then setLoading false s else s).

(** [handleLoadMore] *)
Definition handleLoadMore (env : Env) (w : World) : World :=
  if loading (st w) || negb (hasMore (st w)) then w
  else if String.eqb (category (st w)) "trending"
  then fetchTrending env (page (st w) + 1) false w
  else fetchByCategory env (category (st w)) (page (st w) + 1) false w.

(** [fetchTrending()] or [fetchByCategory(category)], with the default
    arguments [pageNum = 1] and [shouldReset = true]. *)
Definition fetchFirstPage (env : Env) (cat : string) (w : World) : World :=
  if String.eqb cat "trending"
  then fetchTrending env 1 true w
  else fetchByCategory env cat 1 true w.

(** [fetchSearchSuggestions(query)] up to its [await]. *)
Definition fetchSearchSuggestions (env : Env) (query : string) (w : World) : World :=
  if keyMissing env || (String.length (trim query) <? 2)%nat
  then withState (setSuggestions []) w
  else sendRequest (SuggestionRequest query) w.

Definition suggestionsFetched (outcome : FetchOutcome) (s : AppState) : AppState :=
  match outcome with
  | Rejected _ => setSuggestions [] s
  | Responded status body =>
      if negb (res_ok status) then s
      else
        match body with
        | BadJson _ => setSuggestions [] s
        | JsonNull => setSuggestions [] s
        | JsonData (Some results) _ _ =>
            setSuggestions (List.filter isValidMediaItem (take 5 results)) s
        | JsonData None _ _ => setSuggestions [] s
        end
  end.

(** [handleClearSearch] *)
Definition handleClearSearch (env : Env) (w : World) : World :=
  let w := withState (setSearch "") w in
  let w := withState (setSearchResults []) w in
  let w := withState (setSuggestions []) w in
  let w := withState (setIsSearching false) w in
  let w := withState (setPage 1) w in
  let w := withState (setHasMore true) w in
  let w := withState (setMovies []) w in
  let w := withState (setTotalResults 0) w in
  let w :=
    match typingTimeoutRef w with
    | Some id => setTypingTimeoutRef None (clearTimeout id w)
    | None => w
    end in
  fetchFirstPage env (category (st w)) w.

(** [performSearch(query)] up to its [await]. *)
Definition performSearch (env : Env) (query : string) (w : World) : World :=
  if negb (truthyStr (trim query)) then handleClearSearch env w
  else
    let w := withState (setIsSearching true) w in
    let w := withState (setLoading true) w in
    let w := withState (setError None) w in
    sendRequest (SearchRequest query) w.

Definition searchFetched_try (outcome : FetchOutcome) (s : AppState)
  : AppState * Completion unit :=
  match outcome with
  | Rejected message => (s, Throw message)
  | Responded status body =>
      if negb (res_ok status) then
        if status =? 429
        then (s, Throw "API rate limit exceeded. Please try again later.")
        else (s, Throw ("Search failed: " +:+ showZ status))
      else
        match body with
        | BadJson message => (s, Throw message)
        | JsonNull => (s, Throw "TypeError: Cannot read properties of null")
        | JsonData results _ total_results =>
            let s :=
              match results with
              | Some results =>
                  let s := setSearchResults (List.filter isValidMediaItem results) s in
                  setTotalResults (default 0 total_results) s
              | None =>
                  let s := setSearchResults [] s in
                  setTotalResults 0 s
              end in
            let s := setSuggestions [] s in
            let s := setFeatured None s in
            let s := setMovies [] s in
            let s := setPage 1 s in
            let s := setHasMore false s in
            (s, Normal tt)
        end
  end.

Definition searchFetched (outcome : FetchOutcome) : AppState -> AppState :=
  tryCatchFinally
    (searchFetched_try outcome)
    (fun message s =>
       let s := setError (Some (messageOr message "Search failed")) s in
       let s := setSearchResults [] s in
       let s := setSuggestions [] s in
       setTotalResults 0 s)
    (fun s => setLoading false (setIsSearching false s)).

(** The function [createDebounce()] returns, applied to a callback that
    runs [action], a delay and the arguments: [timeoutId] is private to it. *)
Definition debounce (action : TimerAction) (delay : nat) (w : World) : World :=
  let w :=
    match debounceTimeoutId w with
    | Some id => clearTimeout id w
    | None => w
    end in
  let '(id, w) := setTimeout action delay w in
  setDebounceTimeoutId (Some id) w.

(** [handleSearchChange] *)
Definition handleSearchChange (env : Env) (value : string) (w : World) : World :=
  let w := withState (setSearch value) w in
  let w :=
    match typingTimeoutRef w with
    | Some id => setTypingTimeoutRef None (clearTimeout id w)
    | None => w
    end in
  if negb (truthyStr (trim value)) then handleClearSearch env w
  else if (2 <=? String.length (trim value))%nat then
    let w := withState (setIsSearching true) w in
    let '(id, w) := setTimeout (CallSuggestions value) 300 w in
    let w := setTypingTimeoutRef (Some id) w in
    debounce (CallSearch value) 500 w
  else
    let w := withState (setSuggestions []) w in
    let w := withState (setSearchResults []) w in
    withState (setIsSearching false) w.

(** *** What is on screen *)

Definition displayMovies (s : AppState) : list MediaItem :=
  if truthyStr (trim (search s))
  then List.filter isValidMediaItem (searchResults s)
  else List.filter isValidMediaItem (movies s).

Definition gridRendered (s : AppState) : bool :=
  isNone (watchUrl s) && negb (loading s) && isNone (error s)
  && nonEmpty (displayMovies s) && negb (showTVDetails s).

Definition loadMoreButton (s : AppState) : bool :=
  gridRendered s && negb (truthyStr (trim (search s))) && hasMore s
  && nonEmpty (displayMovies s) && negb (loading s).

Definition suggestionsShown (s : AppState) : bool :=
  nonEmpty (suggestions s) && (2 <=? String.length (trim (search s)))%nat.

(** *** Effects *)

(** Dependencies of the scroll effect:
    [[loading, hasMore, search, handleLoadMore, showTVDetails, movies.length]];
    [handleLoadMore] changes with [category], [page], [loading], [hasMore]
    and (through the fetchers) [showTVSeriesPage] and [selectedLanguage]. *)
Definition sameScrollDeps (a b : AppState) : bool :=
  Bool.eqb (loading a) (loading b) && Bool.eqb (hasMore a) (hasMore b)
  && String.eqb (search a) (search b) && String.eqb (category a) (category b)
  && (page a =? page b) && Bool.eqb (showTVSeriesPage a) (showTVSeriesPage b)
  && String.eqb (selectedLanguage a) (selectedLanguage b)
  && Bool.eqb (showTVDetails a) (showTVDetails b)
  && (length (movies a) =? length (movies b))%nat.

Definition scrollEffect (s : AppState) (w : World) : World :=
  if loading s || negb (hasMore s) || truthyStr (trim (search s)) || showTVDetails s
     || negb (nonEmpty (movies s))
  then setScrollCleanup false w
  else
    let w := disconnectObserver w in
    let w := newObserver (gridRendered s) w in
    setScrollCleanup true w.

Definition scrollEffect_cleanup (w : World) : World :=
  if scrollCleanup w
  then match observerRef w with
       | Some _ => setObserverRef None (disconnectObserver w)
       | None => w
       end
  else w.

Definition onIntersection (env : Env) (id : nat) (isIntersecting : bool) (w : World) : World :=
  if isIntersecting then handleLoadMore env (noteLoadMoreCall id w) else w.

(** Dependencies of the load effect: [[category, showTVSeriesPage,
    selectedLanguage, search, fetchTrending, fetchByCategory]].  It returns
    no cleanup. *)
Definition sameLoadDeps (a b : AppState) : bool :=
  String.eqb (category a) (category b)
  && Bool.eqb (showTVSeriesPage a) (showTVSeriesPage b)
  && String.eqb (selectedLanguage a) (selectedLanguage b)
  && String.eqb (search a) (search b).

Definition loadEffect (env : Env) (s : AppState) (w : World) : World :=
  if negb (truthyStr (trim (search s))) then
    let w := withState (setPage 1) w in
    let w := withState (setHasMore true) w in
    let w := withState (setSearchResults []) w in
    let w := withState (setSuggestions []) w in
    fetchFirstPage env (category s) w
  else w.

(** The effect that checks the configuration, once. *)
Definition keyEffect (env : Env) (w : World) : World :=
  if keyMissing env || String.eqb (showKey env) "undefined"
     || String.eqb (showKey env) "your_tmdb_api_key_here"
  then withState
         (setError (Some "Configuration error: API key is missing. Please check your setup."))
         w
  else w.

(** One commit, as in [src/App.js]: the render is applied to the document,
    then the effects whose dependencies changed are cleaned up and run. *)
Definition commitOnce (env : Env) (prev : AppState) (w : World) : World :=
  let s := st w in
  let scroll := negb (sameScrollDeps prev s) in
  let load := negb (sameLoadDeps prev s) in
  let w := if gridRendered s then w else targetRemoved w in
  let w := if scroll then scrollEffect_cleanup w else w in
  let w := if scroll then scrollEffect s w else w in
  if load then loadEffect env s w else w.

Definition commit (env : Env) (prev : AppState) (w : World) : World :=
  commitOnce env (st w) (commitOnce env prev w).

Definition mount (env : Env) : World :=
  let w := keyEffect env initialWorld in
  let w := scrollEffect initialState w in
  let w := loadEffect env initialState w in
  commitOnce env initialState w.

Definition fire (env : Env) (action : TimerAction) (w : World) : World :=
  match action with
  | CallSuggestions value => fetchSearchSuggestions env value w
  | CallSearch value => performSearch env value w
  end.

(** [handleKeyDown], for the Enter key. *)
Definition handleEnter (env : Env) (w : World) : World :=
  if truthyStr (trim (search (st w))) then
    let w :=
      match typingTimeoutRef w with
      | Some id => clearTimeout id w
      | None => w
      end in
    performSearch env (search (st w)) w
  else w.

Definition handle (env : Env) (ev : Event) (w : World) : World :=
  match ev with
  | SearchChange value => handleSearchChange env value w
  | EnterKey => handleEnter env w
  | TimerFires id =>
      match filter (fun t => timer_id t = id) (timers w) with
      | t :: _ => fire env (timer_action t) (clearTimeout id w)
      | [] => w
      end
  | Responds rid outcome =>
      let '(request, w) := takeRequest rid w in
      match request with
      | Some (PageRequest _ pageNum shouldReset) =>
          withState (pageFetched pageNum shouldReset outcome) w
      | Some (SuggestionRequest _) => withState (suggestionsFetched outcome) w
      | Some (SearchRequest _) => withState (searchFetched outcome) w
      | None => w
      end
  | LoadMoreClick =>
      if loadMoreButton (st w) then handleLoadMore env w else w
  | Intersection id isIntersecting =>
      match observerRef w with
      | Some o =>
          if (observer_id o =? id)%nat && observing o
          then onIntersection env id isIntersecting w
          else w
      | None => w
      end
  end.

Definition step (env : Env) (w : World) (ev : Event) : World :=
  if boundaryHasError (st w) then w
  else commit env (st w) (handle env ev w).

Definition run (env : Env) (evs : list Event) (w : World) : World :=
  fold_left (step env) evs w.

End Hardened.

(** ** [src/components/OptimizedImage.jsx]: the lazy-loading watch *)

Module OptimizedImage.

(** One mounted image: its [isVisible] hook, whether the observer made by
    the effect still watches the placeholder, and how often the observer
    callback has called [setIsVisible(true)]. *)
Record Image := {
  lazy : bool;
  priority : bool;
  isVisible : bool;
  watching : bool;
  shown : nat
}.

(** The effect: [if (!lazy || priority || isVisible) return;] otherwise a new
    observer watches [imgRef.current], the placeholder. *)
Definition lazyEffect (i : Image) : Image :=
  if negb (lazy i) || priority i || isVisible i
  then {| lazy := lazy i; priority := priority i; isVisible := isVisible i;
          watching := false; shown := shown i |}
  else {| lazy := lazy i; priority := priority i; isVisible := isVisible i;
          watching := true; shown := shown i |}.

(** Its cleanup: [observerRef.current.disconnect()]. *)
Definition lazyEffect_cleanup (i : Image) : Image :=
  {| lazy := lazy i; priority := priority i; isVisible := isVisible i;
     watching := false; shown := shown i |}.

(** [useState(!lazy || priority)], then the effect of the first render. *)
Definition mount (lazy priority : bool) : Image :=
  lazyEffect {| lazy := lazy; priority := priority; isVisible := negb lazy || priority;
                watching := false; shown := 0 |}.

(** The observer callback:
    [if (entry.isIntersecting) { setIsVisible(true); observer.disconnect(); }] *)
Definition callback (isIntersecting : bool) (i : Image) : Image :=
  if isIntersecting
  then {| lazy := lazy i; priority := priority i; isVisible := true;
          watching := false; shown := S (shown i) |}
  else i.

(** A notification reaches the callback only while the observer watches;
    when [isVisible] changed, the effect is cleaned up and run again. *)
Definition notify (i : Image) (isIntersecting : bool) : Image :=
  if watching i then
    let i' := callback isIntersecting i in
    if Bool.eqb (isVisible i') (isVisible i) then i'
    else lazyEffect (lazyEffect_cleanup i')
  else i.

Definition notifyAll (entries : list bool) (i : Image) : Image :=
  fold_left notify entries i.

End OptimizedImage.

From Stdlib Require Import DecimalPos DecimalZ Sorted.

(** ** Numbers that come out of strings *)

Module JsNum.

(** A number: not-a-number, or an integer (as everywhere in this
    development, numbers that are not integers are left out). *)
Inductive Num :=
| NaN
| Int (z : Z).

(** A number inside a template literal. *)
Definition showNum (n : Num) : string :=
  match n with
  | NaN => "NaN"
  | Int z => showZ z
  end.

(** The characters a numeric literal can begin with: a digit, a sign, the
    point of [.5], the [I] of [Infinity]. *)
Definition startsLiteral (c : ascii) : bool :=
  let n := nat_of_ascii c in
  ((48 <=? n)%nat && (n <=? 57)%nat)
  || Ascii.eqb c "+" || Ascii.eqb c "-" || Ascii.eqb c "." || Ascii.eqb c "I".

(** Integers up to this bound are converted and doubled with no rounding. *)
Definition exactBound : Z := 1000000000000000.

(** [Number(s)] for a string [s].  White space around the literal is
    dropped and the empty string is [0]; an optional sign followed by
    decimal digits is that integer; a string that begins with no character
    of a literal is [NaN].  [None] stands for the strings in between
    (fractions, exponents, radix prefixes, [Infinity], more digits than
    convert exactly, malformed literals), which this development does not
    evaluate. *)
Definition stringToNumber (s : string) : option Num :=
  match trim s with
  | EmptyString => Some (Int 0)
  | String c rest =>
      let negative := Ascii.eqb c "-" in
      let body := if negative || Ascii.eqb c "+" then rest else String c rest in
      match NilZero.uint_of_string body with
      | Some d =>
          let z := Z.of_uint d in
          if z <=? exactBound then Some (Int (if negative then - z else z)) else None
      | None => if startsLiteral c then None else Some NaN
      end
  end.

(** [Number(v)]: a plain object and a function convert through their text,
    which is no numeric literal. *)
Definition toNumber (v : Value) : option Num :=
  match v with
  | Undefined => Some NaN
  | Null => Some (Int 0)
  | Bool b => Some (Int (if b then 1 else 0))
  | Number n => Some (Int n)
  | Str s => stringToNumber s
  | Object | Function _ => Some NaN
  end.

(** [Math.floor(n / d)] and [n % d] (the sign of the dividend) for a positive
    integer [d].  The code computes them on doubles: for an integer within
    [exactBound] the quotient is rounded by far less than the distance
    [1 / d] to the next integer, so the floor is the one of the exact
    quotient, and the remainder of doubles is exact.  [None] stands for the
    integers beyond the bound, which this development does not evaluate. *)
Definition withinBound (z : Z) : bool := Z.abs z <=? exactBound.

Definition floorDiv (n : Num) (d : Z) : option Num :=
  match n with
  | NaN => Some NaN
  | Int z => if withinBound z then Some (Int (z / d)) else None
  end.

Definition remainder (n : Num) (d : Z) : option Num :=
  match n with
  | NaN => Some NaN
  | Int z => if withinBound z then Some (Int (Z.rem z d)) else None
  end.

(** [n > z] *)
Definition greater (n : Num) (z : Z) : bool :=
  match n with
  | NaN => false
  | Int a => z <? a
  end.

(** What evaluating an expression gives: a value, a thrown [TypeError], or
    nothing when it goes through a number that [stringToNumber] leaves
    out. *)
Inductive Outcome (A : Type) :=
| Returns (a : A)
| Raises (message : string)
| Unevaluated.
Arguments Returns {A} a.
Arguments Raises {A} message.
Arguments Unevaluated {A}.

#[export] Instance outcome_ret : MRet Outcome := fun A a => Returns a.

#[export] Instance outcome_bind : MBind Outcome := fun A B k c =>
  match c with
  | Returns a => k a
  | Raises m => Raises m
  | Unevaluated => Unevaluated
  end.

(** [s.replace(c, '')] for a one-character pattern: the first occurrence
    goes. *)
Fixpoint replaceFirst (c : ascii) (s : string) : string :=
  match s with
  | EmptyString => EmptyString
  | String a rest => if Ascii.eqb a c then rest else String a (replaceFirst c rest)
  end.

End JsNum.

Import JsNum.

(** ** [utils/imageUtils] (the second file of the unnamed bundle) *)

Module ImageUtils.

Definition PLACEHOLDER_IMAGE : string :=
  "https://via.placeholder.com/300x450/111/666?text=No+Poster".

(** [imageSizes.name] for a name written in the source: the table has the
    entries of [imageSizes] above. *)
Definition preset (name : string) : Value := default Undefined (imageSizes !! name).

(** The [options] object; a member that is absent is [Undefined]. *)
Record Options := {
  opt_size : Value;
  opt_format : Value;
  opt_quality : Value;
  opt_retina : Value
}.

(** [{}] *)
Definition noOptions : Options :=
  {| opt_size := Undefined; opt_format := Undefined;
     opt_quality := Undefined; opt_retina := Undefined |}.

(** [{ member = fallback } = options] *)
Definition orDefault (v fallback : Value) : Value :=
  match v with
  | Undefined => fallback
  | _ => v
  end.

(** The text of [size.replace('w', '') * 2] inside a template literal. *)
Definition doubled (size : Value) : Outcome string :=
  match size with
  | Str s =>
      match stringToNumber (replaceFirst "w" s) with
      | Some NaN => Returns (showNum NaN)
      | Some (Int z) => Returns (showNum (Int (z * 2)))
      | None => Unevaluated
      end
  | Undefined | Null => Raises "TypeError: Cannot read properties of null"
  | _ => Raises "TypeError: size.replace is not a function"
  end.

Definition getOptimizedImageUrl (path : Value) (options : Options) : Outcome string :=
  if negb (truthy path) then Returns PLACEHOLDER_IMAGE
  else
    let size := orDefault (opt_size options) (preset "card") in
    let format := orDefault (opt_format options) (Str "webp") in
    let quality := orDefault (opt_quality options) (Number 80) in
    let retina := orDefault (opt_retina options) (Bool false) in
    actualSize ← (if truthy retina && negb (strictEqStr size "original")
                  then doubled size
                  else Returns (show size));
    let sizePrefix :=
      if strictEqStr size "original" then "original" else "w" +:+ actualSize in
    let baseUrl := TMDB_IMAGE_BASE +:+ sizePrefix +:+ show path in
    if strictEqStr format "webp" && negb (strictEqStr size "original")
    then Returns (baseUrl +:+ "?format=webp&quality=" +:+ show quality)
    else Returns baseUrl.

(** The [sizes] array of [getImageSrcSet]: width descriptor and preset. *)
Definition srcSetSizes : list (string * Value) :=
  [("92w", preset "thumbnail"); ("154w", preset "small"); ("342w", preset "card");
   ("500w", preset "medium"); ("780w", preset "large"); ("1280w", preset "xlarge")].

(** [array.map(f)] for an [f] that may throw. *)
Fixpoint mapOutcome {A B : Type} (f : A -> Outcome B) (l : list A) : Outcome (list B) :=
  match l with
  | [] => Returns []
  | a :: rest => b ← f a; bs ← mapOutcome f rest; Returns (b :: bs)
  end.

Definition getImageSrcSet (path format : Value) : Outcome string :=
  if negb (truthy path) then Returns ""
  else
    let format := orDefault format (Str "webp") in
    candidates ←
      mapOutcome
        (fun entry : string * Value =>
           let '(width, size) := entry in
           url ← getOptimizedImageUrl path
                   {| opt_size := size; opt_format := format;
                      opt_quality := Undefined; opt_retina := Undefined |};
           Returns (url +:+ " " +:+ width))
        srcSetSizes;
    Returns (String.concat ", " candidates).

(** [containerWidth <= bound]: no comparison holds of [NaN]. *)
Definition atMost (n : Num) (bound : Z) : bool :=
  match n with
  | NaN => false
  | Int z => z <=? bound
  end.

Definition getResponsiveSize (containerWidth : Num) : Value :=
  if atMost containerWidth 200 then preset "thumbnail"
  else if atMost containerWidth 300 then preset "small"
  else if atMost containerWidth 400 then preset "card"
  else if atMost containerWidth 600 then preset "medium"
  else if atMost containerWidth 900 then preset "large"
  else preset "xlarge".

Definition getBackdropImage (path isHighDPI : Value) : Outcome string :=
  let isHighDPI := orDefault isHighDPI (Bool false) in
  getOptimizedImageUrl path
    {| opt_size := if truthy isHighDPI then preset "xlarge" else preset "large";
       opt_format := Str "webp"; opt_quality := Number 85; opt_retina := Undefined |}.

Definition getSimpleImageUrl (path size : Value) : string :=
  let size := orDefault size (Str "w342") in
  if negb (truthy path) then PLACEHOLDER_IMAGE
  else TMDB_IMAGE_BASE +:+ show size +:+ show path.

End ImageUtils.

(** ** What [components/OptimizedImage.jsx] renders once it is visible *)

Module OptimizedImageView.

(** The URLs handed to the [picture] element. *)
Record Sources := {
  optimizedSrc : string;
  fallbackSrc : string;
  srcSet : string;
  fallbackSrcSet : string
}.

(** The body of the component after the [isVisible] test, for the props
    [src] and [size] ([size = "card"] when the prop is absent). *)
Definition sources (src size : Value) : Outcome Sources :=
  let size := ImageUtils.orDefault size (Str "card") in
  optimized ← ImageUtils.getOptimizedImageUrl src
    {| ImageUtils.opt_size := size; ImageUtils.opt_format := Str "webp";
       ImageUtils.opt_quality := Undefined; ImageUtils.opt_retina := Undefined |};
  fallback ← ImageUtils.getOptimizedImageUrl src
    {| ImageUtils.opt_size := size; ImageUtils.opt_format := Str "jpg";
       ImageUtils.opt_quality := Undefined; ImageUtils.opt_retina := Undefined |};
  webpSet ← ImageUtils.getImageSrcSet src (Str "webp");
  jpgSet ← ImageUtils.getImageSrcSet src (Str "jpg");
  Returns {| optimizedSrc := optimized; fallbackSrc := fallback;
             srcSet := webpSet; fallbackSrcSet := jpgSet |}.

End OptimizedImageView.

(** ** Further hooks of [App] *)

Definition setCategory (v : string) (s : AppState) : AppState :=
  {| movies := movies s; featured := featured s; category := v; search := search s;
     watchUrl := watchUrl s; loading := loading s; error := error s;
     searchResults := searchResults s; isSearching := isSearching s;
     suggestions := suggestions s; showTVDetails := showTVDetails s;
     showTVSeriesPage := showTVSeriesPage s; page := page s; hasMore := hasMore s;
     totalResults := totalResults s; selectedLanguage := selectedLanguage s;
     boundaryHasError := boundaryHasError s |}.

Definition setWatchUrl (v : option string) (s : AppState) : AppState :=
  {| movies := movies s; featured := featured s; category := category s; search := search s;
     watchUrl := v; loading := loading s; error := error s;
     searchResults := searchResults s; isSearching := isSearching s;
     suggestions := suggestions s; showTVDetails := showTVDetails s;
     showTVSeriesPage := showTVSeriesPage s; page := page s; hasMore := hasMore s;
     totalResults := totalResults s; selectedLanguage := selectedLanguage s;
     boundaryHasError := boundaryHasError s |}.

Definition setShowTVDetails (v : bool) (s : AppState) : AppState :=
  {| movies := movies s; featured := featured s; category := category s; search := search s;
     watchUrl := watchUrl s; loading := loading s; error := error s;
     searchResults := searchResults s; isSearching := isSearching s;
     suggestions := suggestions s; showTVDetails := v;
     showTVSeriesPage := showTVSeriesPage s; page := page s; hasMore := hasMore s;
     totalResults := totalResults s; selectedLanguage := selectedLanguage s;
     boundaryHasError := boundaryHasError s |}.

Definition setShowTVSeriesPage (v : bool) (s : AppState) : AppState :=
  {| movies := movies s; featured := featured s; category := category s; search := search s;
     watchUrl := watchUrl s; loading := loading s; error := error s;
     searchResults := searchResults s; isSearching := isSearching s;
     suggestions := suggestions s; showTVDetails := showTVDetails s;
     showTVSeriesPage := v; page := page s; hasMore := hasMore s;
     totalResults := totalResults s; selectedLanguage := selectedLanguage s;
     boundaryHasError := boundaryHasError s |}.

Definition setSelectedLanguage (v : string) (s : AppState) : AppState :=
  {| movies := movies s; featured := featured s; category := category s; search := search s;
     watchUrl := watchUrl s; loading := loading s; error := error s;
     searchResults := searchResults s; isSearching := isSearching s;
     suggestions := suggestions s; showTVDetails := showTVDetails s;
     showTVSeriesPage := showTVSeriesPage s; page := page s; hasMore := hasMore s;
     totalResults := totalResults s; selectedLanguage := v;
     boundaryHasError := boundaryHasError s |}.

(** [item.title || item.name]; [None] is [undefined]. *)
Definition titleOrName (item : MediaItem) : option string :=
  if truthyText (item_title item) then item_title item else item_name item.

(** [Object.keys(movieCategoryLabels)] and [Object.keys(tvCategoryLabels)],
    the same in both components. *)
Definition movieCategoryKeys : list string :=
  ["trending"; "popular"; "top_rated"; "upcoming"; "now_playing"; "filipino";
   "action"; "comedy"; "drama"; "horror"; "romance"; "thriller"; "scifi"; "animation"].

Definition tvCategoryKeys : list string :=
  ["popular_tv"; "top_rated_tv"; "on_the_air"; "airing_today"; "tv_action";
   "tv_comedy"; "tv_drama"; "tv_scifi"; "tv_animation"; "tagalog_tv"; "tv_mystery";
   "tv_reality"; "tv_documentary"].

(** [currentCategoryLabels] *)
Definition currentCategoryKeys (s : AppState) : list string :=
  if showTVSeriesPage s then tvCategoryKeys else movieCategoryKeys.

(** ** The rest of [src/App.js]: helpers and the card *)

Module AppJsParts.

(** [formatRuntime(minutes)]; [None] when the number is one that
    [toNumber] or [floorDiv] does not evaluate. *)
Definition formatRuntime (minutes : Value) : option string :=
  if negb (truthy minutes) then Some "N/A"
  else
    n ← toNumber minutes;
    hours ← floorDiv n 60;
    mins ← remainder n 60;
    Some (if greater hours 0
          then showNum hours +:+ "h " +:+ showNum mins +:+ "m"
          else showNum mins +:+ "m").

(** The runtime under the hero title:
    [formatRuntime(featured.runtime || "N/A")]. *)
Definition heroRuntime (runtime : Value) : option string :=
  formatRuntime (if truthy runtime then runtime else Str "N/A").

(** [truncatedDescription] of [MovieItem]; [overview] is the member of the
    item, [None] when it is absent. *)
Definition truncatedDescription (overview : option string) (showFullDescription : bool)
  : string :=
  if truthyText overview then
    let text := default "" overview in
    if showFullDescription then text else substring 0 80 text +:+ "..."
  else "No description available".

(** The "Read More" / "Show Less" button is in the tree:
    [item.overview && item.overview.length > 80]. *)
Definition readMoreButton (overview : option string) : bool :=
  truthyText overview && (80 <? String.length (default "" overview))%nat.

(** *** Handlers of [App] *)

(** [App] with the hook [selectedTVShow], which [AppState] leaves out. *)
Record Page := {
  world : World;
  selectedTVShow : option MediaItem
}.

Definition onWorld (f : World -> World) (p : Page) : Page :=
  {| world := f (world p); selectedTVShow := selectedTVShow p |}.

Definition setSelectedTVShow (v : option MediaItem) (p : Page) : Page :=
  {| world := world p; selectedTVShow := v |}.

(** [handleClearSearch]; the focus it gives to the input is left out. *)
Definition handleClearSearch (env : Env) (w : World) : World :=
  let w := withState (setSearch "") w in
  let w := withState (setSearchResults []) w in
  let w := withState (setSuggestions []) w in
  let w := withState (setIsSearching false) w in
  let w := withState (setPage 1) w in
  let w := withState (setHasMore true) w in
  let w := AppJs.clearTypingTimeout w in
  AppJs.fetchFirstPage env w.

(** [handleSuggestionClick(item)].  With neither a title nor a name the
    hook [search] becomes [undefined]: [performSearch(undefined)] rejects
    at [query.trim()], and the next render throws at [search.trim()]. *)
Definition handleSuggestionClick (env : Env) (item : MediaItem) (w : World) : World :=
  match titleOrName item with
  | Some text =>
      let w := withState (setSearch text) w in
      AppJs.performSearch env text w
  | None => withState renderThrows w
  end.

(** [startWatching(item)]; [None] is a missing item. *)
Definition startWatching (item : option MediaItem) (p : Page) : Page :=
  match item with
  | None => p
  | Some item =>
      if negb (truthyNum (item_id item)) then p
      else if showTVSeriesPage (st (world p)) then
        let p := setSelectedTVShow (Some item) p in
        onWorld (withState (setShowTVDetails true)) p
      else
        let url := "https://vidsrc.to/embed/movie/" +:+ showZ (default 0 (item_id item)) in
        onWorld (withState (setWatchUrl (Some url))) p
  end.

(** The "Back" button over the player. *)
Definition handleBack (p : Page) : Page :=
  let rendered := p in
  let p := onWorld (withState (setWatchUrl None)) p in
  if showTVSeriesPage (st (world rendered)) && negb (isNone (selectedTVShow rendered))
  then onWorld (withState (setShowTVDetails true)) p
  else p.

(** The click on the logo. *)
Definition handleLogo (w : World) : World :=
  let w := withState (setSearch "") w in
  let w := withState (setSearchResults []) w in
  let w := withState (setWatchUrl None) w in
  let w := withState (setShowTVDetails false) w in
  withState (setCategory "trending") w.

(** The "Movies" and "TV Series" buttons. *)
Definition handleMovies (w : World) : World :=
  let w := withState (setShowTVSeriesPage false) w in
  let w := withState (setCategory "trending") w in
  withState (setSearch "") w.

Definition handleTVSeries (w : World) : World :=
  let w := withState (setShowTVSeriesPage true) w in
  let w := withState (setCategory "popular_tv") w in
  withState (setSearch "") w.

(** A button of the category bar. *)
Definition handleCategory (cat : string) (w : World) : World :=
  let w := withState (setCategory cat) w in
  let w := withState (setPage 1) w in
  let w := withState (setHasMore true) w in
  let w := withState (setSearch "") w in
  let w := withState (setSearchResults []) w in
  withState (setSuggestions []) w.

(** *** What is on screen *)

(** The category bar: [!watchUrl && !search.trim() && !showTVDetails]. *)
Definition categoryBar (s : AppState) : bool :=
  isNone (watchUrl s) && negb (truthyStr (trim (search s))) && negb (showTVDetails s).

(** The hero with its "Play Now" button. *)
Definition heroRendered (s : AppState) : bool :=
  isNone (watchUrl s) && negb (isNone (featured s))
  && negb (truthyStr (trim (search s))) && negb (showTVDetails s).

(** *** What the user can do *)

Inductive Click :=
| LogoClick
| MoviesClick
| TVSeriesClick
| CategoryClick (cat : string)
| CardClick (index : nat)          (* a card of the grid *)
| HeroClick                        (* "Play Now" / "Browse Episodes" *)
| BackClick
| ClearClick                       (* the cross in the search box *)
| EscapeKey                        (* [onKeyDown] with [e.key === 'Escape'] *)
| SuggestionClick (index : nat).

(** The handler behind a control; a control that is not in the tree cannot
    be clicked. *)
Definition click (env : Env) (c : Click) (p : Page) : Page :=
  let s := st (world p) in
  match c with
  | LogoClick => onWorld handleLogo p
  | MoviesClick => onWorld handleMovies p
  | TVSeriesClick => onWorld handleTVSeries p
  | CategoryClick cat =>
      if categoryBar s && existsb (String.eqb cat) (currentCategoryKeys s)
      then onWorld (handleCategory cat) p else p
  | CardClick index =>
      if AppJs.gridRendered s
      then match AppJs.displayMovies s !! index with
           | Some item => startWatching (Some item) p
           | None => p
           end
      else p
  | HeroClick => if heroRendered s then startWatching (featured s) p else p
  | BackClick => if isNone (watchUrl s) then p else handleBack p
  | ClearClick => if truthyStr (search s) then onWorld (handleClearSearch env) p else p
  | EscapeKey => onWorld (handleClearSearch env) p
  | SuggestionClick index =>
      if AppJs.suggestionsShown s
      then match suggestions s !! index with
           | Some item => onWorld (handleSuggestionClick env item) p
           | None => p
           end
      else p
  end.

(** Anything that can happen: an event of the browser, or a click. *)
Inductive Action :=
| Browser (ev : Event)
| User (c : Click).

Definition act (env : Env) (p : Page) (a : Action) : Page :=
  if boundaryHasError (st (world p)) then p
  else
    match a with
    | Browser ev => onWorld (fun w => AppJs.commit env (st (world p)) (AppJs.handle env ev w)) p
    | User c =>
        let p' := click env c p in
        onWorld (AppJs.commit env (st (world p))) p'
    end.

Definition acts (env : Env) (l : list Action) (p : Page) : Page :=
  fold_left (act env) l p.

End AppJsParts.

(** ** The rest of the hardened component: helpers and the card *)

Module HardenedParts.

(** [formatRuntime(minutes)]: anything that is not a number is [N/A];
    [None] when the number is one that [floorDiv] does not evaluate. *)
Definition formatRuntime (minutes : Value) : option string :=
  if negb (truthy minutes) || negb (String.eqb (typeof minutes) "number") then Some "N/A"
  else
    match minutes with
    | Number z =>
        hours ← floorDiv (Int z) 60;
        mins ← remainder (Int z) 60;
        Some (if greater hours 0
              then showNum hours +:+ "h " +:+ showNum mins +:+ "m"
              else showNum mins +:+ "m")
    | _ => Some "N/A"
    end.

(** [truncatedDescription] of [MovieItem] *)
Definition truncatedDescription (overview : option string) (showFullDescription : bool)
  : string :=
  if truthyText overview then
    let text := default "" overview in
    if showFullDescription then text
    else substring 0 80 text +:+ (if (80 <? String.length text)%nat then "..." else "")
  else "No description available".

Definition readMoreButton (overview : option string) : bool :=
  truthyText overview && (80 <? String.length (default "" overview))%nat.

(** *** The guards of the details dialog *)

(** A season and an episode as the dialog reads them.  A number that is
    absent (or [null]) is [None]; the members of an episode that go into a
    URL are kept as values. *)
Record Season := {
  season_id : option Z;
  season_number : option Z
}.

Record Episode := {
  episode_id : Value;
  episode_season_number : Value;
  episode_number : Value
}.

(** [isValidSeason(s) && s.season_number > 0], the filter of
    [fetchSeasons]: a number that is missing fails the first test when it
    is [undefined] and the second when it is [null]. *)
Definition shownSeason (s : Season) : bool :=
  truthyNum (season_id s)
  && match season_number s with
     | Some n => 0 <? n
     | None => false
     end.

Definition isValidEpisode (episode : Episode) : bool :=
  truthy (episode_id episode)
  && match episode_number episode with
     | Undefined => false
     | _ => true
     end.

(** [array.sort((a, b) => a.season_number - b.season_number)]: the sort of
    the engine is stable, so each season goes in after the ones that are
    not greater. *)
Definition seasonNumber (s : Season) : Z := default 0 (season_number s).

Fixpoint insertSeason (s : Season) (sorted : list Season) : list Season :=
  match sorted with
  | [] => [s]
  | t :: rest =>
      if seasonNumber s <? seasonNumber t then s :: sorted
      else t :: insertSeason s rest
  end.

Definition sortSeasons (l : list Season) : list Season :=
  fold_left (fun sorted s => insertSeason s sorted) l [].

(** The seasons [fetchSeasons] keeps, and the season whose episodes it
    fetches next ([validSeasons[0].season_number]). *)
Definition validSeasons (data_seasons : list Season) : list Season :=
  sortSeasons (List.filter shownSeason data_seasons).

Definition firstSeasonToFetch (data_seasons : list Season) : option Z :=
  seasonNumber <$> head (validSeasons data_seasons).

(** *** Favourites *)

(** An entry of [favorites]: an item and its [type] member ([None] when an
    entry restored from the storage has none). *)
Record Favorite := {
  fav_item : MediaItem;
  fav_type : option string
}.

(** [showTVSeriesPage ? 'tv' : 'movie'] *)
Definition currentType (showTV : bool) : string := if showTV then "tv" else "movie".

(** [fav.id === item.id && fav.type === (showTVSeriesPage ? 'tv' : 'movie')];
    the callers have checked that [item.id] is a number. *)
Definition sameFavorite (showTV : bool) (item : MediaItem) (fav : Favorite) : bool :=
  match item_id (fav_item fav), item_id item with
  | Some a, Some b => a =? b
  | _, _ => false
  end
  && match fav_type fav with
     | Some type => String.eqb type (currentType showTV)
     | None => false
     end.

(** The updater of [toggleFavorite(item)]. *)
Definition toggleFavorite (showTV : bool) (item : MediaItem) (prev : list Favorite)
  : list Favorite :=
  if negb (isValidMediaItem item) then prev
  else if existsb (sameFavorite showTV item) prev
  then List.filter (fun fav => negb (sameFavorite showTV item fav)) prev
  else prev ++ [{| fav_item := item; fav_type := Some (currentType showTV) |}].

Definition isItemFavorite (showTV : bool) (item : MediaItem) (favorites : list Favorite)
  : bool :=
  if negb (isValidMediaItem item) then false
  else existsb (sameFavorite showTV item) favorites.

(** What [localStorage] holds under [moviehouse_favorites_v2]. *)
Inductive Stored :=
| NoEntry                             (* [getItem] answers [null] (or [""]) *)
| NotJson                             (* [JSON.parse] throws *)
| NotAnArray                          (* some other JSON value *)
| Entries (entries : list Favorite).  (* an array; entries that are no objects
                                          are left out, the filter drops them *)

Definition validFavorite (fav : Favorite) : bool := isValidMediaItem (fav_item fav).

(** The effect that reads the storage: the favourites it hands to
    [setFavorites], if any. *)
Definition loadFavorites (stored : Stored) : option (list Favorite) :=
  match stored with
  | Entries entries => Some (List.filter validFavorite entries)
  | NoEntry | NotJson | NotAnArray => None
  end.

(** The effect that writes it, for the favourites of a render. *)
Definition saveFavorites (favorites : list Favorite) : Stored :=
  Entries (List.filter validFavorite favorites).

(** Mounting: both effects run for the first render, in which [favorites]
    is [[]]; when the first one has set the hook, the second runs again for
    the render that follows.  The result is the hook and the storage. *)
Definition mountFavorites (stored : Stored) : list Favorite * Stored :=
  let loaded := loadFavorites stored in
  let stored := saveFavorites [] in
  match loaded with
  | Some favorites => (favorites, saveFavorites favorites)
  | None => ([], stored)
  end.

(** [toggleFavorite(item)], and the save effect of the render that follows
    when the hook was set. *)
Definition toggleAndSave (showTV : bool) (item : MediaItem)
    (state : list Favorite * Stored) : list Favorite * Stored :=
  let '(favorites, stored) := state in
  if negb (isValidMediaItem item) then state
  else
    let favorites' := toggleFavorite showTV item favorites in
    (favorites', saveFavorites favorites').

(** *** Handlers of [App] *)

(** [App] with the hooks that [AppState] leaves out. *)
Record Page := {
  world : World;
  selectedTVShow : option MediaItem;
  lastSelectedEpisode : option (MediaItem * Episode)
}.

Definition onWorld (f : World -> World) (p : Page) : Page :=
  {| world := f (world p); selectedTVShow := selectedTVShow p;
     lastSelectedEpisode := lastSelectedEpisode p |}.

Definition setSelectedTVShow (v : option MediaItem) (p : Page) : Page :=
  {| world := world p; selectedTVShow := v; lastSelectedEpisode := lastSelectedEpisode p |}.

Definition setLastSelectedEpisode (v : option (MediaItem * Episode)) (p : Page) : Page :=
  {| world := world p; selectedTVShow := selectedTVShow p; lastSelectedEpisode := v |}.

(** [fetchTrending()] or [fetchByCategory(category)] as a callback of the
    render [rendered]: the category, the mode and the language are the ones
    of that render, whatever the handler has set in the meantime. *)
Definition fetchFirstPageOf (rendered : AppState) (env : Env) (w : World) : World :=
  if Hardened.keyUnusable env then w
  else
    let w := withState (setLoading true) w in
    let w := withState (setError None) w in
    sendRequest
      (PageRequest
         (if String.eqb (category rendered) "trending"
          then Hardened.fetchTrending_url env rendered 1
          else Hardened.fetchByCategory_endpoint env rendered (category rendered) 1)
         1 true)
      w.

(** [handleClearSearch], likewise. *)
Definition handleClearSearchOf (rendered : AppState) (env : Env) (w : World) : World :=
  let w := withState (setSearch "") w in
  let w := withState (setSearchResults []) w in
  let w := withState (setSuggestions []) w in
  let w := withState (setIsSearching false) w in
  let w := withState (setPage 1) w in
  let w := withState (setHasMore true) w in
  let w := withState (setMovies []) w in
  let w := withState (setTotalResults 0) w in
  let w :=
    match typingTimeoutRef w with
    | Some id => setTypingTimeoutRef None (clearTimeout id w)
    | None => w
    end in
  fetchFirstPageOf rendered env w.

(** [onSelect] of the category bar. *)
Definition handleCategory (env : Env) (cat : string) (w : World) : World :=
  let rendered := st w in
  let w := withState (setCategory cat) w in
  handleClearSearchOf rendered env w.

(** The "Movies" and "TV Series" buttons. *)
Definition handleMovies (env : Env) (w : World) : World :=
  let rendered := st w in
  let w := withState (setShowTVSeriesPage false) w in
  let w := withState (setCategory "trending") w in
  handleClearSearchOf rendered env w.

Definition handleTVSeries (env : Env) (w : World) : World :=
  let rendered := st w in
  let w := withState (setShowTVSeriesPage true) w in
  let w := withState (setCategory "popular_tv") w in
  handleClearSearchOf rendered env w.

(** The click on the logo. *)
Definition handleLogo (env : Env) (p : Page) : Page :=
  let p := onWorld (handleClearSearchOf (st (world p)) env) p in
  let p := onWorld (withState (setWatchUrl None)) p in
  let p := onWorld (withState (setShowTVDetails false)) p in
  let p := setSelectedTVShow None p in
  let p := setLastSelectedEpisode None p in
  onWorld (withState (setCategory "trending")) p.

(** [startWatching(item)] *)
Definition startWatching (item : MediaItem) (p : Page) : Page :=
  if negb (isValidMediaItem item) then p
  else if showTVSeriesPage (st (world p)) then
    let p := setSelectedTVShow (Some item) p in
    onWorld (withState (setShowTVDetails true)) p
  else
    let url := "https://vidsrc.to/embed/movie/" +:+ showZ (default 0 (item_id item)) in
    onWorld (withState (setWatchUrl (Some url))) p.

(** [handleEpisodeSelect(episode)] *)
Definition handleEpisodeSelect (episode : Episode) (p : Page) : Page :=
  match selectedTVShow p with
  | None => p
  | Some show =>
      if negb (truthyNum (item_id show)) || negb (isValidEpisode episode) then p
      else
        let url :=
          "https://vidsrc.to/embed/tv/" +:+ showZ (default 0 (item_id show))
          +:+ "/" +:+ Js.show (episode_season_number episode)
          +:+ "/" +:+ Js.show (episode_number episode) in
        let p := onWorld (withState (setWatchUrl (Some url))) p in
        let p := onWorld (withState (setShowTVDetails false)) p in
        let p := setSelectedTVShow None p in
        setLastSelectedEpisode (Some (show, episode)) p
  end.

(** [handleBackFromWatch] *)
Definition handleBackFromWatch (p : Page) : Page :=
  let rendered := p in
  let p := onWorld (withState (setWatchUrl None)) p in
  if showTVSeriesPage (st (world rendered)) && negb (isNone (lastSelectedEpisode rendered))
  then
    let p := setSelectedTVShow (fst <$> lastSelectedEpisode rendered) p in
    onWorld (withState (setShowTVDetails true)) p
  else if showTVSeriesPage (st (world rendered)) && negb (isNone (selectedTVShow rendered))
  then onWorld (withState (setShowTVDetails true)) p
  else p.

(** [onClose] of the details dialog. *)
Definition handleCloseDetails (p : Page) : Page :=
  let p := onWorld (withState (setShowTVDetails false)) p in
  let p := setSelectedTVShow None p in
  setLastSelectedEpisode None p.

(** The dialog is in the tree: [isOpen && show]. *)
Definition detailsOpen (p : Page) : bool :=
  showTVDetails (st (world p)) && negb (isNone (selectedTVShow p)).

(** A handler of a page, followed by the commit of the render it causes. *)
Definition after (env : Env) (handler : Page -> Page) (p : Page) : Page :=
  onWorld (Hardened.commit env (st (world p))) (handler p).

End HardenedParts.

(** ** The preferences of the second component of the unnamed bundle

    (the third one stores [type] where this one stores
    [showTVSeriesPage]) *)

Module Preferences.

(** The three hooks that are stored.  The effect that restores them sets
    them to whatever the storage held, so they are values. *)
Record Hooks := {
  hook_showTVSeriesPage : Value;
  hook_category : Value;
  hook_search : Value
}.

(** [useState(false)], [useState("trending")], [useState("")] *)
Definition initialHooks : Hooks :=
  {| hook_showTVSeriesPage := Bool false; hook_category := Str "trending";
     hook_search := Str "" |}.

(** What [localStorage] holds under [moviehouse_prefs]. *)
Inductive Stored :=
| NoEntry                       (* [getItem] answers [null] (or [""]) *)
| NotJson                       (* [JSON.parse] throws *)
| JsonNull                      (* the text [null]: reading a member throws *)
| Members (showTVSeriesPage category lastSearch : Value).
    (* any other JSON value, with the three members it has ([Undefined]
       for one it has not) *)

(** A member after [JSON.stringify] and [JSON.parse]: one that is
    [undefined] or a function is not written. *)
Definition written (v : Value) : Value :=
  match v with
  | Function _ => Undefined
  | _ => v
  end.

(** The first effect: it writes the hooks of the render. *)
Definition savePreferences (hooks : Hooks) : Stored :=
  Members (written (hook_showTVSeriesPage hooks)) (written (hook_category hooks))
    (written (hook_search hooks)).

(** [a || b] *)
Definition orElse (a b : Value) : Value := if truthy a then a else b.

(** The second effect: it reads the storage and sets the hooks; a throw
    inside the [try] leaves what was set before it. *)
Definition loadPreferences (stored : Stored) (hooks : Hooks) : Hooks :=
  match stored with
  | NoEntry | NotJson | JsonNull => hooks
  | Members showTVSeriesPage category lastSearch =>
      let hooks :=
        {| hook_showTVSeriesPage := orElse showTVSeriesPage (Bool false);
           hook_category := orElse category (Str "trending");
           hook_search := hook_search hooks |} in
      if truthy lastSearch then
        match callTrim lastSearch with
        | Normal trimmed =>
            if truthyStr trimmed
            then {| hook_showTVSeriesPage := hook_showTVSeriesPage hooks;
                    hook_category := hook_category hooks;
                    hook_search := lastSearch |}
            else hooks
        | Throw _ => hooks
        end
      else hooks
  end.

(** [Object.is(a, b)] for the value a hook holds and the one it is set to:
    an object read from the storage is a new one. *)
Definition sameValue (a b : Value) : bool :=
  match a, b with
  | Undefined, Undefined | Null, Null => true
  | Bool x, Bool y => Bool.eqb x y
  | Number x, Number y => x =? y
  | Str x, Str y => String.eqb x y
  | _, _ => false
  end.

Definition sameHooks (a b : Hooks) : bool :=
  sameValue (hook_showTVSeriesPage a) (hook_showTVSeriesPage b)
  && sameValue (hook_category a) (hook_category b)
  && sameValue (hook_search a) (hook_search b).

(** Mounting on a storage: the effects of the first render run in the order
    in which they are declared, the writing one first; the writing one runs
    again when the reading one has changed a hook.  The result is the hooks
    and the storage. *)
Definition mountPreferences (stored : Stored) : Hooks * Stored :=
  let hooks := initialHooks in
  let stored := savePreferences hooks in
  let hooks' := loadPreferences stored hooks in
  (hooks', if sameHooks hooks hooks' then stored else savePreferences hooks').

End Preferences.

(** ** The image component inside [src/App.js] *)

Module AppJsImage.

(** One mounted image: its props, its hooks [isVisible] and [hasError],
    whether the observer of the effect watches, and how many observers the
    effect has made. *)
Record Image := {
  src : Value;
  size : string;
  lazy : bool;
  priority : bool;
  isVisible : bool;
  hasError : bool;
  watching : bool;
  observers : nat
}.

(** [const imageUrl = getImageUrl(src, size)] *)
Definition imageUrl (env : Env) (i : Image) : Completion (option string) :=
  getImageUrl env (src i) (size i).

Definition setIsVisible (v : bool) (i : Image) : Image :=
  {| src := src i; size := size i; lazy := lazy i; priority := priority i;
     isVisible := v; hasError := hasError i; watching := watching i;
     observers := observers i |}.

Definition setHasError (v : bool) (i : Image) : Image :=
  {| src := src i; size := size i; lazy := lazy i; priority := priority i;
     isVisible := isVisible i; hasError := v; watching := watching i;
     observers := observers i |}.

Definition setWatching (v : bool) (i : Image) : Image :=
  {| src := src i; size := size i; lazy := lazy i; priority := priority i;
     isVisible := isVisible i; hasError := hasError i; watching := v;
     observers := observers i |}.

Definition newObserver (i : Image) : Image :=
  {| src := src i; size := size i; lazy := lazy i; priority := priority i;
     isVisible := isVisible i; hasError := hasError i; watching := true;
     observers := S (observers i) |}.

(** The effect: [if (!lazy || priority || isVisible || !imageUrl) return;]
    otherwise a new observer watches [imgRef.current]. *)
Definition lazyEffect (env : Env) (i : Image) : Completion Image :=
  url ← imageUrl env i;
  if negb (lazy i) || priority i || isVisible i || isNone url
  then Normal i
  else Normal (newObserver i).

(** Its cleanup: [observer.disconnect()]. *)
Definition lazyEffect_cleanup (i : Image) : Image := setWatching false i.

(** What the component returns. *)
Inductive View :=
| NoPoster                (* the "No poster" box *)
| Skeleton                (* the pulsing box *)
| Img (url : string).     (* the [img] element *)

Definition render (env : Env) (i : Image) : Completion View :=
  url ← imageUrl env i;
  match url with
  | None => Normal NoPoster
  | Some url =>
      if hasError i then Normal NoPoster
      else if negb (isVisible i) && lazy i && negb (priority i) then Normal Skeleton
      else Normal (Img url)
  end.

(** [useState(!lazy || priority)], then the effect of the first render. *)
Definition mount (env : Env) (src : Value) (size : string) (lazy priority : bool)
  : Completion Image :=
  lazyEffect env
    {| src := src; size := size; lazy := lazy; priority := priority;
       isVisible := negb lazy || priority; hasError := false; watching := false;
       observers := 0 |}.

Inductive ImageEvent :=
| Intersects (isIntersecting : bool)   (* the observer reports an entry *)
| LoadFails.                           (* [onError] of the [img] element *)

(** The observer callback runs only while the observer watches; [onError]
    only while the [img] element is in the tree.  When [isVisible] changed,
    the effect is cleaned up and run again. *)
Definition notify (env : Env) (i : Image) (ev : ImageEvent) : Completion Image :=
  match ev with
  | Intersects isIntersecting =>
      if watching i && isIntersecting then
        let i := setIsVisible true i in
        let i := setWatching false i in
        lazyEffect env (lazyEffect_cleanup i)
      else Normal i
  | LoadFails =>
      view ← render env i;
      match view with
      | Img _ => Normal (setHasError true i)
      | _ => Normal i
      end
  end.

Fixpoint notifyAll (env : Env) (evs : list ImageEvent) (i : Image) : Completion Image :=
  match evs with
  | [] => Normal i
  | ev :: rest => i ← notify env i ev; notifyAll env rest i
  end.

End AppJsImage.

(** ** Vocabulary of the statements *)

Fixpoint leadingSlashes (s : string) : nat :=
  match s with
  | String "/"%char rest => S (leadingSlashes rest)
  | _ => 0%nat
  end.

Definition itemA : MediaItem :=
  {| item_id := Some 1; item_title := Some "A"; item_name := None |}.
Definition itemB : MediaItem :=
  {| item_id := Some 2; item_title := Some "B"; item_name := None |}.
Definition itemC : MediaItem :=
  {| item_id := Some 3; item_title := Some "C"; item_name := None |}.

(** The answers of the scenarios: page 1 holds A and B, page 2 holds B
    again and C. *)
Definition firstPage : FetchOutcome :=
  Responded 200 (JsonData (Some [itemA; itemB]) (Some 5) (Some 100)).
Definition secondPage : FetchOutcome :=
  Responded 200 (JsonData (Some [itemB; itemC]) (Some 5) (Some 100)).

(** A state in which A, B and C have been loaded. *)
Definition loadedABC : AppState := setMovies [itemA; itemB; itemC] initialState.



Definition identifiers (l : list MediaItem) : list (option Z) := item_id <$> l.

(** The valid entries of an answer have pairwise distinct identifiers. *)
Definition distinctPage (outcome : FetchOutcome) : Prop :=
  match outcome with
  | Responded _ (JsonData (Some results) _ _) =>
      NoDup (identifiers (List.filter isValidMediaItem results))
  | _ => True
  end.

(** The world once the first page has arrived. *)
Definition appjsLoaded : World :=
  AppJs.run browserEnv [Responds 1 firstPage] (AppJs.mount browserEnv).
Definition hardenedLoaded : World :=
  Hardened.run browserEnv [Responds 1 firstPage] (Hardened.mount browserEnv).

Definition pendingActions (w : World) : list TimerAction := timer_action <$> timers w.
Definition suggestionRequests (w : World) : list Request :=
  List.filter isSuggestionRequest (sent w).
Definition searchRequests (w : World) : list Request :=
  List.filter isSearchRequest (sent w).

(** What belongs to the scroll watch. *)
Definition watchPart (w : World) : option Observer * bool * nat * list nat :=
  (observerRef w, scrollCleanup w, observerCount w, loadMoreCalls w).



Definition isSuggestionTimer (t : Timer) : bool :=
  match timer_action t with CallSuggestions _ => true | CallSearch _ => false end.

(** Every pending timer of the hardened component is still reachable: a
    suggestion timer through [typingTimeoutRef], a search timer through the
    [timeoutId] of [createDebounce]. *)
Definition timersTracked (w : World) : Prop :=
  (forall id, typingTimeoutRef w = Some id -> (id <= timerCount w)%nat)
  /\ (forall id, debounceTimeoutId w = Some id -> (id <= timerCount w)%nat)
  /\ forall t, t ∈ timers w ->
       if isSuggestionTimer t
       then typingTimeoutRef w = Some (timer_id t)
       else debounceTimeoutId w = Some (timer_id t).

(** What belongs to the timers. *)
Definition timerPart (w : World) : option nat * option nat * list Timer * nat :=
  (typingTimeoutRef w, debounceTimeoutId w, timers w, timerCount w).

(** Decimal numerals. *)
Definition isDigit (c : ascii) : bool :=
  let n := nat_of_ascii c in (48 <=? n)%nat && (n <=? 57)%nat.

Fixpoint allDigits (s : string) : bool :=
  match s with
  | EmptyString => true
  | String c rest => isDigit c && allDigits rest
  end.


(** The width in pixels that a size segment [w<n>] names. *)
Definition pixelWidth (size : Value) : option Z :=
  match size with
  | Str (String "w" digits) => Z.of_uint <$> NilZero.uint_of_string digits
  | _ => None
  end.

(** [src/App.js] mounted, switched to TV series, first page delivered. *)
Definition appjsTVLoaded : AppJsParts.Page :=
  AppJsParts.acts browserEnv
    [AppJsParts.User AppJsParts.TVSeriesClick; AppJsParts.Browser (Responds 2 firstPage)]
    {| AppJsParts.world := AppJs.mount browserEnv; AppJsParts.selectedTVShow := None |}.

(** [src/App.js] with the first page of trending movies on screen. *)
Definition appjsPage : AppJsParts.Page :=
  {| AppJsParts.world := appjsLoaded; AppJsParts.selectedTVShow := None |}.

(** The request for the first page of the category on screen, as
    [src/App.js] issues it. *)
Definition appjsFirstPageRequest (env : Env) (s : AppState) : Request :=
  if String.eqb (category s) "trending"
  then PageRequest (AppJs.fetchTrending_url env (showTVSeriesPage s) 1) 1 true
  else PageRequest (AppJs.fetchByCategory_endpoint env (showTVSeriesPage s) (category s) 1)
         1 true.

(** The hooks the effects of [src/App.js] depend on. *)
Definition appjsDeps (s : AppState) : bool * bool * string * string * Z * bool :=
  (loading s, hasMore s, search s, category s, page s, showTVSeriesPage s).

(** The same page after "bat" has been typed into the search box. *)
Definition appjsTyped : AppJsParts.Page :=
  AppJsParts.act browserEnv appjsPage (AppJsParts.Browser (SearchChange "bat")).

(** ... and after the suggestions for "bat" have arrived. *)
Definition appjsSuggesting : AppJsParts.Page :=
  AppJsParts.acts browserEnv
    [AppJsParts.Browser (TimerFires 1); AppJsParts.Browser (Responds 2 firstPage)]
    appjsTyped.

(** What tells two favourites apart: the identifier and the type. *)
Definition favoriteKey (fav : HardenedParts.Favorite) : option Z * option string :=
  (item_id (HardenedParts.fav_item fav), HardenedParts.fav_type fav).

(** A session of the favourites: the page is mounted on what the storage
    holds, then hearts are clicked, each in the mode given with it. *)
Definition favoriteSession (stored : HardenedParts.Stored) (clicks : list (bool * MediaItem))
  : list HardenedParts.Favorite * HardenedParts.Stored :=
  fold_left (fun state click => HardenedParts.toggleAndSave (fst click) (snd click) state)
    clicks (HardenedParts.mountFavorites stored).

(** The order of the season buttons. *)
Definition seasonLe (a b : HardenedParts.Season) : Prop :=
  HardenedParts.seasonNumber a <= HardenedParts.seasonNumber b.

(** The request for the first page of the category, mode and language of
    [s], as the hardened component issues it. *)
Definition hardenedFirstPageRequest (env : Env) (s : AppState) : Request :=
  PageRequest
    (if String.eqb (category s) "trending"
     then Hardened.fetchTrending_url env s 1
     else Hardened.fetchByCategory_endpoint env s (category s) 1)
    1 true.

(** The hooks the effects of the hardened component depend on. *)
Definition hardenedDeps (s : AppState)
  : bool * bool * string * string * Z * bool * string * bool * nat :=
  (loading s, hasMore s, search s, category s, page s, showTVSeriesPage s,
   selectedLanguage s, showTVDetails s, length (movies s)).

(** The hardened component with the first page on screen; then switched to
    TV series, with the details dialog of the featured item open. *)
Definition hardenedPage : HardenedParts.Page :=
  {| HardenedParts.world := hardenedLoaded; HardenedParts.selectedTVShow := None;
     HardenedParts.lastSelectedEpisode := None |}.

Definition hardenedDetails : HardenedParts.Page :=
  HardenedParts.after browserEnv (HardenedParts.startWatching itemA)
    (HardenedParts.after browserEnv
       (HardenedParts.onWorld (HardenedParts.handleTVSeries browserEnv)) hardenedPage).

Definition episodeTwo : HardenedParts.Episode :=
  {| HardenedParts.episode_id := Number 7;
     HardenedParts.episode_season_number := Number 1;
     HardenedParts.episode_number := Number 2 |}.

(** * Properties *)

(** ** Image URL builder *)

Lemma startsWith_slash_cons (p : string) :
  startsWith ("/" +:+ p) "/" = true.
Proof. unfold startsWith. simpl. destruct p; reflexivity. Qed.

Lemma getImageUrl_not_string (env : Env) (path : Value) (size : string) :
  typeof path ≠ "string" -> getImageUrl env path size = Normal None.
Proof.
  intros Hty. unfold getImageUrl.
  destruct path; simpl in *; try congruence; try reflexivity;
    repeat case_match; reflexivity.
Qed.

Lemma sizeString_own (env : Env) (size : string) (w : string) :
  imageSizes !! size = Some (Str w) -> sizeString env size = Str w.
Proof.
  intros Hown. unfold sizeString, getMember. rewrite Hown.
  assert (Hin : (size, Str w) ∈ (map_to_list imageSizes)) by (by apply elem_of_map_to_list).
  vm_compute in Hin.
  repeat (apply elem_of_cons in Hin as [Hin | Hin];
          [ by inversion Hin | ]).
  by apply elem_of_nil in Hin.
Qed.

(** C10 (as amended).  [getImageUrl] never throws.  It returns [null] for a
    path that is not a string, that trims to the empty string or that is
    the text [null]; for any other string it returns the base URL, the size
    token and the path, with a [/] put in front only when the path does not
    start with one already (so the result path starts with [/], and further
    leading slashes are kept).  The token is the table's entry for a known
    size name, and [w342] for a name that is neither in the table nor
    inherited from [Object.prototype]. *)
Theorem getImageUrl_total_and_shape (env : Env) (path : Value) (size : string) :
  (exists r, getImageUrl env path size = Normal r)
  /\ ((forall p, path = Str p -> trim p = "" \/ p = "null") ->
      getImageUrl env path size = Normal None)
  /\ (forall p, path = Str p -> trim p <> "" -> p <> "null" ->
      getImageUrl env path size
      = Normal (Some (TMDB_IMAGE_BASE +:+ show (sizeString env size)
                      +:+ (if startsWith p "/" then p else "/" +:+ p)))
      /\ startsWith (if startsWith p "/" then p else "/" +:+ p) "/" = true)
  /\ (forall w, imageSizes !! size = Some (Str w) -> sizeString env size = Str w)
  /\ (imageSizes !! size = None -> inherited env size = None ->
      sizeString env size = Str "w342").
Proof.
  assert (Hstr : forall p, trim p <> "" -> p <> "null" ->
      getImageUrl env (Str p) size
      = Normal (Some (TMDB_IMAGE_BASE +:+ show (sizeString env size)
                      +:+ (if startsWith p "/" then p else "/" +:+ p)))).
  { intros p Hblank Hnull. unfold getImageUrl. simpl.
    assert (Hp : truthyStr p = true).
    { unfold truthyStr. destruct p; [ by destruct Hblank | reflexivity ]. }
    rewrite Hp. simpl.
    unfold mbind, completion_bind. simpl.
    destruct (String.eqb_spec (trim p) "") as [E | _]; [ by destruct Hblank | ].
    destruct (String.eqb_spec p "null") as [E | _]; [ by destruct Hnull | ].
    reflexivity. }
  assert (Hnone : (forall p, path = Str p -> trim p = "" \/ p = "null") ->
      getImageUrl env path size = Normal None).
  { intros Hp. destruct path as [ | | b | n | p | | src];
      try (apply getImageUrl_not_string; simpl; congruence).
    unfold getImageUrl. simpl. destruct (truthyStr p); [ simpl | reflexivity ].
    unfold mbind, completion_bind. simpl.
    destruct (Hp p eq_refl) as [-> | ->]; [ reflexivity | ].
    by destruct (String.eqb (trim "null") ""). }
  split; [ | split; [ exact Hnone | split; [ | split ] ] ].
  - destruct path as [ | | b | n | p | | src];
      try (exists None; apply getImageUrl_not_string; simpl; congruence).
    destruct (String.eqb_spec (trim p) "") as [E | E].
    { exists None. apply Hnone. intros q [= <-]. by left. }
    destruct (String.eqb_spec p "null") as [E' | E'].
    { exists None. apply Hnone. intros q [= <-]. by right. }
    eexists. by apply Hstr.
  - intros p -> Hblank Hnull. split; [ by apply Hstr | ].
    destruct (startsWith p "/") eqn:E; [ exact E | apply startsWith_slash_cons ].
  - apply sizeString_own.
  - intros Hown Hproto. unfold sizeString, getMember. by rewrite Hown, Hproto.
Qed.

(** C10, at a concrete input. *)
Lemma getImageUrl_total_and_shape_witness :
  getImageUrl browserEnv (Str "a.jpg") "poster"
  = Normal (Some "https://image.tmdb.org/t/p/w342/a.jpg").
Proof.
  destruct (getImageUrl_total_and_shape browserEnv (Str "a.jpg") "poster")
    as (_ & _ & Hshape & _ & Hfallback).
  destruct (Hshape "a.jpg" eq_refl) as [Hurl _].
  - vm_compute. discriminate.
  - discriminate.
  - rewrite Hurl, Hfallback; [ reflexivity | reflexivity | reflexivity ].
Defined.

(** C10 as stated fails: a path that starts with two slashes keeps both, and
    the size name [toString] is found on the prototype instead of falling
    back to [w342]. *)
Lemma getImageUrl_keeps_double_slash :
  getImageUrl browserEnv (Str "//a.jpg") "card"
  = Normal (Some "https://image.tmdb.org/t/p/w342//a.jpg")
  /\ leadingSlashes "//a.jpg" = 2%nat
  /\ getImageUrl browserEnv (Str "/a.jpg") "toString"
     = Normal (Some "https://image.tmdb.org/t/p/function toString() { [native code] }/a.jpg").
Proof. repeat split; reflexivity. Qed.

(** ** Endpoints *)

Lemma genreMap_total (cat : string) :
  existsb (String.eqb cat) AppJs.genreNames = true ->
  exists g, AppJs.genreMap !! cat = Some (Number g).
Proof.
  intros Hin. apply existsb_exists in Hin as (name & Hname & Heq).
  apply String.eqb_eq in Heq as <-.
  unfold AppJs.genreNames in Hname. simpl in Hname.
  repeat (destruct Hname as [<- | Hname]; [ eexists; reflexivity | ]).
  destruct Hname.
Qed.

(** C9 (as amended).  On the movie page a category other than [filipino]
    and the eight genre names is used itself as the list name in
    [/movie/{category}]; genre names go to [discover/movie] with their
    genre id and [filipino] to [discover/movie] with the language and
    region filter.  On the TV page the category is looked up in [tvCatMap]:
    a text entry other than [tagalog_tv] is the list name in [/tv/{entry}]
    (so [popular_tv] asks for [/tv/popular]), a numeric entry goes to
    [discover/tv] with that genre id, and [tagalog_tv] to [discover/tv]
    with the language filter. *)
Theorem fetchByCategory_endpoint_shapes (env : Env) (cat : string) (pageNum : Z) :
  (* movie page *)
  (cat <> "filipino" -> existsb (String.eqb cat) AppJs.genreNames = false ->
   AppJs.fetchByCategory_endpoint env false cat pageNum
   = "https://api.themoviedb.org/3/movie/" +:+ cat
     +:+ "?api_key=" +:+ showKey env +:+ "&page=" +:+ showZ pageNum)
  /\ (existsb (String.eqb cat) AppJs.genreNames = true ->
      exists g, AppJs.genreMap !! cat = Some (Number g)
        /\ AppJs.fetchByCategory_endpoint env false cat pageNum
           = "https://api.themoviedb.org/3/discover/movie?api_key=" +:+ showKey env
             +:+ "&with_genres=" +:+ showZ g
             +:+ "&sort_by=popularity.desc&page=" +:+ showZ pageNum)
  /\ (cat = "filipino" ->
      AppJs.fetchByCategory_endpoint env false cat pageNum
      = "https://api.themoviedb.org/3/discover/movie?api_key=" +:+ showKey env
        +:+ "&with_original_language=tl&region=PH&sort_by=popularity.desc&page="
        +:+ showZ pageNum)
  (* TV page *)
  /\ (forall listName, AppJs.tvCatMap !! cat = Some (Str listName) ->
      listName <> "tagalog_tv" ->
      AppJs.fetchByCategory_endpoint env true cat pageNum
      = "https://api.themoviedb.org/3/tv/" +:+ listName
        +:+ "?api_key=" +:+ showKey env +:+ "&page=" +:+ showZ pageNum)
  /\ (forall g, AppJs.tvCatMap !! cat = Some (Number g) ->
      AppJs.fetchByCategory_endpoint env true cat pageNum
      = "https://api.themoviedb.org/3/discover/tv?api_key=" +:+ showKey env
        +:+ "&with_genres=" +:+ showZ g
        +:+ "&sort_by=popularity.desc&page=" +:+ showZ pageNum)
  /\ (AppJs.tvCatMap !! cat = Some (Str "tagalog_tv") ->
      AppJs.fetchByCategory_endpoint env true cat pageNum
      = "https://api.themoviedb.org/3/discover/tv?api_key=" +:+ showKey env
        +:+ "&with_original_language=tl&sort_by=popularity.desc&page=" +:+ showZ pageNum).
Proof.
  unfold AppJs.fetchByCategory_endpoint.
  repeat split.
  - intros Hfil Hgenre. rewrite Hgenre.
    destruct (String.eqb_spec cat "filipino") as [E | _]; [ by destruct Hfil | reflexivity ].
  - intros Hgenre. destruct (genreMap_total cat Hgenre) as [g Hg].
    exists g. split; [ exact Hg | ].
    rewrite Hgenre. unfold getMember. rewrite Hg. simpl.
    destruct (String.eqb_spec cat "filipino") as [-> | _]; [ discriminate Hgenre | reflexivity ].
  - intros ->. reflexivity.
  - intros listName Hown Hne. unfold getMember. rewrite Hown. simpl.
    destruct (String.eqb_spec listName "tagalog_tv") as [E | _]; [ by destruct Hne | reflexivity ].
  - intros g Hown. unfold getMember. rewrite Hown. reflexivity.
  - intros Hown. unfold getMember. rewrite Hown. reflexivity.
Qed.

(** C9, at concrete inputs. *)
Lemma fetchByCategory_endpoint_shapes_witness :
  AppJs.fetchByCategory_endpoint browserEnv false "upcoming" 3
  = "https://api.themoviedb.org/3/movie/upcoming?api_key=k3y&page=3"
  /\ AppJs.fetchByCategory_endpoint browserEnv true "top_rated_tv" 2
     = "https://api.themoviedb.org/3/tv/top_rated?api_key=k3y&page=2"
  /\ AppJs.fetchByCategory_endpoint browserEnv true "tv_drama" 1
     = "https://api.themoviedb.org/3/discover/tv?api_key=k3y&with_genres=18&sort_by=popularity.desc&page=1".
Proof.
  split; [ | split ].
  - apply (proj1 (fetchByCategory_endpoint_shapes browserEnv "upcoming" 3));
      [ discriminate | reflexivity ].
  - destruct (fetchByCategory_endpoint_shapes browserEnv "top_rated_tv" 2)
      as (_ & _ & _ & Hlist & _).
    apply (Hlist "top_rated"); [ reflexivity | discriminate ].
  - destruct (fetchByCategory_endpoint_shapes browserEnv "tv_drama" 1)
      as (_ & _ & _ & _ & Hgenre & _).
    apply (Hgenre 18). reflexivity.
Defined.

(** C9 as stated fails: on the TV page the list name in the path is the
    table's entry, not the category string. *)
Lemma tv_list_category_is_renamed :
  AppJs.fetchByCategory_endpoint browserEnv true "popular_tv" 1
  = "https://api.themoviedb.org/3/tv/popular?api_key=k3y&page=1"
  /\ AppJs.fetchByCategory_endpoint browserEnv true "popular_tv" 1
     <> "https://api.themoviedb.org/3/tv/popular_tv?api_key=k3y&page=1".
Proof. split; [ reflexivity | discriminate ]. Qed.

(** A category the TV table does not know ends up as the text [undefined]. *)
Lemma tv_unknown_category (env : Env) (cat : string) (pageNum : Z) :
  AppJs.tvCatMap !! cat = None -> inherited env cat = None ->
  AppJs.fetchByCategory_endpoint env true cat pageNum
  = "https://api.themoviedb.org/3/tv/undefined?api_key=" +:+ showKey env
    +:+ "&page=" +:+ showZ pageNum.
Proof.
  intros Hown Hproto. unfold AppJs.fetchByCategory_endpoint, getMember.
  by rewrite Hown, Hproto.
Qed.

(** ** Page fetches *)

(** C5.  After a successful fetch of page [pageNum] whose answer carries
    [total_pages], [hasMore] is [pageNum < total_pages], [page] is
    [pageNum], [loading] is reset and nothing reaches the error boundary.
    For page 1 the list is the answer's [results] and the featured item is
    its first entry; for any other page the answer is appended to the list
    as it comes and the featured item stays.  (A [results] member that is
    absent or falsy counts as the empty list; the bodies range over
    [JsonData], which holds no other member that is not an array.)  In the
    scenario (first page with A and B, [total_pages] 5) the list is
    [[A; B]], [page] is 1, the featured item is A and [hasMore] holds. *)
Theorem page_fetch_success :
  (forall (status : Z) (results : option (list MediaItem)) (total_pages : Z)
          (total_results : option Z) (pageNum : Z) (s : AppState),
      res_ok status = true ->
      let s' := AppJs.pageFetched pageNum
                  (Responded status (JsonData results (Some total_pages) total_results)) s in
      hasMore s' = (pageNum <? total_pages) /\ page s' = pageNum
      /\ loading s' = false /\ error s' = error s
      /\ boundaryHasError s' = boundaryHasError s
      /\ (pageNum = 1 ->
          movies s' = default [] results /\ featured s' = head (default [] results))
      /\ (pageNum <> 1 ->
          movies s' = (movies s ++ default [] results)%list /\ featured s' = featured s))
  /\ (forall env : Env,
      let w := AppJs.run env [Responds 1 firstPage] (AppJs.mount env) in
      movies (st w) = [itemA; itemB] /\ page (st w) = 1
      /\ featured (st w) = Some itemA /\ hasMore (st w) = true
      /\ loading (st w) = false /\ error (st w) = None /\ inflight w = []).
Proof.
  split.
  - intros status results total_pages total_results pageNum s Hok. simpl.
    unfold AppJs.pageFetched, tryCatchFinally, AppJs.pageFetched_try.
    rewrite Hok. simpl.
    destruct (Z.eqb_spec pageNum 1) as [-> | Hne]; simpl.
    + do 5 (split; [ reflexivity | ]). split; [ done | ]. intros Hne. by destruct Hne.
    + do 5 (split; [ reflexivity | ]). split; [ | done ]. intros E. by destruct Hne.
  - intros env. repeat split; reflexivity.
Qed.

(** C5, at a concrete input. *)
Lemma page_fetch_success_witness :
  let s' := AppJs.pageFetched 2 secondPage initialState in
  hasMore s' = true /\ page s' = 2.
Proof.
  destruct page_fetch_success as [Hgeneral _].
  destruct (Hgeneral 200 (Some [itemB; itemC]) 5 (Some 100) 2 initialState) as (Hmore & Hpage & _).
  - reflexivity.
  - split; [ exact Hmore | exact Hpage ].
Defined.

(** The hardened component agrees, on the entries that pass
    [isValidMediaItem]. *)
Lemma hardened_page_fetch_success (status : Z) (results : list MediaItem)
    (total_pages : Z) (total_results : option Z) (pageNum : Z) (shouldReset : bool)
    (s : AppState) :
  res_ok status = true -> 1 <= pageNum ->
  let s' := Hardened.pageFetched pageNum shouldReset
              (Responded status (JsonData (Some results) (Some total_pages) total_results)) s in
  hasMore s' = (pageNum <? total_pages) /\ page s' = pageNum
  /\ (pageNum = 1 ->
      movies s' = List.filter isValidMediaItem results
      /\ featured s' = head (List.filter isValidMediaItem results)).
Proof.
  intros Hok Hpos. simpl.
  unfold Hardened.pageFetched, tryCatchFinally, Hardened.pageFetched_try.
  rewrite Hok. simpl.
  assert (Hmore : (pageNum <? (if negb (total_pages =? 0) then total_pages else 1))
                  = (pageNum <? total_pages)).
  { destruct (Z.eqb_spec total_pages 0) as [-> | _]; simpl; [ | reflexivity ].
    destruct (Z.ltb_spec pageNum 1), (Z.ltb_spec pageNum 0); try reflexivity; lia. }
  destruct (Z.eqb_spec pageNum 1) as [-> | Hne]; simpl;
    destruct shouldReset; simpl; rewrite ?Hmore;
    do 2 (split; [ reflexivity | ]); intros E;
    solve [ split; reflexivity | by destruct Hne ].
Qed.





(** In [src/App.js], a body of [null] for a further page reaches the error
    boundary: the updater queued by [setMovies] throws during rendering. *)
Lemma null_body_reaches_boundary :
  boundaryHasError (AppJs.pageFetched 2 (Responded 200 JsonNull) loadedABC) = true.
Proof. reflexivity. Qed.

(** While [error] is set the grid is not in the tree, in both components. *)
Lemma grid_hidden_while_error (s : AppState) (text : string) :
  error s = Some text ->
  AppJs.gridRendered s = false /\ Hardened.gridRendered s = false.
Proof.
  intros Herr. unfold AppJs.gridRendered, Hardened.gridRendered. rewrite Herr. simpl.
  split; destruct (isNone (watchUrl s)), (loading s); reflexivity.
Qed.

(** ** Merging pages *)

Lemma mergePage_NoDup (prev validResults : list MediaItem) :
  NoDup (identifiers prev) -> NoDup (identifiers validResults) ->
  NoDup (identifiers (Hardened.mergePage prev validResults)).
Proof.
  intros Hprev Hnew. unfold Hardened.mergePage, identifiers.
  rewrite fmap_app. apply NoDup_app. split; [ exact Hprev | split ].
  - intros i Hi Hi'. apply list_elem_of_fmap in Hi' as (x & -> & Hx).
    apply list_elem_of_filter in Hx as [Hfresh _].
    apply Hfresh. by apply elem_of_list_to_set.
  - eapply sublist_NoDup; [ exact Hnew | ].
    apply fmap_sublist, sublist_filter.
Qed.

(** Items already shown keep their place and their copy; an identifier of
    the new page is shown afterwards. *)
Lemma mergePage_keeps_first (prev validResults : list MediaItem) :
  prev `prefix_of` Hardened.mergePage prev validResults
  /\ (forall x, x ∈ Hardened.mergePage prev validResults ->
                item_id x ∈ identifiers prev -> x ∈ prev)
  /\ (forall x, x ∈ validResults ->
                item_id x ∈ identifiers (Hardened.mergePage prev validResults)).
Proof.
  unfold Hardened.mergePage, identifiers. split; [ | split ].
  - by apply prefix_app_r.
  - intros x Hx Hid. apply elem_of_app in Hx as [Hx | Hx]; [ exact Hx | ].
    apply list_elem_of_filter in Hx as [Hfresh _].
    destruct Hfresh. by apply elem_of_list_to_set.
  - intros x Hx. rewrite fmap_app. apply elem_of_app.
    destruct (decide (item_id x ∈ item_id <$> prev)) as [Hold | Hfresh]; [ by left | right ].
    apply list_elem_of_fmap. exists x. split; [ reflexivity | ].
    apply list_elem_of_filter. split; [ | exact Hx ].
    intros Hin. apply Hfresh. by apply elem_of_list_to_set in Hin.
Qed.

Lemma hardened_pageFetched_NoDup (pageNum : Z) (shouldReset : bool)
    (outcome : FetchOutcome) (s : AppState) :
  NoDup (identifiers (movies s)) -> distinctPage outcome ->
  NoDup (identifiers (movies (Hardened.pageFetched pageNum shouldReset outcome s))).
Proof.
  intros Hs Hpage.
  assert (Hnil : NoDup (identifiers [])) by constructor.
  unfold Hardened.pageFetched, tryCatchFinally, Hardened.pageFetched_try.
  destruct outcome as [m | status body]; simpl.
  { destruct (pageNum =? 1), shouldReset; simpl; assumption. }
  destruct (negb (res_ok status)); simpl.
  { destruct (status =? 429); destruct (pageNum =? 1), shouldReset; simpl; assumption. }
  destruct body as [m | | [results | ] total_pages total_results]; simpl;
    try (destruct (pageNum =? 1), shouldReset; simpl; assumption).
  simpl in Hpage.
  destruct (pageNum =? 1), shouldReset; simpl; try assumption.
  by apply mergePage_NoDup.
Qed.

(** Any run of answers, whatever page and mode they were asked for, keeps
    the identifiers of the list pairwise distinct. *)
Lemma hardened_pages_stay_distinct (answers : list (Z * bool * FetchOutcome)) (s : AppState) :
  NoDup (identifiers (movies s)) ->
  Forall (fun a => distinctPage (snd a)) answers ->
  NoDup (identifiers (movies
    (fold_left (fun s a => Hardened.pageFetched (fst (fst a)) (snd (fst a)) (snd a) s)
               answers s))).
Proof.
  revert s. induction answers as [ | [[pageNum shouldReset] outcome] rest IH];
    intros s Hs Hall; simpl; [ exact Hs | ].
  apply Forall_cons in Hall as [Hhead Hrest].
  apply IH; [ | exact Hrest ].
  by apply hardened_pageFetched_NoDup.
Qed.

(** The hardened component shows B once. *)
Lemma hardened_overlapping_pages :
  movies (st (Hardened.run browserEnv
                [Responds 1 firstPage; LoadMoreClick; Responds 2 secondPage]
                (Hardened.mount browserEnv)))
  = [itemA; itemB; itemC].
Proof. vm_compute. reflexivity. Qed.

(** A further page in [src/App.js]: the list grows by the whole page. *)
Lemma appjs_further_page_appends (status : Z) (results : list MediaItem)
    (total_pages total_results : option Z) (pageNum : Z) (s : AppState) :
  res_ok status = true -> pageNum <> 1 ->
  movies (AppJs.pageFetched pageNum
            (Responded status (JsonData (Some results) total_pages total_results)) s)
  = (movies s ++ results)%list.
Proof.
  intros Hok Hne. unfold AppJs.pageFetched, tryCatchFinally, AppJs.pageFetched_try.
  rewrite Hok. simpl.
  destruct (Z.eqb_spec pageNum 1) as [E | _]; [ by destruct Hne | reflexivity ].
Qed.

(** C1 in [src/App.js]: page 1 holds A and B, page 2 holds B and C; the
    merge appends the page as it comes, and B is in the list twice. *)
Theorem appjs_overlapping_pages :
  let w := AppJs.run browserEnv
             [Responds 1 firstPage; LoadMoreClick; Responds 2 secondPage]
             (AppJs.mount browserEnv) in
  movies (st w) = [itemA; itemB; itemB; itemC]
  /\ ~ NoDup (identifiers (movies (st w))).
Proof.
  vm_compute. split; [ reflexivity | ].
  intros Hnd.
  apply NoDup_cons in Hnd as [_ Hnd]. apply NoDup_cons in Hnd as [Hin _].
  apply Hin. by left.
Qed.

(** ** Typing into the search box *)

(** C2 in [src/App.js]: "b", "ba", "bat" are typed, then every timer that
    is still pending fires.  The handlers alone leave three timers, because
    the handle of each suggestion timer is overwritten by the handle of the
    search timer set right after it: two suggestion requests, for "ba" and
    for "bat", and one search for "bat".  With the effects run after each
    handler, the cleanup of the load effect (which follows each change of
    [search]) clears the search timer too: the same two suggestion
    requests, and no full search. *)
Theorem appjs_typing_bat :
  let typed := AppJs.run browserEnv
                 [SearchChange "b"; SearchChange "ba"; SearchChange "bat"] appjsLoaded in
  let handlersOnly :=
    AppJs.handleSearchChange browserEnv "bat"
      (AppJs.handleSearchChange browserEnv "ba"
         (AppJs.handleSearchChange browserEnv "b" appjsLoaded)) in
  let handlersFired :=
    fold_left (fun w ev => AppJs.handle browserEnv ev w)
      (TimerFires <$> (timer_id <$> timers handlersOnly)) handlersOnly in
  let fired := AppJs.run browserEnv (TimerFires <$> (timer_id <$> timers typed)) typed in
  (pendingActions handlersOnly
   = [CallSuggestions "ba"; CallSuggestions "bat"; CallSearch "bat"]
   /\ suggestionRequests handlersFired = [SuggestionRequest "ba"; SuggestionRequest "bat"]
   /\ searchRequests handlersFired = [SearchRequest "bat"])
  /\ (pendingActions typed = [CallSuggestions "ba"; CallSuggestions "bat"]
      /\ suggestionRequests fired = [SuggestionRequest "ba"; SuggestionRequest "bat"]
      /\ searchRequests fired = []
      /\ timers fired = []).
Proof. vm_compute. repeat split; reflexivity. Qed.

(** The hardened component: one request of each kind, both for "bat". *)
Lemma hardened_typing_bat :
  let typed := Hardened.run browserEnv
                 [SearchChange "b"; SearchChange "ba"; SearchChange "bat"] hardenedLoaded in
  let fired := Hardened.run browserEnv (TimerFires <$> (timer_id <$> timers typed)) typed in
  pendingActions typed = [CallSuggestions "bat"; CallSearch "bat"]
  /\ suggestionRequests fired = [SuggestionRequest "bat"]
  /\ searchRequests fired = [SearchRequest "bat"]
  /\ timers fired = [].
Proof. vm_compute. repeat split; reflexivity. Qed.

(** *** The debounce of the hardened component *)

Lemma timerPart_eq (w w' : World) :
  timerPart w' = timerPart w ->
  typingTimeoutRef w' = typingTimeoutRef w /\ debounceTimeoutId w' = debounceTimeoutId w
  /\ timers w' = timers w /\ timerCount w' = timerCount w.
Proof. unfold timerPart. by intros [= -> -> -> ->]. Qed.

Lemma timersTracked_frame (w w' : World) :
  timerPart w' = timerPart w -> timersTracked w -> timersTracked w'.
Proof.
  intros Hpart. apply timerPart_eq in Hpart as (H1 & H2 & H3 & H4).
  unfold timersTracked. by rewrite H1, H2, H3, H4.
Qed.

(** Clearing a timer, whether or not the ref is reset, keeps the rest
    reachable. *)
Lemma timersTracked_clear (id : nat) (w : World) :
  timersTracked w -> timersTracked (clearTimeout id w).
Proof.
  intros (Hr & Hd & Ht). split; [ exact Hr | split; [ exact Hd | ] ].
  intros t Hin. simpl in *. apply list_elem_of_filter in Hin as [_ Hin]. by apply Ht.
Qed.

Lemma timersTracked_clear_ref (w : World) :
  timersTracked w ->
  timersTracked match typingTimeoutRef w with
                | Some id => setTypingTimeoutRef None (clearTimeout id w)
                | None => w
                end
  /\ forall t, t ∈ timers match typingTimeoutRef w with
                          | Some id => setTypingTimeoutRef None (clearTimeout id w)
                          | None => w
                          end ->
               isSuggestionTimer t = false.
Proof.
  intros (Hr & Hd & Ht). destruct (typingTimeoutRef w) as [id | ] eqn:Href.
  - split.
    + split; [ intros ? [=] | split; [ exact Hd | ] ].
      intros t Hin. simpl in *. apply list_elem_of_filter in Hin as [Hne Hin].
      specialize (Ht t Hin). destruct (isSuggestionTimer t); [ | exact Ht ].
      injection Ht as Heq. by destruct Hne.
    + intros t Hin. simpl in *. apply list_elem_of_filter in Hin as [Hne Hin].
      specialize (Ht t Hin). destruct (isSuggestionTimer t); [ | reflexivity ].
      injection Ht as Heq. by destruct Hne.
  - split.
    + split; [ intros id Hid; rewrite Href in Hid; discriminate | split; [ exact Hd | ] ].
      intros t Hin. specialize (Ht t Hin).
      destruct (isSuggestionTimer t); [ discriminate | exact Ht ].
    + intros t Hin. specialize (Ht t Hin).
      destruct (isSuggestionTimer t); [ discriminate | reflexivity ].
Qed.

Lemma filter_none {A : Type} (P : A -> Prop) `{forall x, Decision (P x)} (l : list A) :
  (forall x, x ∈ l -> ~ P x) -> filter P l = [].
Proof.
  intros Hno. destruct (filter P l) as [ | x rest] eqn:E; [ reflexivity | ].
  assert (Hin : x ∈ filter P l) by (rewrite E; by left).
  apply list_elem_of_filter in Hin as [HP Hin]. by destruct (Hno x Hin).
Qed.

Lemma hardened_fetchFirstPage_timers (env : Env) (cat : string) (w : World) :
  timerPart (Hardened.fetchFirstPage env cat w) = timerPart w.
Proof.
  unfold Hardened.fetchFirstPage, Hardened.fetchTrending, Hardened.fetchByCategory.
  repeat case_match; reflexivity.
Qed.

Lemma hardened_handleClearSearch_tracked (env : Env) (w : World) :
  timersTracked w -> timersTracked (Hardened.handleClearSearch env w).
Proof.
  intros Htracked. unfold Hardened.handleClearSearch.
  eapply timersTracked_frame; [ apply hardened_fetchFirstPage_timers | ].
  set (w1 := withState _ _).
  assert (H1 : timersTracked w1) by (eapply timersTracked_frame; [ | exact Htracked ]; done).
  apply (timersTracked_clear_ref w1 H1).
Qed.

Lemma hardened_performSearch_tracked (env : Env) (query : string) (w : World) :
  timersTracked w -> timersTracked (Hardened.performSearch env query w).
Proof.
  intros Htracked. unfold Hardened.performSearch.
  case_match; [ by apply hardened_handleClearSearch_tracked | ].
  eapply timersTracked_frame; [ | exact Htracked ]. reflexivity.
Qed.

(** A query of two characters or more replaces both timers: whatever was
    pending is cleared, and the two timers that are pending afterwards call
    for this query. *)
Lemma hardened_handleSearchChange_replaces (env : Env) (value : string) (w : World) :
  timersTracked w -> (2 <= String.length (trim value))%nat ->
  let w' := Hardened.handleSearchChange env value w in
  (timer_action <$> timers w') = [CallSuggestions value; CallSearch value]
  /\ timersTracked w'.
Proof.
  intros Htracked Hlong. simpl. unfold Hardened.handleSearchChange.
  assert (Hsome : truthyStr (trim value) = true).
  { unfold truthyStr. destruct (trim value); [ simpl in Hlong; lia | reflexivity ]. }
  rewrite Hsome.
  replace (2 <=? String.length (trim value))%nat with true
    by (symmetry; by apply Nat.leb_le).
  cbn [negb].
  set (w0 := withState (setSearch value) w).
  assert (H0 : timersTracked w0) by (eapply timersTracked_frame; [ | exact Htracked ]; done).
  destruct (timersTracked_clear_ref w0 H0) as [H1 Hnosugg].
  set (w1 := match typingTimeoutRef w0 with
             | Some id => setTypingTimeoutRef None (clearTimeout id w0)
             | None => w0
             end) in *.
  clearbody w1. clear H0 Htracked. subst w0.
  destruct H1 as (Hr & Hd & Ht).
  unfold Hardened.debounce. simpl.
  destruct (debounceTimeoutId w1) as [d | ] eqn:Hdeb; simpl.
  - assert (Hgone : filter (fun t => timer_id t <> d)
                      (timers w1 ++ [{| timer_id := S (timerCount w1); timer_delay := 300;
                                        timer_action := CallSuggestions value |}])%list
                    = [{| timer_id := S (timerCount w1); timer_delay := 300;
                          timer_action := CallSuggestions value |}]).
    { rewrite filter_app.
      assert (Hnil : filter (fun t => timer_id t <> d) (timers w1) = []).
      { apply filter_none. intros t Hin Hne.
        specialize (Ht t Hin). rewrite (Hnosugg t Hin) in Ht.
        injection Ht as Heq. by destruct Hne. }
      rewrite Hnil. simpl.
      rewrite filter_cons_True; [ reflexivity | ].
      simpl. specialize (Hd d eq_refl). lia. }
    rewrite Hgone. simpl. split; [ reflexivity | ].
    split; [ intros id [= <-]; simpl; lia | split; [ intros id [= <-]; simpl; lia | ] ].
    intros t Hin. simpl in Hin.
    apply elem_of_cons in Hin as [-> | Hin]; [ reflexivity | ].
    apply list_elem_of_singleton in Hin as ->. reflexivity.
  - assert (Hnil : timers w1 = []).
    { destruct (timers w1) as [ | t rest]; [ reflexivity | ].
      assert (Hin : t ∈ t :: rest) by (by left).
      specialize (Ht t Hin). rewrite (Hnosugg t Hin) in Ht. discriminate. }
    rewrite Hnil. simpl. split; [ reflexivity | ].
    split; [ intros id [= <-]; simpl; lia | split; [ intros id [= <-]; simpl; lia | ] ].
    intros t Hin. simpl in Hin.
    apply elem_of_cons in Hin as [-> | Hin]; [ reflexivity | ].
    apply list_elem_of_singleton in Hin as ->. reflexivity.
Qed.

Lemma hardened_handleLoadMore_timers (env : Env) (w : World) :
  timerPart (Hardened.handleLoadMore env w) = timerPart w.
Proof.
  unfold Hardened.handleLoadMore, Hardened.fetchTrending, Hardened.fetchByCategory.
  repeat case_match; reflexivity.
Qed.

Lemma hardened_handle_tracked (env : Env) (ev : Event) (w : World) :
  timersTracked w -> timersTracked (Hardened.handle env ev w).
Proof.
  intros Htracked. destruct ev as [value | | id | rid outcome | | id b]; simpl.
  - unfold Hardened.handleSearchChange.
    set (w0 := withState (setSearch value) w).
    assert (H0 : timersTracked w0)
      by (eapply timersTracked_frame; [ | exact Htracked ]; done).
    destruct (negb (truthyStr (trim value))) eqn:Hblank.
    + apply hardened_handleClearSearch_tracked. apply (timersTracked_clear_ref w0 H0).
    + destruct (Nat.leb_spec 2 (String.length (trim value))) as [Hlong | Hshort].
      * pose proof (hardened_handleSearchChange_replaces env value w Htracked Hlong) as H.
        simpl in H. unfold Hardened.handleSearchChange in H. fold w0 in H.
        rewrite Hblank in H.
        replace (2 <=? String.length (trim value))%nat with true in H
          by (symmetry; by apply Nat.leb_le).
        apply H.
      * eapply timersTracked_frame; [ | apply (timersTracked_clear_ref w0 H0) ]. done.
  - unfold Hardened.handleEnter. case_match; [ | exact Htracked ].
    apply hardened_performSearch_tracked.
    destruct (typingTimeoutRef w); [ by apply timersTracked_clear | exact Htracked ].
  - case_match; [ exact Htracked | ].
    assert (Hc : timersTracked (clearTimeout id w)) by (by apply timersTracked_clear).
    destruct (timer_action t) as [value | value]; simpl.
    + unfold Hardened.fetchSearchSuggestions.
      eapply timersTracked_frame; [ | exact Hc ]. by case_match.
    + by apply hardened_performSearch_tracked.
  - eapply timersTracked_frame; [ | exact Htracked ].
    destruct (findRequest rid (inflight w)) as [[endpoint pageNum reset | q | q] | ];
      reflexivity.
  - case_match; [ | exact Htracked ].
    eapply timersTracked_frame; [ apply hardened_handleLoadMore_timers | exact Htracked ].
  - destruct (observerRef w) as [o | ]; [ | exact Htracked ].
    case_match; [ | exact Htracked ].
    unfold Hardened.onIntersection. destruct b; [ | exact Htracked ].
    eapply timersTracked_frame; [ apply hardened_handleLoadMore_timers | exact Htracked ].
Qed.

(** No effect of the hardened component touches a timer. *)
Lemma hardened_commitOnce_timers (env : Env) (prev : AppState) (w : World) :
  timerPart (Hardened.commitOnce env prev w) = timerPart w.
Proof.
  unfold Hardened.commitOnce, Hardened.loadEffect, Hardened.scrollEffect,
    Hardened.scrollEffect_cleanup, disconnectObserver, targetRemoved.
  repeat match goal with
         | |- context [if ?b then _ else _] => destruct b
         | |- context [match ?o with Some _ => _ | None => _ end] => destruct o
         end;
    rewrite ?hardened_fetchFirstPage_timers; reflexivity.
Qed.

Lemma hardened_commit_timers (env : Env) (prev : AppState) (w : World) :
  timerPart (Hardened.commit env prev w) = timerPart w.
Proof. unfold Hardened.commit. by rewrite !hardened_commitOnce_timers. Qed.

Lemma hardened_step_tracked (env : Env) (w : World) (ev : Event) :
  timersTracked w -> timersTracked (Hardened.step env w ev).
Proof.
  intros Htracked. unfold Hardened.step. case_match; [ exact Htracked | ].
  eapply timersTracked_frame; [ apply hardened_commit_timers | ].
  by apply hardened_handle_tracked.
Qed.

Lemma hardened_run_tracked (env : Env) (evs : list Event) (w : World) :
  timersTracked w -> timersTracked (Hardened.run env evs w).
Proof.
  revert w. unfold Hardened.run.
  induction evs as [ | ev rest IH]; intros w Htracked; simpl; [ exact Htracked | ].
  by apply IH, hardened_step_tracked.
Qed.

Lemma hardened_mount_tracked (env : Env) : timersTracked (Hardened.mount env).
Proof.
  unfold Hardened.mount.
  eapply timersTracked_frame; [ apply hardened_commitOnce_timers | ].
  unfold Hardened.loadEffect. simpl.
  eapply timersTracked_frame; [ apply hardened_fetchFirstPage_timers | ].
  eapply (timersTracked_frame initialWorld).
  - unfold Hardened.keyEffect. by case_match.
  - split; [ intros ? [=] | split; [ intros ? [=] | ] ].
    intros t Hin. by apply elem_of_nil in Hin.
Qed.

(** The debounce of the hardened component, for every run of events: a
    keystroke that leaves two characters or more clears whatever timer was
    pending and arms one suggestion timer and one search timer, both for
    the value just typed; when they fire, one request of each kind leaves
    for that value. *)
Lemma hardened_debounce (env : Env) (evs : list Event) (value : string) :
  let w := Hardened.run env evs (Hardened.mount env) in
  boundaryHasError (st w) = false -> (2 <= String.length (trim value))%nat ->
  (timer_action <$> timers (Hardened.step env w (SearchChange value)))
  = [CallSuggestions value; CallSearch value]
  /\ (forall v, keyMissing env = false ->
      sent (Hardened.fire env (CallSuggestions value) v)
      = (sent v ++ [SuggestionRequest value])%list)
  /\ (forall v, sent (Hardened.fire env (CallSearch value) v)
                = (sent v ++ [SearchRequest value])%list).
Proof.
  intros w Hup Hlong.
  assert (Htracked : timersTracked w) by apply hardened_run_tracked, hardened_mount_tracked.
  split; [ | split ].
  - unfold Hardened.step. rewrite Hup.
    destruct (timerPart_eq _ _ (hardened_commit_timers env (st w)
                (Hardened.handle env (SearchChange value) w))) as (_ & _ & -> & _).
    apply (hardened_handleSearchChange_replaces env value w Htracked Hlong).
  - intros v Hkey. simpl. unfold Hardened.fetchSearchSuggestions. rewrite Hkey.
    replace (String.length (trim value) <? 2)%nat with false
      by (symmetry; apply Nat.ltb_ge; lia).
    reflexivity.
  - intros v. simpl. unfold Hardened.performSearch.
    assert (Hsome : truthyStr (trim value) = true).
    { unfold truthyStr. destruct (trim value); [ simpl in Hlong; lia | reflexivity ]. }
    rewrite Hsome. reflexivity.
Qed.

(** ** Load more *)

Lemma hardened_handleLoadMore_guard (env : Env) (w : World) :
  loading (st w) = true \/ hasMore (st w) = false ->
  Hardened.handleLoadMore env w = w.
Proof.
  intros [H | H]; unfold Hardened.handleLoadMore; rewrite H; simpl;
    [ reflexivity | by rewrite orb_true_r ].
Qed.

(** C3.  Hardened component: a further page is fetched with
    [shouldReset = false], which leaves [loading] as it is, so a second
    call of [handleLoadMore] passes the guard again and two requests for
    page 2 are in flight.  [src/App.js]: clearing the search box starts the
    first page twice (handler and load effect); the first answer resets
    [loading] while the second request is still pending, and Load More
    then adds a request for page 2. *)
Theorem load_more_while_pending :
  let clicked := Hardened.run browserEnv [LoadMoreClick; LoadMoreClick] hardenedLoaded in
  let scrolled :=
    Hardened.run browserEnv [Intersection 1 true; Intersection 1 true] hardenedLoaded in
  let overlapped :=
    AppJs.run browserEnv
      [SearchChange "a"; SearchChange ""; Responds 2 firstPage; LoadMoreClick] appjsLoaded in
  (pendingPageFetches hardenedLoaded = 0%nat
   /\ loading (st (Hardened.run browserEnv [LoadMoreClick] hardenedLoaded)) = false
   /\ pendingPageFetches clicked = 2%nat
   /\ snd <$> inflight clicked
      = [PageRequest "https://api.themoviedb.org/3/trending/movie/week?api_key=k3y&page=2&language=en" 2 false;
         PageRequest "https://api.themoviedb.org/3/trending/movie/week?api_key=k3y&page=2&language=en" 2 false]
   /\ pendingPageFetches scrolled = 2%nat)
  /\ (pendingPageFetches overlapped = 2%nat
      /\ snd <$> inflight overlapped
         = [PageRequest "https://api.themoviedb.org/3/trending/movie/week?api_key=k3y&page=1" 1 true;
            PageRequest "https://api.themoviedb.org/3/trending/movie/week?api_key=k3y&page=2" 2 true]).
Proof. vm_compute. repeat split; reflexivity. Qed.

(** In general: once the guard lets a call through, it lets the next one
    through as well, for the same page. *)
Lemma hardened_handleLoadMore_twice (env : Env) (w : World) :
  Hardened.keyUnusable env = false ->
  loading (st w) = false -> hasMore (st w) = true ->
  let w1 := Hardened.handleLoadMore env w in
  let w2 := Hardened.handleLoadMore env w1 in
  loading (st w1) = false
  /\ exists endpoint,
       sent w2 = (sent w ++ [PageRequest endpoint (page (st w) + 1) false;
                             PageRequest endpoint (page (st w) + 1) false])%list.
Proof.
  intros Hkey Hload Hmore. simpl.
  unfold Hardened.handleLoadMore, Hardened.fetchTrending, Hardened.fetchByCategory.
  rewrite Hload, Hmore, Hkey. simpl.
  destruct (String.eqb (category (st w)) "trending") eqn:Hcat; simpl;
    rewrite Hload, Hmore, ?Hcat; simpl;
    (split; [ reflexivity | eexists; by rewrite <- app_assoc ]).
Qed.

(** [handleLoadMore] of [src/App.js] looks at neither [loading] nor
    [hasMore]: it always sends; what keeps it from being called is the
    view (no button, no observer while [loading]). *)
Lemma appjs_handleLoadMore_always_sends (env : Env) (w : World) :
  exists endpoint,
    sent (AppJs.handleLoadMore env w)
    = (sent w ++ [PageRequest endpoint (page (st w) + 1) true])%list
    /\ loading (st (AppJs.handleLoadMore env w)) = true.
Proof.
  unfold AppJs.handleLoadMore.
  destruct (String.eqb (category (st w)) "trending"); eexists; split; reflexivity.
Qed.

(** Two notifications and two clicks in a row start one fetch only in
    [src/App.js]: the first one sets [loading]. *)
Lemma appjs_load_more_twice :
  pendingPageFetches
    (AppJs.run browserEnv
       [Intersection 2 true; Intersection 2 true; LoadMoreClick; LoadMoreClick]
       appjsLoaded) = 1%nat.
Proof. vm_compute. reflexivity. Qed.

(** ** Clearing the search box *)

(** What the empty-query branch of [src/App.js] does at once. *)
Lemma appjs_clear_is_immediate (env : Env) (value : string) (w : World) :
  truthyStr (trim value) = false ->
  let w' := AppJs.handleSearchChange env value w in
  search (st w') = value
  /\ suggestions (st w') = [] /\ searchResults (st w') = []
  /\ isSearching (st w') = false /\ page (st w') = 1 /\ hasMore (st w') = true
  /\ loading (st w') = true
  /\ (forall id, typingTimeoutRef w = Some id ->
                 Forall (fun t => timer_id t <> id) (timers w'))
  /\ exists endpoint, sent w' = (sent w ++ [PageRequest endpoint 1 true])%list.
Proof.
  intros Hblank. unfold AppJs.handleSearchChange. rewrite Hblank. simpl.
  unfold AppJs.fetchFirstPage, AppJs.clearTypingTimeout. simpl.
  destruct (typingTimeoutRef w) as [id | ] eqn:Href; simpl;
    destruct (String.eqb (category (st w)) "trending"); simpl;
    repeat (split; [ reflexivity | ]);
    (split; [ | eexists; reflexivity ]);
    intros id' [= <-]; apply Forall_forall; intros t Ht;
    by apply list_elem_of_filter in Ht as [Hne _].
Qed.

(** C6.  [src/App.js]: "ba" is typed and deleted again before 300 ms have
    passed.  The suggestion timer of "ba" is still pending, fires, and its
    answer fills [suggestions] under an empty query; they are shown as soon
    as two characters are typed again.  Hardened component: the debounced
    full search of "ba" is still pending, fires, and its answer replaces
    the browse list that had been restored. *)
Theorem clearing_leaves_a_timer :
  let cleared := AppJs.run browserEnv [SearchChange "ba"; SearchChange ""] appjsLoaded in
  let late := AppJs.run browserEnv
                [Responds 2 firstPage; Responds 3 firstPage; TimerFires 1;
                 Responds 4 secondPage] cleared in
  let retyped := AppJs.run browserEnv [SearchChange "xy"] late in
  let cleared' := Hardened.run browserEnv [SearchChange "ba"; SearchChange ""] hardenedLoaded in
  let restored := Hardened.run browserEnv
                    [Responds 2 firstPage; Responds 3 firstPage] cleared' in
  let late' := Hardened.run browserEnv [TimerFires 2; Responds 4 secondPage] restored in
  (pendingActions cleared = [CallSuggestions "ba"]
   /\ suggestions (st cleared) = []
   /\ suggestionRequests late = [SuggestionRequest "ba"]
   /\ search (st late) = "" /\ suggestions (st late) = [itemB; itemC]
   /\ suggestions (st retyped) = [itemB; itemC]
   /\ AppJs.suggestionsShown (st retyped) = true)
  /\ (pendingActions cleared' = [CallSearch "ba"]
      /\ movies (st restored) = [itemA; itemB]
      /\ searchRequests late' = [SearchRequest "ba"]
      /\ search (st late') = "" /\ movies (st late') = []
      /\ featured (st late') = None
      /\ searchResults (st late') = [itemB; itemC]
      /\ Hardened.displayMovies (st late') = []).
Proof. vm_compute. repeat split; reflexivity. Qed.

(** ** A query of one character *)

(** [src/App.js] has no branch for it: only [search] changes. *)
Lemma appjs_short_query_changes_nothing (env : Env) (value : string) (w : World) :
  truthyStr (trim value) = true -> (String.length (trim value) < 2)%nat ->
  let w' := AppJs.handleSearchChange env value w in
  st w' = setSearch value (st w) /\ sent w' = sent w /\ inflight w' = inflight w.
Proof.
  intros Hsome Hshort. unfold AppJs.handleSearchChange. rewrite Hsome.
  replace (2 <=? String.length (trim value))%nat with false
    by (symmetry; apply Nat.leb_gt; lia).
  unfold AppJs.clearTypingTimeout. simpl.
  destruct (typingTimeoutRef w); repeat split; reflexivity.
Qed.

(** C7 in [src/App.js]: "ba" is searched with Enter, its suggestions arrive
    too, then the query is cut to "b": the results and the suggestions of
    "ba" stay, and the results are what the grid shows. *)
Theorem appjs_short_query_keeps_results :
  let searched := AppJs.run browserEnv
                    [SearchChange "ba"; EnterKey; Responds 2 secondPage;
                     TimerFires 1; Responds 3 firstPage] appjsLoaded in
  let cut := AppJs.run browserEnv [SearchChange "b"] searched in
  search (st cut) = "b"
  /\ suggestions (st cut) = [itemA; itemB]
  /\ searchResults (st cut) = [itemB; itemC]
  /\ AppJs.displayMovies (st cut) = [itemB; itemC]
  /\ sent cut = sent searched.
Proof. vm_compute. repeat split; reflexivity. Qed.

(** The hardened component has the branch. *)
Lemma hardened_short_query_clears (env : Env) (value : string) (w : World) :
  truthyStr (trim value) = true -> (String.length (trim value) < 2)%nat ->
  let w' := Hardened.handleSearchChange env value w in
  suggestions (st w') = [] /\ searchResults (st w') = []
  /\ isSearching (st w') = false /\ search (st w') = value
  /\ sent w' = sent w /\ inflight w' = inflight w
  /\ timers w' ⊆ timers w.
Proof.
  intros Hsome Hshort. unfold Hardened.handleSearchChange. rewrite Hsome.
  replace (2 <=? String.length (trim value))%nat with false
    by (symmetry; apply Nat.leb_gt; lia).
  simpl. destruct (typingTimeoutRef w) as [id | ]; simpl;
    repeat (split; [ reflexivity | ]).
  - intros t Ht. by apply list_elem_of_filter in Ht as [_ Ht].
  - done.
Qed.

Lemma hardened_short_query_step :
  let searched := Hardened.run browserEnv
                    [SearchChange "ba"; EnterKey; Responds 2 secondPage] hardenedLoaded in
  let cut := Hardened.run browserEnv [SearchChange "b"] searched in
  searchResults (st searched) = [itemB; itemC]
  /\ suggestions (st cut) = [] /\ searchResults (st cut) = []
  /\ sent cut = sent searched.
Proof. vm_compute. repeat split; reflexivity. Qed.

(** ** Visibility watches *)






(** *** The scroll watch of [src/App.js] *)


Lemma appjs_fetchTrending_frame (env : Env) (pageNum : Z) (w : World) :
  watchPart (AppJs.fetchTrending env pageNum w) = watchPart w
  /\ loading (st (AppJs.fetchTrending env pageNum w)) = true
  /\ AppJs.sameLoadDeps (st w) (st (AppJs.fetchTrending env pageNum w)) = true.
Proof.
  unfold AppJs.sameLoadDeps. simpl.
  by rewrite !String.eqb_refl, eqb_reflx.
Qed.

Lemma appjs_fetchByCategory_frame (env : Env) (cat : string) (pageNum : Z) (w : World) :
  watchPart (AppJs.fetchByCategory env cat pageNum w) = watchPart w
  /\ loading (st (AppJs.fetchByCategory env cat pageNum w)) = true
  /\ AppJs.sameLoadDeps (st w) (st (AppJs.fetchByCategory env cat pageNum w)) = true.
Proof.
  unfold AppJs.sameLoadDeps. simpl.
  by rewrite !String.eqb_refl, eqb_reflx.
Qed.










Lemma targetRemoved_frame (w : World) :
  st (targetRemoved w) = st w
  /\ scrollCleanup (targetRemoved w) = scrollCleanup w
  /\ observerCount (targetRemoved w) = observerCount w
  /\ loadMoreCalls (targetRemoved w) = loadMoreCalls w
  /\ timerPart (targetRemoved w) = timerPart w
  /\ sent (targetRemoved w) = sent w /\ inflight (targetRemoved w) = inflight w.
Proof. unfold targetRemoved. by destruct (observerRef w). Qed.














(** * Further properties of the code *)

(** ** Strings *)

Lemma append_cons (x : ascii) (a b : string) : String x a +:+ b = String x (a +:+ b).
Proof. reflexivity. Qed.

Lemma append_assoc (a b c : string) : (a +:+ b) +:+ c = a +:+ b +:+ c.
Proof.
  induction a as [|x a IH]; [reflexivity|].
  rewrite !append_cons, IH. reflexivity.
Qed.

Lemma append_nil_r (a : string) : a +:+ "" = a.
Proof.
  induction a as [|x a IH]; [reflexivity|].
  rewrite append_cons, IH. reflexivity.
Qed.

Lemma length_append (a b : string) :
  String.length (a +:+ b) = (String.length a + String.length b)%nat.
Proof.
  induction a as [|x a IH]; [reflexivity|].
  rewrite append_cons. simpl. rewrite IH. reflexivity.
Qed.

(** ** Decimal numerals *)

Lemma string_of_uint_digits (d : Decimal.uint) :
  allDigits (NilEmpty.string_of_uint d) = true.
Proof. induction d; simpl; auto. Qed.

Lemma showZ_nonneg (n : Z) :
  0 <= n ->
  exists d, d <> Decimal.Nil /\ showZ n = NilEmpty.string_of_uint d /\ Z.of_uint d = n.
Proof.
  intros Hn. destruct n as [|p|p]; [| |lia].
  - exists (Decimal.D0 Decimal.Nil). repeat split; discriminate.
  - exists (Pos.to_uint p). split; [apply DecimalPos.Unsigned.to_uint_nonnil|].
    split.
    + unfold showZ. simpl. destruct (Pos.to_uint p) eqn:E; try reflexivity.
      exfalso. exact (DecimalPos.Unsigned.to_uint_nonnil p E).
    + unfold Z.of_uint. rewrite DecimalPos.Unsigned.of_to. reflexivity.
Qed.

Lemma showZ_allDigits (n : Z) : 0 <= n -> allDigits (showZ n) = true.
Proof.
  intros Hn. destruct (showZ_nonneg n Hn) as (d & _ & -> & _).
  apply string_of_uint_digits.
Qed.

Lemma showZ_nonempty (n : Z) : showZ n <> "".
Proof.
  destruct n as [|p|p]; unfold showZ; simpl; try discriminate.
  all: destruct (Pos.to_uint p); simpl; discriminate.
Qed.

Lemma isDigit_not_space (c : ascii) : isDigit c = true -> isWhiteSpace c = false.
Proof.
  unfold isDigit, isWhiteSpace. cbv zeta. intros H.
  apply andb_true_iff in H as [H1 H2].
  apply Nat.leb_le in H1, H2.
  repeat match goal with
         | |- context [(?a <=? ?b)%nat] => destruct (Nat.leb_spec a b)
         | |- context [(?a =? ?b)%nat] => destruct (Nat.eqb_spec a b)
         end; simpl; try reflexivity; lia.
Qed.

Lemma trimEnd_allDigits (s : string) : allDigits s = true -> trimEnd s = s.
Proof.
  induction s as [|c rest IH]; simpl; [reflexivity|].
  intros H. apply andb_true_iff in H as [Hc Hrest].
  rewrite (IH Hrest), (isDigit_not_space c Hc). reflexivity.
Qed.

Lemma trim_allDigits (s : string) : allDigits s = true -> trim s = s.
Proof.
  intros H. unfold trim.
  assert (trimStart s = s) as ->.
  { destruct s as [|c rest]; [reflexivity|]. simpl in *.
    apply andb_true_iff in H as [Hc _].
    rewrite (isDigit_not_space c Hc). reflexivity. }
  apply trimEnd_allDigits, H.
Qed.

Lemma isDigit_not_sign (c : ascii) :
  isDigit c = true -> Ascii.eqb c "-" = false /\ Ascii.eqb c "+" = false.
Proof.
  unfold isDigit. cbv zeta. intros H.
  apply andb_true_iff in H as [H1 H2]. apply Nat.leb_le in H1, H2.
  split; apply Ascii.eqb_neq; intros ->; vm_compute in H1; lia.
Qed.

(** A numeral that [showZ] wrote is read back by [stringToNumber]. *)
Lemma stringToNumber_showZ (n : Z) :
  0 <= n <= exactBound -> stringToNumber (showZ n) = Some (Int n).
Proof.
  intros [Hn Hb]. destruct (showZ_nonneg n Hn) as (d & Hd & Hs & Hv).
  unfold stringToNumber. rewrite (trim_allDigits _ (showZ_allDigits n Hn)).
  destruct (showZ n) as [|c rest] eqn:E; [exfalso; exact (showZ_nonempty n E)|].
  assert (Hc : isDigit c = true).
  { pose proof (showZ_allDigits n Hn) as H. rewrite E in H. simpl in H.
    apply andb_true_iff in H as [H _]. exact H. }
  destruct (isDigit_not_sign c Hc) as [-> ->]. simpl orb. cbv iota.
  assert (NilZero.uint_of_string (String c rest) = Some d) as ->.
  { rewrite Hs. pose proof (NilZero.usu d Hd) as U.
    destruct d; [congruence|exact U..]. }
  cbv zeta. rewrite Hv.
  destruct (Z.leb_spec n exactBound); [reflexivity|lia].
Qed.

(** ** [utils/imageUtils] *)

Lemma truthy_orDefault_false (v : Value) :
  truthy (ImageUtils.orDefault v (Bool false)) = truthy v.
Proof. destruct v; reflexivity. Qed.

(** The part of [getOptimizedImageUrl] after the text of [actualSize]. *)
Lemma getOptimizedImageUrl_cases (path : Value) (o : ImageUtils.Options) :
  truthy path = true ->
  let size := ImageUtils.orDefault (ImageUtils.opt_size o) (ImageUtils.preset "card") in
  let original := strictEqStr size "original" in
  let query :=
    if strictEqStr (ImageUtils.orDefault (ImageUtils.opt_format o) (Str "webp")) "webp"
       && negb original
    then "?format=webp&quality="
         +:+ show (ImageUtils.orDefault (ImageUtils.opt_quality o) (Number 80))
    else "" in
  ImageUtils.getOptimizedImageUrl path o =
  match (if truthy (ImageUtils.opt_retina o) && negb original
         then ImageUtils.doubled size else Returns (show size)) with
  | Returns actualSize =>
      Returns (TMDB_IMAGE_BASE
               +:+ (if original then "original" else "w" +:+ actualSize)
               +:+ show path +:+ query)
  | Raises message => Raises message
  | Unevaluated => Unevaluated
  end.
Proof.
  intros Hp size original query. unfold ImageUtils.getOptimizedImageUrl.
  rewrite Hp, truthy_orDefault_false. simpl negb. cbv iota.
  fold size. fold original.
  destruct (if truthy (ImageUtils.opt_retina o) && negb original
            then ImageUtils.doubled size else Returns (show size)) as [a|m|];
    simpl; try reflexivity.
  subst query.
  destruct (strictEqStr (ImageUtils.orDefault (ImageUtils.opt_format o) (Str "webp")) "webp"
            && negb original);
    rewrite ?append_assoc, ?append_nil_r; reflexivity.
Qed.

(** X1.  [getOptimizedImageUrl] gives the placeholder for every path that is
    missing or empty, whatever the options; and it throws exactly when the
    path is present, [retina] is set, and the [size] option is present and
    not a string. *)
Theorem getOptimizedImageUrl_placeholder_and_throw (path : Value) (o : ImageUtils.Options) :
  (truthy path = false ->
   ImageUtils.getOptimizedImageUrl path o = Returns ImageUtils.PLACEHOLDER_IMAGE)
  /\ ((exists message, ImageUtils.getOptimizedImageUrl path o = Raises message)
      <-> truthy path = true /\ truthy (ImageUtils.opt_retina o) = true
          /\ ImageUtils.opt_size o <> Undefined
          /\ typeof (ImageUtils.opt_size o) <> "string").
Proof.
  split.
  { intros H. unfold ImageUtils.getOptimizedImageUrl. rewrite H. reflexivity. }
  destruct (truthy path) eqn:Hp.
  2:{ unfold ImageUtils.getOptimizedImageUrl. rewrite Hp.
      split; [intros [m Hm]; discriminate|intros (H & _); discriminate]. }
  rewrite (getOptimizedImageUrl_cases path o Hp). cbv zeta.
  destruct (truthy (ImageUtils.opt_retina o)) eqn:Hr.
  2:{ split; [intros [m Hm]; discriminate|intros (_ & H & _); discriminate]. }
  destruct (ImageUtils.opt_size o) as [| |b|n|s| |src]; simpl.
  - split; [intros [m Hm]; discriminate|intros (_ & _ & H & _); congruence].
  - split; [intros _; repeat split; discriminate|intros _; eexists; reflexivity].
  - split; [intros _; repeat split; discriminate|intros _; eexists; reflexivity].
  - split; [intros _; repeat split; discriminate|intros _; eexists; reflexivity].
  - split; [|intros (_ & _ & _ & H); congruence].
    intros [m Hm]. exfalso. revert Hm.
    destruct (String.eqb s "original"); simpl; [discriminate|].
    destruct (stringToNumber (replaceFirst "w" s)) as [[|z]|]; discriminate.
  - split; [intros _; repeat split; discriminate|intros _; eexists; reflexivity].
  - split; [intros _; repeat split; discriminate|intros _; eexists; reflexivity].
Qed.

(** X2.  Without [retina], a size preset [s] other than [original] ends up
    in the URL with a second [w] in front of it: where
    [getSimpleImageUrl] answers [base ++ s ++ path],
    [getOptimizedImageUrl] answers [base ++ "w" ++ s ++ path], followed by
    the [format]/[quality] query when the format is [webp]. *)
Theorem getOptimizedImageUrl_repeats_w (path : Value) (s : string) (format quality retina : Value) :
  truthy path = true -> s <> "original" -> truthy retina = false ->
  let query :=
    if strictEqStr (ImageUtils.orDefault format (Str "webp")) "webp"
    then "?format=webp&quality=" +:+ show (ImageUtils.orDefault quality (Number 80))
    else "" in
  ImageUtils.getSimpleImageUrl path (Str s) = TMDB_IMAGE_BASE +:+ s +:+ show path
  /\ ImageUtils.getOptimizedImageUrl path
       {| ImageUtils.opt_size := Str s; ImageUtils.opt_format := format;
          ImageUtils.opt_quality := quality; ImageUtils.opt_retina := retina |}
     = Returns (TMDB_IMAGE_BASE +:+ "w" +:+ s +:+ show path +:+ query).
Proof.
  intros Hp Hs Hr query. split.
  - unfold ImageUtils.getSimpleImageUrl. rewrite Hp. reflexivity.
  - rewrite (getOptimizedImageUrl_cases _ _ Hp). cbv zeta. simpl.
    rewrite Hr. apply String.eqb_neq in Hs. rewrite Hs. simpl.
    rewrite andb_true_r. reflexivity.
Qed.

Lemma getOptimizedImageUrl_repeats_w_witness :
  ImageUtils.getSimpleImageUrl (Str "/p.jpg") (Str "w342")
  = "https://image.tmdb.org/t/p/w342/p.jpg"
  /\ ImageUtils.getOptimizedImageUrl (Str "/p.jpg") ImageUtils.noOptions
     = Returns "https://image.tmdb.org/t/p/ww342/p.jpg?format=webp&quality=80".
Proof.
  exact (getOptimizedImageUrl_repeats_w (Str "/p.jpg") "w342" Undefined Undefined Undefined
           eq_refl ltac:(discriminate) eq_refl).
Defined.

(** X3.  With [retina], a size [w<n>] written in decimal gives the prefix
    [w<2n>]: the one case in which the URL holds a single [w]. *)
Theorem getOptimizedImageUrl_retina_doubles (path : Value) (n : Z) :
  truthy path = true -> 0 <= n <= exactBound ->
  ImageUtils.getOptimizedImageUrl path
    {| ImageUtils.opt_size := Str ("w" +:+ showZ n); ImageUtils.opt_format := Undefined;
       ImageUtils.opt_quality := Undefined; ImageUtils.opt_retina := Bool true |}
  = Returns (TMDB_IMAGE_BASE +:+ "w" +:+ showZ (n * 2) +:+ show path
             +:+ "?format=webp&quality=80").
Proof.
  intros Hp Hn. rewrite (getOptimizedImageUrl_cases _ _ Hp). cbv zeta.
  change ("w" +:+ showZ n) with (String "w" (showZ n)). simpl.
  rewrite (stringToNumber_showZ n Hn). reflexivity.
Qed.

Lemma getOptimizedImageUrl_retina_doubles_witness :
  ImageUtils.getOptimizedImageUrl (Str "/p.jpg")
    {| ImageUtils.opt_size := Str "w342"; ImageUtils.opt_format := Undefined;
       ImageUtils.opt_quality := Undefined; ImageUtils.opt_retina := Bool true |}
  = Returns "https://image.tmdb.org/t/p/w684/p.jpg?format=webp&quality=80".
Proof.
  exact (getOptimizedImageUrl_retina_doubles (Str "/p.jpg") 342 eq_refl
           ltac:(unfold exactBound; lia)).
Defined.

(** X4.  For the size [original] the URL is [base ++ "original" ++ path]:
    [retina], [format] and [quality] play no part, nothing is thrown and
    no query is added. *)
Theorem getOptimizedImageUrl_original (path format quality retina : Value) :
  truthy path = true ->
  ImageUtils.getOptimizedImageUrl path
    {| ImageUtils.opt_size := Str "original"; ImageUtils.opt_format := format;
       ImageUtils.opt_quality := quality; ImageUtils.opt_retina := retina |}
  = Returns (TMDB_IMAGE_BASE +:+ "original" +:+ show path).
Proof.
  intros Hp. rewrite (getOptimizedImageUrl_cases _ _ Hp). cbv zeta. simpl.
  rewrite !andb_false_r. rewrite append_nil_r. reflexivity.
Qed.

Lemma getOptimizedImageUrl_original_witness :
  ImageUtils.getOptimizedImageUrl (Str "/p.jpg")
    {| ImageUtils.opt_size := Str "original"; ImageUtils.opt_format := Str "webp";
       ImageUtils.opt_quality := Number 50; ImageUtils.opt_retina := Bool true |}
  = Returns "https://image.tmdb.org/t/p/original/p.jpg".
Proof.
  exact (getOptimizedImageUrl_original (Str "/p.jpg") (Str "webp") (Number 50) (Bool true)
           eq_refl).
Defined.

Lemma orDefault_twice (v : Value) :
  ImageUtils.orDefault (ImageUtils.orDefault v (Str "webp")) (Str "webp")
  = ImageUtils.orDefault v (Str "webp").
Proof. destruct v; reflexivity. Qed.

Lemma preset_values :
  ImageUtils.preset "thumbnail" = Str "w92" /\ ImageUtils.preset "small" = Str "w154"
  /\ ImageUtils.preset "card" = Str "w342" /\ ImageUtils.preset "medium" = Str "w500"
  /\ ImageUtils.preset "large" = Str "w780" /\ ImageUtils.preset "xlarge" = Str "w1280".
Proof. vm_compute. repeat split. Qed.

(** X5.  [getImageSrcSet] never throws.  For a missing path it is the
    empty string; otherwise it lists six candidates in ascending width,
    separated by [", "], each the optimized URL of its preset (hence with
    the doubled [w], and with the query for [webp] only) followed by its
    width descriptor. *)
Theorem getImageSrcSet_candidates (path format : Value) :
  let query :=
    if strictEqStr (ImageUtils.orDefault format (Str "webp")) "webp"
    then "?format=webp&quality=80" else "" in
  ImageUtils.getImageSrcSet path format =
  Returns
    (if truthy path
     then String.concat ", "
            (map (fun px => TMDB_IMAGE_BASE +:+ "ww" +:+ px +:+ show path +:+ query
                            +:+ " " +:+ px +:+ "w")
                 ["92"; "154"; "342"; "500"; "780"; "1280"])
     else "").
Proof.
  intros query. unfold ImageUtils.getImageSrcSet.
  destruct (truthy path) eqn:Hp; [|reflexivity].
  simpl negb. cbv iota. cbv zeta.
  unfold ImageUtils.srcSetSizes, ImageUtils.mapOutcome.
  rewrite !(getOptimizedImageUrl_cases _ _ Hp). cbv zeta.
  subst query. simpl ImageUtils.opt_format. simpl ImageUtils.opt_retina.
  simpl ImageUtils.opt_size. simpl ImageUtils.opt_quality.
  rewrite orDefault_twice.
  destruct preset_values as (-> & -> & -> & -> & -> & ->).
  destruct (strictEqStr (ImageUtils.orDefault format (Str "webp")) "webp");
    generalize (show path); intros p; simpl;
    rewrite !append_assoc; reflexivity.
Qed.

Lemma getImageSrcSet_sets (path format : Value) :
  exists sets, ImageUtils.getImageSrcSet path format = Returns sets.
Proof.
  unfold ImageUtils.getImageSrcSet.
  destruct (truthy path) eqn:Hp; [|eexists; reflexivity].
  simpl negb. cbv iota. cbv zeta.
  unfold ImageUtils.srcSetSizes, ImageUtils.mapOutcome.
  rewrite !(getOptimizedImageUrl_cases _ _ Hp). cbv zeta.
  destruct preset_values as (-> & -> & -> & -> & -> & ->).
  simpl. eexists. reflexivity.
Qed.

Ltac responsive_cases :=
  unfold ImageUtils.getResponsiveSize, ImageUtils.atMost;
  repeat match goal with
         | |- context [?a <=? ?b] => destruct (Z.leb_spec a b)
         end.

(** X6.  [getResponsiveSize] is monotone: a wider container never gets a
    narrower preset.  It answers one of the six [w] presets, never
    [original]; a width that is not a number gets the widest one. *)
Theorem getResponsiveSize_monotone (a b : Z) :
  a <= b ->
  exists wa wb,
    pixelWidth (ImageUtils.getResponsiveSize (Int a)) = Some wa
    /\ pixelWidth (ImageUtils.getResponsiveSize (Int b)) = Some wb
    /\ wa <= wb
    /\ In wa [92; 154; 342; 500; 780; 1280]
    /\ ImageUtils.getResponsiveSize NaN = ImageUtils.preset "xlarge".
Proof.
  intros Hab.
  responsive_cases; try lia;
    eexists; eexists;
    (split; [vm_compute; reflexivity|]);
    (split; [vm_compute; reflexivity|]);
    (split; [lia|]);
    (split; [simpl; tauto|reflexivity]).
Qed.

Lemma getResponsiveSize_monotone_witness :
  exists wa wb,
    pixelWidth (ImageUtils.getResponsiveSize (Int 250)) = Some wa
    /\ pixelWidth (ImageUtils.getResponsiveSize (Int 640)) = Some wb
    /\ wa <= wb
    /\ In wa [92; 154; 342; 500; 780; 1280]
    /\ ImageUtils.getResponsiveSize NaN = ImageUtils.preset "xlarge".
Proof. exact (getResponsiveSize_monotone 250 640 ltac:(lia)). Defined.

(** X7.  The preset that [getResponsiveSize] picks is at least as wide as
    the container only for widths up to 92 and in the upper part of each
    bracket; everywhere else (93..300, 343..400, 501..600, 781..900 and
    above 1280) the picture is narrower than its container. *)
Theorem getResponsiveSize_coverage (n : Z) :
  exists w,
    pixelWidth (ImageUtils.getResponsiveSize (Int n)) = Some w
    /\ (n <= w <->
        n <= 92 \/ 300 < n <= 342 \/ 400 < n <= 500 \/ 600 < n <= 780
        \/ 900 < n <= 1280).
Proof.
  responsive_cases; eexists; (split; [vm_compute; reflexivity|]); lia.
Qed.

Lemma trim_slash (q : string) : trim (String "/" q) <> "".
Proof.
  unfold trim.
  change (trimStart (String "/" q)) with (String "/" q).
  change (trimEnd (String "/" q)) with (String "/" (trimEnd q)).
  discriminate.
Qed.

(** X8.  The two [getBackdropImage] of the repository disagree.  For a path
    that starts with [/], the one of [src/App.js] answers
    [base ++ "w780" ++ path]; the one of [utils/imageUtils] answers
    [base ++ "ww780" ++ path ++ "?format=webp&quality=85"] ([ww1280] on a
    high-DPI screen).  For a missing path the first answers [null], the
    second the placeholder URL. *)
Theorem getBackdropImage_variants (env : Env) (q : string) (missing : Value) :
  getBackdropImage env (Str ("/" +:+ q))
  = Normal (Some (TMDB_IMAGE_BASE +:+ "w780/" +:+ q))
  /\ ImageUtils.getBackdropImage (Str ("/" +:+ q)) Undefined
     = Returns (TMDB_IMAGE_BASE +:+ "ww780/" +:+ q +:+ "?format=webp&quality=85")
  /\ ImageUtils.getBackdropImage (Str ("/" +:+ q)) (Bool true)
     = Returns (TMDB_IMAGE_BASE +:+ "ww1280/" +:+ q +:+ "?format=webp&quality=85")
  /\ (truthy missing = false ->
      getBackdropImage env missing = Normal None
      /\ ImageUtils.getBackdropImage missing Undefined
         = Returns ImageUtils.PLACEHOLDER_IMAGE).
Proof.
  change ("/" +:+ q) with (String "/" q).
  split; [|split; [|split]].
  - unfold getBackdropImage, getImageUrl. simpl.
    unfold mbind, completion_bind. simpl.
    destruct (String.eqb_spec (trim (String "/" q)) "") as [E|_];
      [exfalso; exact (trim_slash q E)|].
    rewrite (sizeString_own env "large" "w780" eq_refl).
    unfold startsWith. destruct q; reflexivity.
  - unfold ImageUtils.getBackdropImage.
    rewrite (getOptimizedImageUrl_cases (Str (String "/" q)) _ eq_refl). reflexivity.
  - unfold ImageUtils.getBackdropImage.
    rewrite (getOptimizedImageUrl_cases (Str (String "/" q)) _ eq_refl). reflexivity.
  - intros H. split.
    + unfold getBackdropImage. rewrite H. reflexivity.
    + unfold ImageUtils.getBackdropImage, ImageUtils.getOptimizedImageUrl.
      rewrite H. reflexivity.
Qed.

(** ** What [components/OptimizedImage.jsx] renders *)

Lemma imageSizes_values (key : string) (v : Value) :
  imageSizes !! key = Some v ->
  In v [Str "w92"; Str "w154"; Str "w342"; Str "w500"; Str "w780"; Str "w1280";
        Str "original"].
Proof.
  intros H.
  assert (Hin : (key, v) ∈ map_to_list imageSizes) by (by apply elem_of_map_to_list).
  vm_compute in Hin.
  repeat (apply elem_of_cons in Hin as [Hin | Hin];
          [ inversion Hin; subst; simpl; tauto | ]).
  by apply elem_of_nil in Hin.
Qed.

(** X9.  What [OptimizedImage.jsx] hands to the browser.  The component is
    given a size {e name} ([card] when the prop is absent) and passes it on
    as it is, so for each of the six names the size segment of both image
    URLs is [w] followed by the name ([wcard], [wthumbnail], ...), which is
    no entry of the size table; the render never throws. *)
Theorem optimizedImage_sources (p name : string) :
  p <> "" -> In name ["thumbnail"; "small"; "card"; "medium"; "large"; "xlarge"] ->
  exists sets fallbackSets,
    OptimizedImageView.sources (Str p) (Str name)
    = Returns
        {| OptimizedImageView.optimizedSrc :=
             TMDB_IMAGE_BASE +:+ "w" +:+ name +:+ p +:+ "?format=webp&quality=80";
           OptimizedImageView.fallbackSrc := TMDB_IMAGE_BASE +:+ "w" +:+ name +:+ p;
           OptimizedImageView.srcSet := sets;
           OptimizedImageView.fallbackSrcSet := fallbackSets |}
    /\ (forall key, imageSizes !! key <> Some (Str ("w" +:+ name)))
    /\ OptimizedImageView.sources (Str p) Undefined
       = OptimizedImageView.sources (Str p) (Str "card").
Proof.
  intros Hp Hname.
  assert (Ht : truthy (Str p) = true).
  { simpl. unfold truthyStr. destruct p; [congruence|reflexivity]. }
  assert (Hno : name <> "original").
  { intros ->. simpl in Hname. intuition discriminate. }
  unfold OptimizedImageView.sources.
  pose proof (getImageSrcSet_sets (Str p) (Str "webp")) as [s1 H1].
  pose proof (getImageSrcSet_sets (Str p) (Str "jpg")) as [s2 H2].
  exists s1, s2. split; [|split; [|reflexivity]].
  - cbv zeta. simpl ImageUtils.orDefault.
    rewrite !(getOptimizedImageUrl_cases _ _ Ht). cbv zeta.
    rewrite H1, H2. simpl.
    apply String.eqb_neq in Hno. rewrite Hno. simpl.
    rewrite append_nil_r. reflexivity.
  - intros key Hkey. apply imageSizes_values in Hkey.
    simpl in Hname, Hkey.
    intuition (subst; discriminate).
Qed.

Lemma optimizedImage_sources_witness :
  exists sets fallbackSets,
    OptimizedImageView.sources (Str "/p.jpg") (Str "card")
    = Returns
        {| OptimizedImageView.optimizedSrc :=
             "https://image.tmdb.org/t/p/wcard/p.jpg?format=webp&quality=80";
           OptimizedImageView.fallbackSrc := "https://image.tmdb.org/t/p/wcard/p.jpg";
           OptimizedImageView.srcSet := sets;
           OptimizedImageView.fallbackSrcSet := fallbackSets |}
    /\ (forall key, imageSizes !! key <> Some (Str "wcard"))
    /\ OptimizedImageView.sources (Str "/p.jpg") Undefined
       = OptimizedImageView.sources (Str "/p.jpg") (Str "card").
Proof.
  exact (optimizedImage_sources "/p.jpg" "card" ltac:(discriminate)
           ltac:(simpl; tauto)).
Defined.


(** ** Runtimes *)

Lemma showZ_inj (a b : Z) : showZ a = showZ b -> a = b.
Proof.
  unfold showZ. intros H. apply DecimalZ.to_int_inj.
  assert (Hv : forall z, NilZero.int_of_string (NilZero.string_of_int (Z.to_int z))
                         = Some (Z.to_int z)).
  { intros z. apply NilZero.isi; destruct z as [|p|p]; simpl; try discriminate;
      intros [= E]; exact (DecimalPos.Unsigned.to_uint_nonnil p E). }
  pose proof (Hv a) as Ha. rewrite H, Hv in Ha. congruence.
Qed.

(** Two texts that begin with a numeral and go on with a character that is
    no digit agree on the numeral, on that character and on the rest. *)
Lemma digits_split (a b x y : string) (c d : ascii) :
  allDigits a = true -> allDigits b = true -> isDigit c = false -> isDigit d = false ->
  a +:+ String c x = b +:+ String d y -> a = b /\ c = d /\ x = y.
Proof.
  revert b. induction a as [|e a IH]; intros [|f b] Ha Hb Hc Hd H.
  - injection H as -> ->. auto.
  - rewrite append_cons in H. injection H as -> _. simpl in Hb.
    rewrite Hc in Hb. discriminate.
  - rewrite append_cons in H. injection H as -> _. simpl in Ha.
    rewrite Hd in Ha. discriminate.
  - rewrite !append_cons in H. injection H as -> H. simpl in Ha, Hb.
    apply andb_true_iff in Ha as [_ Ha]. apply andb_true_iff in Hb as [_ Hb].
    destruct (IH b Ha Hb Hc Hd H) as (-> & -> & ->). auto.
Qed.

Lemma showZ_first (n : Z) :
  exists c rest, showZ n = String c rest /\ (isDigit c = true \/ c = "-"%char).
Proof.
  destruct n as [|p|p].
  - exists "0"%char, "". split; [reflexivity|left; reflexivity].
  - destruct (showZ_nonneg (Z.pos p) ltac:(lia)) as (d & Hd & Hs & _).
    pose proof (string_of_uint_digits d) as Hall. rewrite <- Hs in Hall.
    destruct (showZ (Z.pos p)) as [|c rest] eqn:E;
      [exfalso; exact (showZ_nonempty _ E)|].
    exists c, rest. split; [reflexivity|]. left. simpl in Hall.
    apply andb_true_iff in Hall as [H _]. exact H.
  - exists "-"%char. eexists. split; [|right; reflexivity].
    unfold showZ. simpl. reflexivity.
Qed.

Lemma formatRuntime_number (n : Z) :
  n <> 0 -> Z.abs n <= exactBound ->
  HardenedParts.formatRuntime (Number n)
  = Some (if 0 <? n / 60
          then showZ (n / 60) +:+ "h " +:+ showZ (Z.rem n 60) +:+ "m"
          else showZ (Z.rem n 60) +:+ "m")
  /\ AppJsParts.formatRuntime (Number n) = HardenedParts.formatRuntime (Number n).
Proof.
  intros Hn Hb.
  unfold AppJsParts.formatRuntime, HardenedParts.formatRuntime, floorDiv, remainder,
    withinBound.
  simpl. destruct (Z.eqb_spec n 0); [ contradiction | ]. simpl.
  destruct (Z.leb_spec (Z.abs n) exactBound); [ | lia ].
  split; reflexivity.
Qed.

Lemma isDigit_h : isDigit "h" = false. Proof. reflexivity. Qed.
Lemma isDigit_m : isDigit "m" = false. Proof. reflexivity. Qed.

(** X10.  For a runtime of 1 to [exactBound] minutes the two
    [formatRuntime] agree: the text is [<n>m] below an hour and
    [<hours>h <minutes>m] from an hour on.  The text determines the
    minutes: two different runtimes are never shown alike. *)
Theorem formatRuntime_determines_minutes (n m : Z) :
  0 < n <= exactBound -> 0 < m <= exactBound ->
  AppJsParts.formatRuntime (Number n) = HardenedParts.formatRuntime (Number n)
  /\ HardenedParts.formatRuntime (Number n)
     = Some (if n <? 60 then showZ n +:+ "m"
             else showZ (n / 60) +:+ "h " +:+ showZ (n mod 60) +:+ "m")
  /\ (HardenedParts.formatRuntime (Number n) = HardenedParts.formatRuntime (Number m)
      -> n = m).
Proof.
  intros Hn Hm.
  destruct (formatRuntime_number n ltac:(lia) ltac:(lia)) as [Fn Fa].
  destruct (formatRuntime_number m ltac:(lia) ltac:(lia)) as [Fm _].
  pose proof (Z.rem_bound_pos n 60 ltac:(lia) ltac:(lia)) as Hrn.
  pose proof (Z.rem_bound_pos m 60 ltac:(lia) ltac:(lia)) as Hrm.
  pose proof (Z.rem_mod_nonneg n 60 ltac:(lia) ltac:(lia)) as En.
  pose proof (Z.rem_mod_nonneg m 60 ltac:(lia) ltac:(lia)) as Em.
  pose proof (Z.div_mod n 60 ltac:(lia)) as Dn.
  pose proof (Z.div_mod m 60 ltac:(lia)) as Dm.
  pose proof (Z.div_pos n 60 ltac:(lia) ltac:(lia)) as Qn.
  pose proof (Z.div_pos m 60 ltac:(lia) ltac:(lia)) as Qm.
  split; [ exact Fa | split ].
  { rewrite Fn. f_equal. rewrite En.
    destruct (Z.ltb_spec n 60) as [Hlt | Hge].
    - rewrite (Z.div_small n 60) by lia. rewrite (Z.mod_small n 60) by lia. reflexivity.
    - destruct (Z.ltb_spec 0 (n / 60)) as [_ | Hq]; [ reflexivity | ].
      assert (n / 60 = 0) by lia. lia. }
  rewrite Fn, Fm. intros H. injection H as H. revert H.
  destruct (Z.ltb_spec 0 (n / 60)) as [Hhn|Hhn];
    destruct (Z.ltb_spec 0 (m / 60)) as [Hhm|Hhm]; intros H.
  - change (showZ (n / 60) +:+ String "h" (" " +:+ showZ (Z.rem n 60) +:+ "m")
            = showZ (m / 60) +:+ String "h" (" " +:+ showZ (Z.rem m 60) +:+ "m")) in H.
    apply digits_split in H as (Hh & _ & Hrest);
      try (apply showZ_allDigits; lia); try reflexivity.
    apply showZ_inj in Hh.
    change (String " " (showZ (Z.rem n 60) +:+ String "m" "")
            = String " " (showZ (Z.rem m 60) +:+ String "m" "")) in Hrest.
    injection Hrest as Hrest.
    apply digits_split in Hrest as (Hr & _ & _);
      try (apply showZ_allDigits; lia); try reflexivity.
    apply showZ_inj in Hr. lia.
  - exfalso.
    change (showZ (n / 60) +:+ String "h" (" " +:+ showZ (Z.rem n 60) +:+ "m")
            = showZ (Z.rem m 60) +:+ String "m" "") in H.
    apply digits_split in H as (_ & Hc & _);
      try (apply showZ_allDigits; lia); try reflexivity.
    discriminate.
  - exfalso.
    change (showZ (Z.rem n 60) +:+ String "m" ""
            = showZ (m / 60) +:+ String "h" (" " +:+ showZ (Z.rem m 60) +:+ "m")) in H.
    apply digits_split in H as (_ & Hc & _);
      try (apply showZ_allDigits; lia); try reflexivity.
    discriminate.
  - change (showZ (Z.rem n 60) +:+ String "m" "" = showZ (Z.rem m 60) +:+ String "m" "") in H.
    apply digits_split in H as (Hr & _ & _);
      try (apply showZ_allDigits; lia); try reflexivity.
    apply showZ_inj in Hr. lia.
Qed.

Lemma formatRuntime_determines_minutes_witness :
  AppJsParts.formatRuntime (Number 135) = Some "2h 15m"
  /\ HardenedParts.formatRuntime (Number 135) = Some "2h 15m"
  /\ HardenedParts.formatRuntime (Number 135) <> HardenedParts.formatRuntime (Number 75).
Proof.
  destruct (formatRuntime_determines_minutes 135 75) as (Hsame & Htext & Hinj);
    [ unfold exactBound; lia | unfold exactBound; lia | ].
  split; [ rewrite Hsame; exact Htext | split; [ exact Htext | ] ].
  intros H. specialize (Hinj H). discriminate.
Defined.

(** X11.  Under the hero title [src/App.js] calls
    [formatRuntime(featured.runtime || "N/A")], so a featured item with no
    runtime is shown with [NaNm] and the text [N/A] can never appear there;
    the hardened component passes the member itself and shows [N/A]. *)
Theorem hero_runtime_without_runtime (runtime : Value) :
  (truthy runtime = false -> AppJsParts.heroRuntime runtime = Some "NaNm")
  /\ AppJsParts.heroRuntime runtime <> Some "N/A"
  /\ (truthy runtime = false -> HardenedParts.formatRuntime runtime = Some "N/A").
Proof.
  split; [|split].
  - intros H. unfold AppJsParts.heroRuntime. rewrite H. reflexivity.
  - unfold AppJsParts.heroRuntime.
    destruct (truthy runtime) eqn:Ht; [|discriminate].
    unfold AppJsParts.formatRuntime. rewrite Ht. simpl negb. cbv iota.
    destruct (toNumber runtime) as [[|z]|]; simpl; try discriminate.
    unfold floorDiv, remainder. destruct (withinBound z); simpl; [ | discriminate ].
    destruct (showZ_first (Z.rem z 60)) as (c & rest & E & Hc).
    destruct (0 <? z / 60).
    + destruct (showZ_first (z / 60)) as (c' & rest' & E' & Hc').
      rewrite E'. rewrite append_cons. intros [= -> _].
      destruct Hc' as [Hc'|Hc']; discriminate.
    + rewrite E. rewrite append_cons. intros [= -> _].
      destruct Hc as [Hc|Hc]; discriminate.
  - intros H. unfold HardenedParts.formatRuntime. rewrite H. reflexivity.
Qed.

(** ** Descriptions on a card *)

Lemma substring_all (n : nat) (s : string) :
  (String.length s <= n)%nat -> substring 0 n s = s.
Proof.
  revert n. induction s as [|c s IH]; intros [|n] H; simpl in *; try reflexivity; try lia.
  rewrite IH by lia. reflexivity.
Qed.

Lemma length_substring (n : nat) (s : string) :
  String.length (substring 0 n s) = Nat.min n (String.length s).
Proof.
  revert n. induction s as [|c s IH]; intros [|n]; simpl; try reflexivity.
  rewrite IH. reflexivity.
Qed.

Lemma prefix_substring (n : nat) (s : string) : String.prefix (substring 0 n s) s = true.
Proof.
  revert n. induction s as [|c s IH]; intros [|n]; simpl; try reflexivity.
  rewrite IH. destruct (ascii_dec c c); [reflexivity|congruence].
Qed.

Lemma truthyText_some (text : string) : text <> "" -> truthyText (Some text) = true.
Proof. intros H. simpl. unfold truthyStr. destruct text; [congruence|reflexivity]. Qed.

(** X12.  A description of at most 80 characters has no "Read More" button.
    The hardened card shows it as it is; the card of [src/App.js] appends
    [...] all the same, an ellipsis that cannot be expanded. *)
Theorem short_description_ellipsis (text : string) :
  text <> "" -> (String.length text <= 80)%nat ->
  AppJsParts.readMoreButton (Some text) = false
  /\ AppJsParts.truncatedDescription (Some text) false = text +:+ "..."
  /\ HardenedParts.readMoreButton (Some text) = false
  /\ HardenedParts.truncatedDescription (Some text) false = text.
Proof.
  intros Hne Hlen.
  unfold AppJsParts.readMoreButton, AppJsParts.truncatedDescription,
    HardenedParts.readMoreButton, HardenedParts.truncatedDescription.
  rewrite (truthyText_some text Hne). simpl default. cbv zeta.
  rewrite (substring_all 80 text Hlen).
  destruct (Nat.ltb_spec 80 (String.length text)); [lia|].
  rewrite append_nil_r. auto.
Qed.

Lemma short_description_ellipsis_witness :
  AppJsParts.readMoreButton (Some "A heist.") = false
  /\ AppJsParts.truncatedDescription (Some "A heist.") false = "A heist...."
  /\ HardenedParts.readMoreButton (Some "A heist.") = false
  /\ HardenedParts.truncatedDescription (Some "A heist.") false = "A heist.".
Proof.
  exact (short_description_ellipsis "A heist." ltac:(discriminate) ltac:(simpl; lia)).
Defined.

(** X13.  A longer description is cut to its first 80 characters followed
    by [...], 83 characters in all, in both components; "Read More" is
    offered and shows the whole text.  For a description of 81 or 82
    characters the collapsed text is therefore the longer one. *)
Theorem long_description_cut (text : string) :
  (80 < String.length text)%nat ->
  AppJsParts.truncatedDescription (Some text) false = substring 0 80 text +:+ "..."
  /\ HardenedParts.truncatedDescription (Some text) false = substring 0 80 text +:+ "..."
  /\ String.length (substring 0 80 text +:+ "...") = 83%nat
  /\ String.prefix (substring 0 80 text) text = true
  /\ AppJsParts.readMoreButton (Some text) = true
  /\ HardenedParts.readMoreButton (Some text) = true
  /\ AppJsParts.truncatedDescription (Some text) true = text
  /\ HardenedParts.truncatedDescription (Some text) true = text.
Proof.
  intros Hlen.
  assert (Hne : text <> "") by (intros ->; simpl in Hlen; lia).
  unfold AppJsParts.readMoreButton, AppJsParts.truncatedDescription,
    HardenedParts.readMoreButton, HardenedParts.truncatedDescription.
  rewrite (truthyText_some text Hne). simpl default. cbv zeta.
  destruct (Nat.ltb_spec 80 (String.length text)); [|lia].
  rewrite length_append, length_substring, prefix_substring.
  change (String.length "...") with 3%nat.
  repeat split; lia.
Qed.

Lemma long_description_cut_witness :
  let text :=
    "0123456789012345678901234567890123456789012345678901234567890123456789012345678901" in
  AppJsParts.truncatedDescription (Some text) false = substring 0 80 text +:+ "..."
  /\ HardenedParts.truncatedDescription (Some text) false = substring 0 80 text +:+ "..."
  /\ String.length (substring 0 80 text +:+ "...") = 83%nat
  /\ String.prefix (substring 0 80 text) text = true
  /\ AppJsParts.readMoreButton (Some text) = true
  /\ HardenedParts.readMoreButton (Some text) = true
  /\ AppJsParts.truncatedDescription (Some text) true = text
  /\ HardenedParts.truncatedDescription (Some text) true = text.
Proof.
  exact (long_description_cut
           "0123456789012345678901234567890123456789012345678901234567890123456789012345678901"
           ltac:(simpl; lia)).
Defined.

(** ** The details flag of [src/App.js] *)

Ltac details_crunch :=
  repeat (simpl;
          match goal with
          | |- context [match ?x with _ => _ end] => destruct x eqn:?
          | |- context [if ?x then _ else _] => destruct x eqn:?
          end);
  simpl; try reflexivity.

Lemma appjs_fetchFirstPage_details (env : Env) (w : World) :
  showTVDetails (st (AppJs.fetchFirstPage env w)) = showTVDetails (st w).
Proof. unfold AppJs.fetchFirstPage, AppJs.fetchTrending, AppJs.fetchByCategory. details_crunch. Qed.

Lemma appjs_handleLoadMore_details (env : Env) (w : World) :
  showTVDetails (st (AppJs.handleLoadMore env w)) = showTVDetails (st w).
Proof. unfold AppJs.handleLoadMore, AppJs.fetchTrending, AppJs.fetchByCategory. details_crunch. Qed.

Lemma appjs_clearTypingTimeout_details (w : World) :
  showTVDetails (st (AppJs.clearTypingTimeout w)) = showTVDetails (st w).
Proof. unfold AppJs.clearTypingTimeout. details_crunch. Qed.

Lemma appjs_performSearch_details (env : Env) (query : string) (w : World) :
  showTVDetails (st (AppJs.performSearch env query w)) = showTVDetails (st w).
Proof.
  unfold AppJs.performSearch. destruct (negb (truthyStr (trim query))); [|reflexivity].
  rewrite appjs_fetchFirstPage_details. reflexivity.
Qed.

Lemma appjs_handleSearchChange_details (env : Env) (value : string) (w : World) :
  showTVDetails (st (AppJs.handleSearchChange env value w)) = showTVDetails (st w).
Proof.
  unfold AppJs.handleSearchChange.
  destruct (negb (truthyStr (trim value))).
  - rewrite appjs_fetchFirstPage_details. simpl.
    exact (appjs_clearTypingTimeout_details (withState (setSearch value) w)).
  - destruct (2 <=? String.length (trim value))%nat; simpl;
      exact (appjs_clearTypingTimeout_details (withState (setSearch value) w)).
Qed.

Lemma appjs_pageFetched_details (pageNum : Z) (outcome : FetchOutcome) (s : AppState) :
  showTVDetails (AppJs.pageFetched pageNum outcome s) = showTVDetails s.
Proof.
  unfold AppJs.pageFetched, tryCatchFinally, AppJs.pageFetched_try.
  destruct outcome as [message|status body]; [reflexivity|].
  destruct (negb (res_ok status)); [reflexivity|].
  destruct body as [message| |results total_pages total_results];
    destruct (pageNum =? 1); reflexivity.
Qed.

Lemma appjs_suggestionsFetched_details (outcome : FetchOutcome) (s : AppState) :
  showTVDetails (AppJs.suggestionsFetched outcome s) = showTVDetails s.
Proof. unfold AppJs.suggestionsFetched. details_crunch. Qed.

Lemma appjs_searchFetched_details (outcome : FetchOutcome) (s : AppState) :
  showTVDetails (AppJs.searchFetched outcome s) = showTVDetails s.
Proof.
  unfold AppJs.searchFetched, tryCatchFinally, AppJs.searchFetched_try.
  destruct outcome as [message|status body]; [reflexivity|].
  destruct (negb (res_ok status)); [reflexivity|].
  destruct body as [message| |results total_pages total_results]; reflexivity.
Qed.

Lemma appjs_handle_details (env : Env) (ev : Event) (w : World) :
  showTVDetails (st (AppJs.handle env ev w)) = showTVDetails (st w).
Proof.
  destruct ev as [value| |id|rid outcome| |id isIntersecting]; simpl.
  - apply appjs_handleSearchChange_details.
  - unfold AppJs.handleEnter. destruct (truthyStr (trim (search (st w)))); [|reflexivity].
    apply appjs_performSearch_details.
  - destruct (filter (fun t => timer_id t = id) (timers w)) as [|t ?]; [reflexivity|].
    unfold AppJs.fire. destruct (timer_action t).
    + unfold AppJs.fetchSearchSuggestions. details_crunch.
    + rewrite appjs_performSearch_details. reflexivity.
  - destruct (findRequest rid (inflight w)) as [[endpoint pageNum reset|query|query]|]; simpl.
    + apply appjs_pageFetched_details.
    + apply appjs_suggestionsFetched_details.
    + apply appjs_searchFetched_details.
    + reflexivity.
  - destruct (AppJs.loadMoreButton (st w)); [|reflexivity].
    apply appjs_handleLoadMore_details.
  - destruct (observerRef w) as [o|]; [|reflexivity].
    destruct ((observer_id o =? id)%nat && observing o); [|reflexivity].
    unfold AppJs.onIntersection. destruct isIntersecting; [|reflexivity].
    rewrite appjs_handleLoadMore_details. reflexivity.
Qed.

Lemma appjs_commitOnce_details (env : Env) (prev : AppState) (w : World) :
  showTVDetails (st (AppJs.commitOnce env prev w)) = showTVDetails (st w).
Proof.
  unfold AppJs.commitOnce. cbv zeta.
  destruct (AppJs.gridRendered (st w));
    unfold AppJs.loadEffect, AppJs.loadEffect_cleanup,
      AppJs.scrollEffect, AppJs.scrollEffect_cleanup, AppJs.clearTypingTimeout,
      AppJs.fetchTrending, AppJs.fetchByCategory, disconnectObserver, targetRemoved;
    details_crunch.
Qed.

Lemma appjs_commit_details (env : Env) (prev : AppState) (w : World) :
  showTVDetails (st (AppJs.commit env prev w)) = showTVDetails (st w).
Proof. unfold AppJs.commit. rewrite !appjs_commitOnce_details. reflexivity. Qed.
Lemma appjs_handleClearSearch_details (env : Env) (w : World) :
  showTVDetails (st (AppJsParts.handleClearSearch env w)) = showTVDetails (st w).
Proof.
  unfold AppJsParts.handleClearSearch. cbv zeta.
  rewrite appjs_fetchFirstPage_details, appjs_clearTypingTimeout_details. reflexivity.
Qed.

(** Once the flag is up, only the logo takes it down. *)
Lemma appjs_click_details (env : Env) (c : AppJsParts.Click) (p : AppJsParts.Page) :
  c <> AppJsParts.LogoClick ->
  showTVDetails (st (AppJsParts.world p)) = true ->
  showTVDetails (st (AppJsParts.world (AppJsParts.click env c p))) = true.
Proof.
  intros Hc Hp. destruct c as [| | |cat|index| | | | |index]; simpl.
  - congruence.
  - exact Hp.
  - exact Hp.
  - destruct (AppJsParts.categoryBar (st (AppJsParts.world p))
              && existsb (String.eqb cat)
                   (currentCategoryKeys (st (AppJsParts.world p)))); exact Hp.
  - destruct (AppJs.gridRendered (st (AppJsParts.world p))); [|exact Hp].
    destruct (AppJs.displayMovies (st (AppJsParts.world p)) !! index) as [item|];
      [|exact Hp].
    unfold AppJsParts.startWatching.
    destruct (negb (truthyNum (item_id item))); [exact Hp|].
    destruct (showTVSeriesPage (st (AppJsParts.world p))); [reflexivity|exact Hp].
  - destruct (AppJsParts.heroRendered (st (AppJsParts.world p))); [|exact Hp].
    unfold AppJsParts.startWatching.
    destruct (featured (st (AppJsParts.world p))) as [item|]; [|exact Hp].
    destruct (negb (truthyNum (item_id item))); [exact Hp|].
    destruct (showTVSeriesPage (st (AppJsParts.world p))); [reflexivity|exact Hp].
  - destruct (isNone (watchUrl (st (AppJsParts.world p)))); [exact Hp|].
    unfold AppJsParts.handleBack. cbv zeta.
    destruct (showTVSeriesPage (st (AppJsParts.world p))
              && negb (isNone (AppJsParts.selectedTVShow p))); [reflexivity|exact Hp].
  - destruct (truthyStr (search (st (AppJsParts.world p)))); [|exact Hp].
    simpl. rewrite appjs_handleClearSearch_details. exact Hp.
  - rewrite appjs_handleClearSearch_details. exact Hp.
  - destruct (AppJs.suggestionsShown (st (AppJsParts.world p))); [|exact Hp].
    destruct (suggestions (st (AppJsParts.world p)) !! index) as [item|]; [|exact Hp].
    simpl. unfold AppJsParts.handleSuggestionClick.
    destruct (titleOrName item) as [text|]; [|exact Hp].
    rewrite appjs_performSearch_details. exact Hp.
Qed.

Lemma appjs_act_details (env : Env) (a : AppJsParts.Action) (p : AppJsParts.Page) :
  a <> AppJsParts.User AppJsParts.LogoClick ->
  showTVDetails (st (AppJsParts.world p)) = true ->
  showTVDetails (st (AppJsParts.world (AppJsParts.act env p a))) = true.
Proof.
  intros Ha Hp. unfold AppJsParts.act.
  destruct (boundaryHasError (st (AppJsParts.world p))); [exact Hp|].
  destruct a as [ev|c]; simpl.
  - rewrite appjs_commit_details, appjs_handle_details. exact Hp.
  - rewrite appjs_commit_details. apply appjs_click_details; [congruence|exact Hp].
Qed.

Lemma appjs_acts_details (env : Env) (l : list AppJsParts.Action) (p : AppJsParts.Page) :
  Forall (fun a => a <> AppJsParts.User AppJsParts.LogoClick) l ->
  showTVDetails (st (AppJsParts.world p)) = true ->
  showTVDetails (st (AppJsParts.world (AppJsParts.acts env l p))) = true.
Proof.
  intros Hl. revert p. induction Hl as [|a l Ha Hl IH]; intros p Hp; [exact Hp|].
  simpl. apply IH. apply appjs_act_details; assumption.
Qed.

Lemma appjs_details_hide (s : AppState) :
  showTVDetails s = true ->
  AppJs.gridRendered s = false /\ AppJsParts.heroRendered s = false
  /\ AppJsParts.categoryBar s = false.
Proof.
  intros H. unfold AppJs.gridRendered, AppJsParts.heroRendered, AppJsParts.categoryBar.
  rewrite H. simpl. rewrite !andb_false_r. auto.
Qed.

(** X14.  [src/App.js] has no details view.  In TV mode a click on a card
    with an identifier raises [showTVDetails], which takes the grid, the
    hero and the category bar off the screen; whatever the user and the
    browser do next, they stay off until the logo is clicked. *)
Theorem appjs_tv_card_blanks_the_page
    (env : Env) (p : AppJsParts.Page) (index : nat) (item : MediaItem)
    (l : list AppJsParts.Action) :
  boundaryHasError (st (AppJsParts.world p)) = false ->
  showTVSeriesPage (st (AppJsParts.world p)) = true ->
  AppJs.gridRendered (st (AppJsParts.world p)) = true ->
  AppJs.displayMovies (st (AppJsParts.world p)) !! index = Some item ->
  truthyNum (item_id item) = true ->
  Forall (fun a => a <> AppJsParts.User AppJsParts.LogoClick) l ->
  let after :=
    AppJsParts.acts env (AppJsParts.User (AppJsParts.CardClick index) :: l) p in
  let s := st (AppJsParts.world after) in
  showTVDetails s = true
  /\ AppJs.gridRendered s = false /\ AppJsParts.heroRendered s = false
  /\ AppJsParts.categoryBar s = false
  /\ (boundaryHasError s = false ->
      showTVDetails
        (st (AppJsParts.world
               (AppJsParts.act env after (AppJsParts.User AppJsParts.LogoClick))))
      = false).
Proof.
  intros Hb Htv Hgrid Hitem Hid Hl after s.
  assert (Hs : showTVDetails s = true).
  { subst s after. simpl. apply appjs_acts_details; [exact Hl|].
    unfold AppJsParts.act. rewrite Hb. simpl.
    rewrite appjs_commit_details. rewrite Hgrid, Hitem.
    unfold AppJsParts.startWatching. rewrite Hid, Htv. reflexivity. }
  split; [exact Hs|].
  destruct (appjs_details_hide s Hs) as (H1 & H2 & H3).
  repeat (split; [assumption|]).
  intros Hbs. unfold AppJsParts.act. fold s. rewrite Hbs. simpl.
  rewrite appjs_commit_details. reflexivity.
Qed.

Lemma appjs_tv_card_blanks_the_page_witness :
  let after :=
    AppJsParts.acts browserEnv
      [AppJsParts.User (AppJsParts.CardClick 0); AppJsParts.User AppJsParts.MoviesClick;
       AppJsParts.Browser (Responds 3 firstPage)]
      appjsTVLoaded in
  let s := st (AppJsParts.world after) in
  showTVDetails s = true
  /\ AppJs.gridRendered s = false /\ AppJsParts.heroRendered s = false
  /\ AppJsParts.categoryBar s = false
  /\ (boundaryHasError s = false ->
      showTVDetails
        (st (AppJsParts.world
               (AppJsParts.act browserEnv after (AppJsParts.User AppJsParts.LogoClick))))
      = false).
Proof.
  apply (appjs_tv_card_blanks_the_page browserEnv appjsTVLoaded 0%nat itemA
           [AppJsParts.User AppJsParts.MoviesClick;
            AppJsParts.Browser (Responds 3 firstPage)]);
    try (vm_compute; reflexivity).
  repeat constructor; discriminate.
Defined.
(** ** Watching a movie *)

Lemma appjs_sameScrollDeps_refl (s : AppState) : AppJs.sameScrollDeps s s = true.
Proof.
  unfold AppJs.sameScrollDeps.
  rewrite !Bool.eqb_reflx, !String.eqb_refl, Z.eqb_refl. reflexivity.
Qed.

Lemma appjs_sameLoadDeps_refl (s : AppState) : AppJs.sameLoadDeps s s = true.
Proof.
  unfold AppJs.sameLoadDeps. rewrite !Bool.eqb_reflx, !String.eqb_refl. reflexivity.
Qed.

(** A commit whose render changed no dependency of an effect runs no
    effect: all it does is to apply the render to the document. *)
Lemma appjs_commitOnce_same (env : Env) (prev : AppState) (w : World) :
  appjsDeps prev = appjsDeps (st w) ->
  AppJs.commitOnce env prev w
  = if AppJs.gridRendered (st w) then w else targetRemoved w.
Proof.
  unfold appjsDeps. intros [= H1 H2 H3 H4 H5 H6].
  unfold AppJs.commitOnce, AppJs.sameScrollDeps, AppJs.sameLoadDeps. cbv zeta.
  rewrite H1, H2, H3, H4, H5, H6.
  rewrite !Bool.eqb_reflx, !String.eqb_refl, Z.eqb_refl. reflexivity.
Qed.

Lemma targetRemoved_twice (w : World) : targetRemoved (targetRemoved w) = targetRemoved w.
Proof. unfold targetRemoved. destruct (observerRef w) as [o | ] eqn:Ho; simpl; [ reflexivity | by rewrite Ho ]. Qed.

Lemma targetRemoved_withState (f : AppState -> AppState) (w : World) :
  targetRemoved (withState f w) = withState f (targetRemoved w).
Proof. unfold targetRemoved. simpl. by destruct (observerRef w). Qed.

Lemma withState_twice (f g : AppState -> AppState) (w : World) :
  withState f (withState g w) = withState (fun s => f (g s)) w.
Proof. reflexivity. Qed.

Lemma withState_same (f : AppState -> AppState) (w : World) :
  f (st w) = st w -> withState f w = w.
Proof. destruct w. unfold withState. simpl. by intros ->. Qed.

Lemma rendered_frame (b : bool) (w : World) :
  st (if b then w else targetRemoved w) = st w
  /\ sent (if b then w else targetRemoved w) = sent w.
Proof. destruct b; [ done | ]. split; apply targetRemoved_frame. Qed.

Lemma appjs_commitOnce_same_sent (env : Env) (prev : AppState) (w : World) :
  appjsDeps prev = appjsDeps (st w) ->
  sent (AppJs.commitOnce env prev w) = sent w /\ st (AppJs.commitOnce env prev w) = st w.
Proof.
  intros Hd. rewrite (appjs_commitOnce_same env prev w Hd).
  destruct (rendered_frame (AppJs.gridRendered (st w)) w). auto.
Qed.

Lemma appjs_commit_same (env : Env) (prev : AppState) (w : World) :
  appjsDeps prev = appjsDeps (st w) ->
  AppJs.commit env prev w
  = if AppJs.gridRendered (st w) then w else targetRemoved w.
Proof.
  intros Hd. unfold AppJs.commit. rewrite (appjs_commitOnce_same env prev w Hd).
  destruct (AppJs.gridRendered (st w)) eqn:Hgrid.
  - rewrite appjs_commitOnce_same by reflexivity. by rewrite Hgrid.
  - assert (Hst : st (targetRemoved w) = st w) by apply targetRemoved_frame.
    rewrite appjs_commitOnce_same by (by rewrite Hst).
    rewrite Hst, Hgrid. apply targetRemoved_twice.
Qed.

Lemma setWatchUrl_back (w : World) (v : option string) :
  watchUrl (st w) = None ->
  withState (setWatchUrl None) (withState (setWatchUrl v) w) = w.
Proof.
  destruct w as [s ? ? ? ? ? ? ? ? ? ?]. destruct s. simpl. intros ->. reflexivity.
Qed.

Lemma appjs_clearTypingTimeout_sent (w : World) :
  sent (AppJs.clearTypingTimeout w) = sent w /\ st (AppJs.clearTypingTimeout w) = st w.
Proof. unfold AppJs.clearTypingTimeout. destruct (typingTimeoutRef w); auto. Qed.

Lemma appjs_scroll_sent (s : AppState) (w : World) :
  sent (AppJs.scrollEffect s w) = sent w /\ st (AppJs.scrollEffect s w) = st w
  /\ sent (AppJs.scrollEffect_cleanup w) = sent w
  /\ st (AppJs.scrollEffect_cleanup w) = st w.
Proof.
  unfold AppJs.scrollEffect, AppJs.scrollEffect_cleanup, disconnectObserver.
  destruct (loading s || negb (hasMore s) || truthyStr (trim (search s)));
    destruct (scrollCleanup w); destruct (observerRef w); simpl; auto.
Qed.

(** What a commit does to the requests and to the hooks when the load
    effect does not run. *)
Lemma appjs_commitOnce_no_load (env : Env) (prev : AppState) (w : World) :
  AppJs.sameLoadDeps prev (st w) = true ->
  sent (AppJs.commitOnce env prev w) = sent w /\ st (AppJs.commitOnce env prev w) = st w.
Proof.
  intros H. unfold AppJs.commitOnce. cbv zeta. rewrite H. simpl.
  destruct (rendered_frame (AppJs.gridRendered (st w)) w) as [Hst0 Hsent0].
  set (w0 := if AppJs.gridRendered (st w) then w else targetRemoved w) in *.
  clearbody w0.
  destruct (negb (AppJs.sameScrollDeps prev (st w))); [ | auto ].
  destruct (appjs_scroll_sent (st w) (AppJs.scrollEffect_cleanup w0)) as (E1 & E2 & _ & _).
  destruct (appjs_scroll_sent (st w) w0) as (_ & _ & E3 & E4).
  rewrite E1, E2, E3, E4. auto.
Qed.

Lemma appjs_commit_no_load (env : Env) (prev : AppState) (w : World) :
  AppJs.sameLoadDeps prev (st w) = true ->
  sent (AppJs.commit env prev w) = sent w /\ st (AppJs.commit env prev w) = st w.
Proof.
  intros H. unfold AppJs.commit.
  destruct (appjs_commitOnce_no_load env prev w H) as [H1 H2].
  destruct (appjs_commitOnce_no_load env (st w) (AppJs.commitOnce env prev w)) as [H3 H4].
  { rewrite H2. apply appjs_sameLoadDeps_refl. }
  rewrite H3, H4. auto.
Qed.

(** X15.  In movie mode a click on a card with an identifier opens the
    player on [https://vidsrc.to/embed/movie/<id>]; the URL determines the
    identifier.  The "Back" button brings back every hook, timer and
    request as they were.  What it does not bring back is the scroll
    watch: the player took the grid out of the document, neither click
    changed a dependency of the scroll effect, and so the observer is left
    with a cell that was removed.  Where a notification called
    [handleLoadMore] before the click, none does after "Back". *)
Theorem appjs_watch_and_back
    (env : Env) (p : AppJsParts.Page) (index : nat) (item : MediaItem) (id : Z) :
  boundaryHasError (st (AppJsParts.world p)) = false ->
  showTVSeriesPage (st (AppJsParts.world p)) = false ->
  AppJs.gridRendered (st (AppJsParts.world p)) = true ->
  AppJs.displayMovies (st (AppJsParts.world p)) !! index = Some item ->
  item_id item = Some id -> id <> 0 ->
  let watching := AppJsParts.act env p (AppJsParts.User (AppJsParts.CardClick index)) in
  let back := AppJsParts.act env watching (AppJsParts.User AppJsParts.BackClick) in
  watchUrl (st (AppJsParts.world watching))
  = Some ("https://vidsrc.to/embed/movie/" +:+ showZ id)
  /\ AppJs.gridRendered (st (AppJsParts.world watching)) = false
  /\ (forall id', "https://vidsrc.to/embed/movie/" +:+ showZ id'
                  = "https://vidsrc.to/embed/movie/" +:+ showZ id -> id' = id)
  /\ back = AppJsParts.onWorld targetRemoved p
  /\ st (AppJsParts.world back) = st (AppJsParts.world p)
  /\ (forall o, observerRef (AppJsParts.world p) = Some o -> observing o = true ->
      (exists endpoint,
         sent (AppJsParts.world
                 (AppJsParts.act env p
                    (AppJsParts.Browser (Intersection (observer_id o) true))))
         = (sent (AppJsParts.world p)
            ++ [PageRequest endpoint (page (st (AppJsParts.world p)) + 1) true])%list)
      /\ observerRef (AppJsParts.world back)
         = Some {| observer_id := observer_id o; observing := false |}
      /\ forall observer isIntersecting,
           AppJsParts.act env back (AppJsParts.Browser (Intersection observer isIntersecting))
           = back).
Proof.
  intros Hb Hmovie Hgrid Hitem Hid Hnz watching back.
  set (url := "https://vidsrc.to/embed/movie/" +:+ showZ id).
  assert (Hnone : watchUrl (st (AppJsParts.world p)) = None).
  { unfold AppJs.gridRendered in Hgrid.
    destruct (watchUrl (st (AppJsParts.world p))); [ discriminate | reflexivity ]. }
  assert (Hw : watching
               = AppJsParts.onWorld
                   (fun w => targetRemoved (withState (setWatchUrl (Some url)) w)) p).
  { subst watching. unfold AppJsParts.act. rewrite Hb. simpl.
    rewrite Hgrid, Hitem. unfold AppJsParts.startWatching.
    rewrite Hid. simpl. destruct (Z.eqb_spec id 0); [ contradiction | ]. simpl.
    rewrite Hmovie. unfold AppJsParts.onWorld. simpl.
    rewrite appjs_commit_same by reflexivity. reflexivity. }
  assert (Hback : back = AppJsParts.onWorld targetRemoved p).
  { subst back. rewrite Hw. unfold AppJsParts.act. simpl.
    destruct (targetRemoved_frame (withState (setWatchUrl (Some url)) (AppJsParts.world p)))
      as (Hst & _).
    destruct (targetRemoved_frame (AppJsParts.world p)) as (Hst0 & _).
    rewrite Hst. simpl. rewrite Hb. simpl.
    unfold AppJsParts.handleBack. simpl. rewrite Hst. simpl. rewrite Hmovie. simpl.
    unfold AppJsParts.onWorld. simpl.
    rewrite appjs_commit_same by (simpl; rewrite Hst; reflexivity).
    simpl. rewrite Hst. simpl.
    assert (Hs : setWatchUrl None (setWatchUrl (Some url) (st (AppJsParts.world p)))
                 = st (AppJsParts.world p)).
    { destruct (st (AppJsParts.world p)). simpl in *. by rewrite Hnone. }
    rewrite Hs, Hgrid.
    f_equal. rewrite targetRemoved_withState, withState_twice.
    apply withState_same. rewrite Hst0. exact Hs. }
  assert (Hstw : st (AppJsParts.world watching)
                 = setWatchUrl (Some url) (st (AppJsParts.world p))).
  { rewrite Hw. simpl.
    apply (targetRemoved_frame (withState (setWatchUrl (Some url)) (AppJsParts.world p))). }
  split; [ by rewrite Hstw | ].
  split; [ by rewrite Hstw | ].
  split; [ intros id' H; apply String.app_inj in H; apply showZ_inj, H | ].
  split; [ exact Hback | ].
  split; [ rewrite Hback; apply targetRemoved_frame | ].
  intros o Ho Hon. split; [ | split ].
  - unfold AppJsParts.act. rewrite Hb. simpl. rewrite Ho, Nat.eqb_refl, Hon. simpl.
    destruct (appjs_handleLoadMore_always_sends env
                (noteLoadMoreCall (observer_id o) (AppJsParts.world p)))
      as (endpoint & Hsent & _).
    exists endpoint.
    destruct (appjs_commit_no_load env (st (AppJsParts.world p))
                (AppJs.handleLoadMore env
                   (noteLoadMoreCall (observer_id o) (AppJsParts.world p)))) as [Hs _].
    { unfold AppJs.handleLoadMore.
      destruct (String.eqb (category (st (noteLoadMoreCall (observer_id o)
                                            (AppJsParts.world p)))) "trending").
      - apply (appjs_fetchTrending_frame env _
                 (noteLoadMoreCall (observer_id o) (AppJsParts.world p))).
      - apply (appjs_fetchByCategory_frame env _ _
                 (noteLoadMoreCall (observer_id o) (AppJsParts.world p))). }
    rewrite Hs. exact Hsent.
  - rewrite Hback. simpl. unfold targetRemoved. by rewrite Ho.
  - intros observer isIntersecting. rewrite Hback.
    destruct (targetRemoved_frame (AppJsParts.world p)) as (Hst & _).
    assert (Hoff : observerRef (targetRemoved (AppJsParts.world p))
                   = Some {| observer_id := observer_id o; observing := false |}).
    { unfold targetRemoved. by rewrite Ho. }
    assert (Hidle : AppJs.handle env (Intersection observer isIntersecting)
                      (targetRemoved (AppJsParts.world p))
                    = targetRemoved (AppJsParts.world p)).
    { cbn [AppJs.handle]. rewrite Hoff. cbn [observing]. by rewrite andb_false_r. }
    unfold AppJsParts.act, AppJsParts.onWorld.
    cbn [AppJsParts.world AppJsParts.selectedTVShow].
    rewrite Hst, Hb, Hidle.
    rewrite appjs_commit_same by (by rewrite Hst).
    by rewrite Hst, Hgrid.
Qed.

Lemma appjs_watch_and_back_witness :
  let watching :=
    AppJsParts.act browserEnv appjsPage (AppJsParts.User (AppJsParts.CardClick 1)) in
  let back := AppJsParts.act browserEnv watching (AppJsParts.User AppJsParts.BackClick) in
  watchUrl (st (AppJsParts.world watching)) = Some "https://vidsrc.to/embed/movie/2"
  /\ st (AppJsParts.world back) = st (AppJsParts.world appjsPage)
  /\ observerRef (AppJsParts.world appjsPage)
     = Some {| observer_id := 2; observing := true |}
  /\ observerRef (AppJsParts.world back)
     = Some {| observer_id := 2; observing := false |}
  /\ AppJsParts.act browserEnv back (AppJsParts.Browser (Intersection 2 true)) = back.
Proof.
  assert (Hb : boundaryHasError (st (AppJsParts.world appjsPage)) = false)
    by (vm_compute; reflexivity).
  assert (Hm : showTVSeriesPage (st (AppJsParts.world appjsPage)) = false)
    by (vm_compute; reflexivity).
  assert (Hg : AppJs.gridRendered (st (AppJsParts.world appjsPage)) = true)
    by (vm_compute; reflexivity).
  assert (Hi : AppJs.displayMovies (st (AppJsParts.world appjsPage)) !! 1%nat = Some itemB)
    by (vm_compute; reflexivity).
  assert (Ho : observerRef (AppJsParts.world appjsPage)
               = Some {| observer_id := 2; observing := true |})
    by (vm_compute; reflexivity).
  destruct (appjs_watch_and_back browserEnv appjsPage 1%nat itemB 2 Hb Hm Hg Hi eq_refl
              ltac:(discriminate))
    as (Hurl & _ & _ & _ & Hst & Hwatch).
  destruct (Hwatch {| observer_id := 2; observing := true |} Ho eq_refl)
    as (_ & Hoff & Hdead).
  intros watching back.
  split; [ exact Hurl | ].
  split; [ exact Hst | ].
  split; [ exact Ho | ].
  split; [ exact Hoff | exact (Hdead 2%nat true) ].
Defined.

(** ** Clearing the search box, once more *)

Lemma appjs_fetchFirstPage_sent (env : Env) (w : World) :
  sent (AppJs.fetchFirstPage env w) = (sent w ++ [appjsFirstPageRequest env (st w)])%list
  /\ search (st (AppJs.fetchFirstPage env w)) = search (st w)
  /\ category (st (AppJs.fetchFirstPage env w)) = category (st w)
  /\ showTVSeriesPage (st (AppJs.fetchFirstPage env w)) = showTVSeriesPage (st w)
  /\ hasMore (st (AppJs.fetchFirstPage env w)) = hasMore (st w)
  /\ page (st (AppJs.fetchFirstPage env w)) = page (st w)
  /\ loading (st (AppJs.fetchFirstPage env w)) = true.
Proof.
  unfold AppJs.fetchFirstPage, appjsFirstPageRequest.
  destruct (String.eqb (category (st w)) "trending"); simpl; auto 10.
Qed.

(** The first page request depends on the category and the mode only. *)
Lemma appjsFirstPageRequest_deps (env : Env) (a b : AppState) :
  category a = category b -> showTVSeriesPage a = showTVSeriesPage b ->
  appjsFirstPageRequest env a = appjsFirstPageRequest env b.
Proof. unfold appjsFirstPageRequest. intros -> ->. reflexivity. Qed.

Lemma appjs_fetchFirstPage_deps (env : Env) (w : World) :
  appjsDeps (st (AppJs.fetchFirstPage env w))
  = (true, hasMore (st w), search (st w), category (st w), page (st w),
     showTVSeriesPage (st w))
  /\ sent (AppJs.fetchFirstPage env w)
     = (sent w ++ [appjsFirstPageRequest env (st w)])%list.
Proof.
  unfold AppJs.fetchFirstPage, appjsFirstPageRequest, appjsDeps.
  destruct (String.eqb (category (st w)) "trending"); simpl; auto.
Qed.

Lemma appjs_handleClearSearch_deps (env : Env) (w : World) :
  appjsDeps (st (AppJsParts.handleClearSearch env w))
  = (true, true, "", category (st w), 1, showTVSeriesPage (st w))
  /\ sent (AppJsParts.handleClearSearch env w)
     = (sent w ++ [appjsFirstPageRequest env (st w)])%list.
Proof.
  unfold AppJsParts.handleClearSearch. cbv zeta.
  match goal with
  | |- context [AppJs.fetchFirstPage env ?x] =>
      destruct (appjs_fetchFirstPage_deps env x) as [Hd Hs];
      destruct (appjs_clearTypingTimeout_sent
                  (withState (setHasMore true)
                     (withState (setPage 1)
                        (withState (setIsSearching false)
                           (withState (setSuggestions [])
                              (withState (setSearchResults [])
                                 (withState (setSearch "") w))))))) as [Hs' Hst]
  end.
  rewrite Hd, Hs, Hs', Hst. simpl. split; reflexivity.
Qed.

Lemma appjs_loadEffect_deps (env : Env) (s : AppState) (w : World) :
  search s = "" ->
  category s = category (st w) ->
  appjsDeps (st (AppJs.loadEffect env s w))
  = (true, true, search (st w), category (st w), 1, showTVSeriesPage (st w))
  /\ sent (AppJs.loadEffect env s w) = (sent w ++ [appjsFirstPageRequest env (st w)])%list.
Proof.
  intros Hs Hc. unfold AppJs.loadEffect, appjsFirstPageRequest, appjsDeps.
  rewrite Hs, Hc. simpl.
  destruct (String.eqb (category (st w)) "trending"); simpl; auto.
Qed.

(** The commit after a handler that emptied [search]: the load effect
    fetches the first page, and the second round runs nothing. *)
Lemma appjs_commit_search_emptied (env : Env) (prev : AppState) (w1 : World) :
  search prev <> "" -> search (st w1) = "" ->
  loading (st w1) = true -> hasMore (st w1) = true -> page (st w1) = 1 ->
  sent (AppJs.commit env prev w1)
  = (sent w1 ++ [appjsFirstPageRequest env (st w1)])%list.
Proof.
  intros Hs Hq Hl Hh Hp. apply String.eqb_neq in Hs.
  destruct (rendered_frame (AppJs.gridRendered (st w1)) w1) as [Hst0 Hsent0].
  set (w0 := if AppJs.gridRendered (st w1) then w1 else targetRemoved w1) in *.
  assert (Hfirst : AppJs.commitOnce env prev w1
                   = AppJs.loadEffect env (st w1)
                       (AppJs.scrollEffect (st w1)
                          (AppJs.loadEffect_cleanup (AppJs.scrollEffect_cleanup w0)))).
  { unfold AppJs.commitOnce, AppJs.sameScrollDeps, AppJs.sameLoadDeps. cbv zeta.
    rewrite Hq, Hs, !andb_false_r. reflexivity. }
  clearbody w0.
  assert (H4 : st (AppJs.scrollEffect (st w1)
                     (AppJs.loadEffect_cleanup (AppJs.scrollEffect_cleanup w0))) = st w1
               /\ sent (AppJs.scrollEffect (st w1)
                          (AppJs.loadEffect_cleanup (AppJs.scrollEffect_cleanup w0)))
                  = sent w1).
  { unfold AppJs.loadEffect_cleanup.
    destruct (appjs_scroll_sent (st w1)
                (AppJs.clearTypingTimeout (AppJs.scrollEffect_cleanup w0)))
      as (E1 & E2 & _ & _).
    destruct (appjs_clearTypingTimeout_sent (AppJs.scrollEffect_cleanup w0)) as [E3 E4].
    destruct (appjs_scroll_sent (st w1) w0) as (_ & _ & E5 & E6).
    rewrite E1, E2, E3, E4, E5, E6. auto. }
  destruct H4 as [Hst4 Hsent4].
  pose proof (appjs_loadEffect_deps env (st w1) _ Hq (f_equal category (eq_sym Hst4)))
    as [Hd5 Hsent5].
  rewrite Hst4 in Hd5, Hsent5. rewrite Hsent4 in Hsent5.
  unfold AppJs.commit. rewrite Hfirst.
  destruct (appjs_commitOnce_same_sent env (st w1)
              (AppJs.loadEffect env (st w1)
                 (AppJs.scrollEffect (st w1)
                    (AppJs.loadEffect_cleanup (AppJs.scrollEffect_cleanup w0)))))
    as [Hsent6 _].
  { rewrite Hd5. unfold appjsDeps. rewrite Hl, Hh, Hp. reflexivity. }
  rewrite Hsent6. exact Hsent5.
Qed.

Lemma appjs_clear_then_commit (env : Env) (w : World) :
  search (st w) <> "" ->
  sent (AppJs.commit env (st w) (AppJsParts.handleClearSearch env w))
  = (sent w ++ [appjsFirstPageRequest env (st w); appjsFirstPageRequest env (st w)])%list.
Proof.
  intros Hs.
  destruct (appjs_handleClearSearch_deps env w) as [Hd Hsent].
  unfold appjsDeps in Hd. injection Hd as Hl Hh Hq Hc Hp Ht.
  rewrite (appjs_commit_search_emptied env (st w) _ Hs Hq Hl Hh Hp).
  rewrite Hsent, <- app_assoc. simpl. do 3 f_equal.
  apply appjsFirstPageRequest_deps; assumption.
Qed.

Lemma appjs_handleSearchChange_empty_deps (env : Env) (w : World) :
  appjsDeps (st (AppJs.handleSearchChange env "" w))
  = (true, true, "", category (st w), 1, showTVSeriesPage (st w))
  /\ sent (AppJs.handleSearchChange env "" w)
     = (sent w ++ [appjsFirstPageRequest env (st w)])%list.
Proof.
  unfold AppJs.handleSearchChange. cbv zeta.
  change (negb (truthyStr (trim ""))) with true. cbv iota.
  match goal with
  | |- context [AppJs.fetchFirstPage env ?x] =>
      destruct (appjs_fetchFirstPage_deps env x) as [Hd Hs]
  end.
  destruct (appjs_clearTypingTimeout_sent (withState (setSearch "") w)) as [Hs' Hst].
  rewrite Hd, Hs. simpl. rewrite Hs', Hst. split; reflexivity.
Qed.

(** X16.  Emptying the search box of [src/App.js] fetches the first page
    twice: once in the handler (the Escape key, the cross, or the last
    character deleted), and once more in the load effect, which runs
    because [search] changed.  The two requests are the same. *)
Theorem appjs_clearing_fetches_twice (env : Env) (p : AppJsParts.Page) :
  boundaryHasError (st (AppJsParts.world p)) = false ->
  search (st (AppJsParts.world p)) <> "" ->
  let request := appjsFirstPageRequest env (st (AppJsParts.world p)) in
  let twice := (sent (AppJsParts.world p) ++ [request; request])%list in
  sent (AppJsParts.world (AppJsParts.act env p (AppJsParts.User AppJsParts.EscapeKey)))
  = twice
  /\ sent (AppJsParts.world (AppJsParts.act env p (AppJsParts.User AppJsParts.ClearClick)))
     = twice
  /\ sent (AppJsParts.world (AppJsParts.act env p (AppJsParts.Browser (SearchChange ""))))
     = twice.
Proof.
  intros Hb Hs request twice. unfold AppJsParts.act. rewrite Hb. simpl.
  assert (Ht : truthyStr (search (st (AppJsParts.world p))) = true).
  { unfold truthyStr. destruct (search (st (AppJsParts.world p))); [congruence|reflexivity]. }
  rewrite Ht. simpl.
  split; [apply appjs_clear_then_commit, Hs|].
  split; [apply appjs_clear_then_commit, Hs|].
  destruct (appjs_handleSearchChange_empty_deps env (AppJsParts.world p)) as [Hd Hsent].
  unfold appjsDeps in Hd. injection Hd as Hl Hh Hq Hc Hp Hm.
  rewrite (appjs_commit_search_emptied env (st (AppJsParts.world p)) _ Hs Hq Hl Hh Hp).
  rewrite Hsent, <- app_assoc. simpl. subst twice request. do 3 f_equal.
  apply appjsFirstPageRequest_deps; assumption.
Qed.

Lemma appjs_clearing_fetches_twice_witness :
  let request := appjsFirstPageRequest browserEnv (st (AppJsParts.world appjsTyped)) in
  let twice := (sent (AppJsParts.world appjsTyped) ++ [request; request])%list in
  sent (AppJsParts.world
          (AppJsParts.act browserEnv appjsTyped (AppJsParts.User AppJsParts.EscapeKey)))
  = twice
  /\ sent (AppJsParts.world
             (AppJsParts.act browserEnv appjsTyped (AppJsParts.User AppJsParts.ClearClick)))
     = twice
  /\ sent (AppJsParts.world
             (AppJsParts.act browserEnv appjsTyped (AppJsParts.Browser (SearchChange ""))))
     = twice.
Proof.
  apply (appjs_clearing_fetches_twice browserEnv appjsTyped).
  - vm_compute. reflexivity.
  - vm_compute. discriminate.
Defined.
(** ** Suggestions *)

Lemma appjs_commitOnce_searching (env : Env) (prev : AppState) (w : World) :
  search (st w) <> "" ->
  sent (AppJs.commitOnce env prev w) = sent w /\ st (AppJs.commitOnce env prev w) = st w.
Proof.
  intros Hs.
  assert (Ht : truthyStr (search (st w)) = true).
  { unfold truthyStr. destruct (search (st w)); [congruence|reflexivity]. }
  assert (E1 : forall s x, sent (AppJs.scrollEffect s x) = sent x)
    by (intros; apply appjs_scroll_sent).
  assert (E2 : forall s x, st (AppJs.scrollEffect s x) = st x)
    by (intros; apply appjs_scroll_sent).
  assert (E3 : forall x, sent (AppJs.scrollEffect_cleanup x) = sent x)
    by (intros x; apply (appjs_scroll_sent (st x) x)).
  assert (E4 : forall x, st (AppJs.scrollEffect_cleanup x) = st x)
    by (intros x; apply (appjs_scroll_sent (st x) x)).
  assert (E5 : forall x, sent (AppJs.clearTypingTimeout x) = sent x)
    by (intros; apply appjs_clearTypingTimeout_sent).
  assert (E6 : forall x, st (AppJs.clearTypingTimeout x) = st x)
    by (intros; apply appjs_clearTypingTimeout_sent).
  destruct (rendered_frame (AppJs.gridRendered (st w)) w) as [Hst0 Hsent0].
  unfold AppJs.commitOnce, AppJs.loadEffect, AppJs.loadEffect_cleanup. cbv zeta.
  rewrite Ht. simpl.
  destruct (negb (AppJs.sameScrollDeps prev (st w)));
    destruct (negb (AppJs.sameLoadDeps prev (st w)));
    rewrite ?E1, ?E2, ?E5, ?E6, ?E3, ?E4; auto.
Qed.

Lemma appjs_commit_searching (env : Env) (prev : AppState) (w : World) :
  search (st w) <> "" ->
  sent (AppJs.commit env prev w) = sent w /\ st (AppJs.commit env prev w) = st w.
Proof.
  intros Hs. unfold AppJs.commit.
  destruct (appjs_commitOnce_searching env prev w Hs) as [H1 H2].
  destruct (appjs_commitOnce_searching env (st w) (AppJs.commitOnce env prev w)
              ltac:(rewrite H2; exact Hs)) as [H3 H4].
  rewrite H3, H4, H1, H2. auto.
Qed.

(** X17.  A click on a suggestion of [src/App.js] puts its title (its name
    when there is no title) into the search box and sends the full search
    for it at once, with no debounce.  The suggestions are not validated:
    one with neither a title nor a name sets [search] to [undefined], and
    the render that follows throws into the error boundary. *)
Theorem appjs_suggestion_click
    (env : Env) (p : AppJsParts.Page) (index : nat) (item : MediaItem) :
  boundaryHasError (st (AppJsParts.world p)) = false ->
  AppJs.suggestionsShown (st (AppJsParts.world p)) = true ->
  suggestions (st (AppJsParts.world p)) !! index = Some item ->
  let after := AppJsParts.world
                 (AppJsParts.act env p (AppJsParts.User (AppJsParts.SuggestionClick index))) in
  (forall text, titleOrName item = Some text -> truthyStr (trim text) = true ->
     search (st after) = text
     /\ sent after = (sent (AppJsParts.world p) ++ [SearchRequest text])%list
     /\ loading (st after) = true /\ boundaryHasError (st after) = false)
  /\ (titleOrName item = None -> boundaryHasError (st after) = true).
Proof.
  intros Hb Hshown Hitem after. subst after.
  unfold AppJsParts.act. rewrite Hb. simpl. rewrite Hshown, Hitem. simpl.
  unfold AppJsParts.handleSuggestionClick. split.
  - intros text Htext Htrim. rewrite Htext.
    unfold AppJs.performSearch. rewrite Htrim. simpl negb. cbv iota zeta.
    match goal with
    | |- context [AppJs.commit env ?prev ?x] =>
        destruct (appjs_commit_searching env prev x) as [H1 H2]
    end.
    { simpl. intros ->. discriminate. }
    rewrite H1, H2. simpl. rewrite Hb. auto.
  - intros Hnone. rewrite Hnone.
    unfold AppJs.commit. 
    assert (H : forall prev w, boundaryHasError (st (AppJs.commitOnce env prev w))
                               = boundaryHasError (st w)).
    { intros prev w.
      unfold AppJs.commitOnce. cbv zeta.
      destruct (AppJs.gridRendered (st w));
        unfold AppJs.loadEffect, AppJs.loadEffect_cleanup,
          AppJs.scrollEffect, AppJs.scrollEffect_cleanup, AppJs.clearTypingTimeout,
          AppJs.fetchTrending, AppJs.fetchByCategory, disconnectObserver, targetRemoved;
        details_crunch. }
    rewrite !H. reflexivity.
Qed.

Lemma appjs_suggestion_click_witness :
  let after := AppJsParts.world
                 (AppJsParts.act browserEnv appjsSuggesting
                    (AppJsParts.User (AppJsParts.SuggestionClick 0))) in
  (forall text, titleOrName itemA = Some text -> truthyStr (trim text) = true ->
     search (st after) = text
     /\ sent after = (sent (AppJsParts.world appjsSuggesting) ++ [SearchRequest text])%list
     /\ loading (st after) = true /\ boundaryHasError (st after) = false)
  /\ (titleOrName itemA = None -> boundaryHasError (st after) = true).
Proof.
  apply (appjs_suggestion_click browserEnv appjsSuggesting 0%nat itemA);
    vm_compute; reflexivity.
Defined.
(** ** The category bar *)

Ltac own_member :=
  unfold AppJs.fetchByCategory_endpoint, getMember;
  repeat match goal with
         | |- context [@lookup _ _ _ _ ?k ?m] =>
             let v := eval vm_compute in (@lookup _ _ _ _ k m) in
             replace (@lookup _ _ _ _ k m) with v by (vm_compute; reflexivity)
         end;
  simpl.

(** X18.  Every button of the category bar leads to a well-formed endpoint
    (the hardened component appends [&language=...] to the same text).  In
    TV mode each of the thirteen keys has its entry in [tvCatMap]: eight
    are genres, one is the Tagalog filter, four are lists of
    [/tv/<list>]; none ends up as [/tv/undefined].  In movie mode the
    thirteen keys other than [trending] give the Filipino filter, one of the
    eight genres, or one of the four lists of [/movie/<list>]. *)
Theorem category_buttons_have_endpoints (env : Env) (cat : string) (pageNum : Z) :
  let key := showKey env in
  let pg := showZ pageNum in
  (In cat tvCategoryKeys ->
   (exists genre, In genre [10759; 35; 18; 10765; 16; 9648; 10764; 99]
      /\ AppJs.fetchByCategory_endpoint env true cat pageNum
         = "https://api.themoviedb.org/3/discover/tv?api_key=" +:+ key
           +:+ "&with_genres=" +:+ showZ genre +:+ "&sort_by=popularity.desc&page=" +:+ pg)
   \/ AppJs.fetchByCategory_endpoint env true cat pageNum
      = "https://api.themoviedb.org/3/discover/tv?api_key=" +:+ key
        +:+ "&with_original_language=tl&sort_by=popularity.desc&page=" +:+ pg
   \/ (exists name, In name ["popular"; "top_rated"; "on_the_air"; "airing_today"]
         /\ AppJs.fetchByCategory_endpoint env true cat pageNum
            = "https://api.themoviedb.org/3/tv/" +:+ name +:+ "?api_key=" +:+ key
              +:+ "&page=" +:+ pg))
  /\ (In cat movieCategoryKeys -> cat <> "trending" ->
      (exists genre, In genre [28; 35; 18; 27; 10749; 53; 878; 16]
         /\ AppJs.fetchByCategory_endpoint env false cat pageNum
            = "https://api.themoviedb.org/3/discover/movie?api_key=" +:+ key
              +:+ "&with_genres=" +:+ showZ genre +:+ "&sort_by=popularity.desc&page="
              +:+ pg)
      \/ AppJs.fetchByCategory_endpoint env false cat pageNum
         = "https://api.themoviedb.org/3/discover/movie?api_key=" +:+ key
           +:+ "&with_original_language=tl&region=PH&sort_by=popularity.desc&page=" +:+ pg
      \/ (exists name, In name ["popular"; "top_rated"; "upcoming"; "now_playing"]
            /\ AppJs.fetchByCategory_endpoint env false cat pageNum
               = "https://api.themoviedb.org/3/movie/" +:+ name +:+ "?api_key=" +:+ key
                 +:+ "&page=" +:+ pg)).
Proof.
  intros key pg. split.
  - intros Hin. simpl in Hin.
    repeat (destruct Hin as [<-|Hin]; [own_member|]); try contradiction.
    all: first
      [ left; eexists; split; [|reflexivity]; simpl; tauto
      | right; left; reflexivity
      | right; right; eexists; split; [|reflexivity]; simpl; tauto ].
  - intros Hin Hne. simpl in Hin.
    repeat (destruct Hin as [<-|Hin]; [try congruence; own_member|]); try contradiction.
    all: first
      [ left; eexists; split; [|reflexivity]; simpl; tauto
      | right; left; reflexivity
      | right; right; eexists; split; [|reflexivity]; simpl; tauto ].
Qed.

(** The commit after a handler that changed what the load effect depends
    on and left [search] empty: one request, for the category on screen. *)
Lemma appjs_commit_reload (env : Env) (prev : AppState) (w1 : World) :
  AppJs.sameLoadDeps prev (st w1) = false -> search (st w1) = "" ->
  sent (AppJs.commit env prev w1) = (sent w1 ++ [appjsFirstPageRequest env (st w1)])%list
  /\ category (st (AppJs.commit env prev w1)) = category (st w1)
  /\ loading (st (AppJs.commit env prev w1)) = true.
Proof.
  intros Hload Hq.
  assert (Hfirst : exists w4, AppJs.commitOnce env prev w1 = AppJs.loadEffect env (st w1) w4
                              /\ sent w4 = sent w1 /\ st w4 = st w1).
  { unfold AppJs.commitOnce. cbv zeta. rewrite Hload. simpl negb. cbv iota.
    unfold AppJs.loadEffect_cleanup.
    destruct (rendered_frame (AppJs.gridRendered (st w1)) w1) as [Hst0 Hsent0].
    set (w0 := if AppJs.gridRendered (st w1) then w1 else targetRemoved w1) in *.
    clearbody w0.
    destruct (negb (AppJs.sameScrollDeps prev (st w1))).
    - eexists. split; [reflexivity|].
      destruct (appjs_scroll_sent (st w1)
                  (AppJs.clearTypingTimeout (AppJs.scrollEffect_cleanup w0)))
        as (E1 & E2 & _ & _).
      destruct (appjs_clearTypingTimeout_sent (AppJs.scrollEffect_cleanup w0)) as [E3 E4].
      destruct (appjs_scroll_sent (st w1) w0) as (_ & _ & E5 & E6).
      rewrite E1, E2, E3, E4, E5, E6. auto.
    - eexists. split; [reflexivity|].
      destruct (appjs_clearTypingTimeout_sent w0) as [E3 E4]. rewrite E3, E4. auto. }
  destruct Hfirst as (w4 & Hfirst & Hs4 & Hst4).
  destruct (appjs_loadEffect_deps env (st w1) w4 Hq (f_equal category (eq_sym Hst4)))
    as [Hd5 Hs5].
  unfold AppJs.commit. rewrite Hfirst.
  destruct (appjs_commitOnce_no_load env (st w1) (AppJs.loadEffect env (st w1) w4))
    as [Hs6 Hst6].
  { unfold appjsDeps in Hd5. injection Hd5 as _ _ Hq5 Hc _ Ht.
    unfold AppJs.sameLoadDeps. rewrite Hq5, Hc, Ht, Hst4.
    rewrite !String.eqb_refl, Bool.eqb_reflx. reflexivity. }
  rewrite Hs6, Hst6, Hs5, Hs4.
  unfold appjsDeps in Hd5. injection Hd5 as Hl _ _ Hc _ _.
  rewrite Hl, Hc, Hst4. auto.
Qed.

(** X19.  A button of the category bar of [src/App.js] only sets hooks; the
    load effect then sends one request, for the first page of the category
    chosen. *)
Theorem appjs_category_click_fetches_once
    (env : Env) (p : AppJsParts.Page) (cat : string) :
  boundaryHasError (st (AppJsParts.world p)) = false ->
  AppJsParts.categoryBar (st (AppJsParts.world p)) = true ->
  In cat (currentCategoryKeys (st (AppJsParts.world p))) ->
  cat <> category (st (AppJsParts.world p)) ->
  let after := AppJsParts.world
                 (AppJsParts.act env p (AppJsParts.User (AppJsParts.CategoryClick cat))) in
  sent after
  = (sent (AppJsParts.world p)
     ++ [appjsFirstPageRequest env (setCategory cat (st (AppJsParts.world p)))])%list
  /\ category (st after) = cat /\ loading (st after) = true.
Proof.
  intros Hb Hbar Hin Hne after. subst after.
  unfold AppJsParts.act. rewrite Hb. simpl. rewrite Hbar.
  assert (Hex : existsb (String.eqb cat) (currentCategoryKeys (st (AppJsParts.world p)))
                = true).
  { apply existsb_exists. exists cat. split; [exact Hin|apply String.eqb_refl]. }
  rewrite Hex. simpl.
  destruct (appjs_commit_reload env (st (AppJsParts.world p))
              (AppJsParts.handleCategory cat (AppJsParts.world p)))
    as (Hs & Hc & Hl).
  { unfold AppJs.sameLoadDeps. simpl.
    assert (String.eqb (category (st (AppJsParts.world p))) cat = false) as ->
      by (apply String.eqb_neq; congruence).
    reflexivity. }
  { reflexivity. }
  rewrite Hs, Hc, Hl. simpl. auto.
Qed.

Lemma appjs_category_click_fetches_once_witness :
  let after := AppJsParts.world
                 (AppJsParts.act browserEnv appjsPage
                    (AppJsParts.User (AppJsParts.CategoryClick "horror"))) in
  sent after
  = (sent (AppJsParts.world appjsPage)
     ++ [PageRequest
           ("https://api.themoviedb.org/3/discover/movie?api_key=k3y&with_genres=27"
            +:+ "&sort_by=popularity.desc&page=1") 1 true])%list
  /\ category (st after) = "horror" /\ loading (st after) = true.
Proof.
  apply (appjs_category_click_fetches_once browserEnv appjsPage "horror");
    try (vm_compute; reflexivity).
  - vm_compute. tauto.
  - vm_compute. discriminate.
Defined.

(** ** Favourites of the hardened component *)

Lemma existsb_filter_negb {A : Type} (f : A -> bool) (l : list A) :
  existsb f (List.filter (fun x => negb (f x)) l) = false.
Proof.
  induction l as [|x l IH]; simpl; [reflexivity|].
  destruct (f x) eqn:E; simpl; [exact IH|]. rewrite E, IH. reflexivity.
Qed.

Lemma filter_negb_none {A : Type} (f : A -> bool) (l : list A) :
  existsb f l = false -> List.filter (fun x => negb (f x)) l = l.
Proof.
  induction l as [|x l IH]; simpl; [reflexivity|].
  intros H. apply orb_false_iff in H as [Hx Hl]. rewrite Hx. simpl.
  rewrite (IH Hl). reflexivity.
Qed.

Lemma sameFavorite_added (showTV : bool) (item : MediaItem) :
  isValidMediaItem item = true ->
  HardenedParts.sameFavorite showTV item {| HardenedParts.fav_item := item; HardenedParts.fav_type := Some (HardenedParts.currentType showTV) |}
  = true.
Proof.
  intros Hv. unfold HardenedParts.sameFavorite. simpl.
  unfold isValidMediaItem in Hv. apply andb_true_iff in Hv as [Hid _].
  destruct (item_id item) as [z|]; [|discriminate].
  rewrite Z.eqb_refl, String.eqb_refl. reflexivity.
Qed.

(** X20.  [toggleFavorite] flips what [isItemFavorite] answers for a valid
    item, and leaves the favourites of every other identifier, and of the
    same identifier in the other mode, as they are.  Toggling twice an item
    that was no favourite gives the list back. *)
Theorem toggleFavorite_flips
    (showTV : bool) (item : MediaItem) (favorites : list HardenedParts.Favorite) :
  isValidMediaItem item = true ->
  HardenedParts.isItemFavorite showTV item (HardenedParts.toggleFavorite showTV item favorites)
  = negb (HardenedParts.isItemFavorite showTV item favorites)
  /\ (forall fav, HardenedParts.sameFavorite showTV item fav = false ->
        (In fav (HardenedParts.toggleFavorite showTV item favorites) <-> In fav favorites))
  /\ (HardenedParts.isItemFavorite showTV item favorites = false ->
      HardenedParts.toggleFavorite showTV item (HardenedParts.toggleFavorite showTV item favorites) = favorites).
Proof.
  intros Hv. unfold HardenedParts.isItemFavorite, HardenedParts.toggleFavorite. rewrite Hv. simpl negb. cbv iota.
  destruct (existsb (HardenedParts.sameFavorite showTV item) favorites) eqn:Hex.
  - split; [|split].
    + apply existsb_filter_negb.
    + intros fav Hfav. rewrite filter_In, Hfav. simpl. tauto.
    + discriminate.
  - split; [|split].
    + rewrite existsb_app, Hex. simpl. rewrite (sameFavorite_added showTV item Hv).
      reflexivity.
    + intros fav Hfav. rewrite in_app_iff. simpl. split; [|tauto].
      intros [H|[<-|[]]]; [exact H|].
      rewrite (sameFavorite_added showTV item Hv) in Hfav. discriminate.
    + intros _. rewrite existsb_app, Hex. simpl.
      rewrite (sameFavorite_added showTV item Hv). simpl.
      rewrite List.filter_app. simpl. rewrite (sameFavorite_added showTV item Hv). simpl.
      rewrite (filter_negb_none _ _ Hex). apply app_nil_r.
Qed.

Lemma toggleFavorite_flips_witness :
  let favorites := [{| HardenedParts.fav_item := itemB; HardenedParts.fav_type := Some "movie" |}] in
  HardenedParts.isItemFavorite false itemA (HardenedParts.toggleFavorite false itemA favorites)
  = negb (HardenedParts.isItemFavorite false itemA favorites)
  /\ (forall fav, HardenedParts.sameFavorite false itemA fav = false ->
        (In fav (HardenedParts.toggleFavorite false itemA favorites) <-> In fav favorites))
  /\ (HardenedParts.isItemFavorite false itemA favorites = false ->
      HardenedParts.toggleFavorite false itemA (HardenedParts.toggleFavorite false itemA favorites) = favorites).
Proof.
  exact (toggleFavorite_flips false itemA
           [{| HardenedParts.fav_item := itemB; HardenedParts.fav_type := Some "movie" |}] eq_refl).
Defined.

Lemma filter_all {A : Type} (f : A -> bool) (l : list A) :
  Forall (fun x => f x = true) l -> List.filter f l = l.
Proof.
  induction 1 as [|x l Hx Hl IH]; simpl; [reflexivity|]. rewrite Hx, IH. reflexivity.
Qed.

Lemma filter_Forall {A : Type} (f : A -> bool) (l : list A) :
  Forall (fun x => f x = true) (List.filter f l).
Proof.
  induction l as [|x l IH]; simpl; [constructor|].
  destruct (f x) eqn:E; [constructor; assumption|assumption].
Qed.

Lemma toggleFavorite_valid (showTV : bool) (item : MediaItem) (favorites : list HardenedParts.Favorite) :
  Forall (fun fav => HardenedParts.validFavorite fav = true) favorites ->
  Forall (fun fav => HardenedParts.validFavorite fav = true) (HardenedParts.toggleFavorite showTV item favorites).
Proof.
  intros H. unfold HardenedParts.toggleFavorite.
  destruct (isValidMediaItem item) eqn:Hv; simpl; [|exact H].
  destruct (existsb (HardenedParts.sameFavorite showTV item) favorites).
  - apply List.Forall_forall. intros fav Hin. apply filter_In in Hin as [Hin _].
    exact (proj1 (List.Forall_forall _ _) H fav Hin).
  - apply Forall_app. split; [exact H|]. constructor; [exact Hv|constructor].
Qed.

Lemma favoriteSession_synced (stored : HardenedParts.Stored) (clicks : list (bool * MediaItem)) :
  Forall (fun fav => HardenedParts.validFavorite fav = true) (fst (favoriteSession stored clicks))
  /\ snd (favoriteSession stored clicks) = HardenedParts.Entries (fst (favoriteSession stored clicks)).
Proof.
  unfold favoriteSession.
  assert (H0 : Forall (fun fav => HardenedParts.validFavorite fav = true) (fst (HardenedParts.mountFavorites stored))
               /\ snd (HardenedParts.mountFavorites stored) = HardenedParts.Entries (fst (HardenedParts.mountFavorites stored))).
  { destruct stored as [| | |entries]; simpl; try (split; [constructor|reflexivity]).
    split; [apply filter_Forall|].
    unfold HardenedParts.saveFavorites. rewrite (filter_all _ _ (filter_Forall HardenedParts.validFavorite entries)).
    reflexivity. }
  revert H0. generalize (HardenedParts.mountFavorites stored).
  induction clicks as [|[showTV item] clicks IH]; intros state H0; [exact H0|].
  simpl. apply IH. destruct state as [favorites held]. simpl in *.
  destruct H0 as [Hvalid Hheld].
  destruct (isValidMediaItem item) eqn:Hv; simpl; [|split; assumption].
  pose proof (toggleFavorite_valid showTV item favorites Hvalid) as Hvalid'.
  split; [exact Hvalid'|].
  unfold HardenedParts.saveFavorites. rewrite (filter_all _ _ Hvalid'). reflexivity.
Qed.

(** X21.  The favourites survive a reload.  After the page was mounted on
    any content of the storage and any hearts were clicked, the storage
    holds exactly the favourites on screen, all of them valid, and mounting
    the page again on that storage brings the same list back.  A storage
    that holds no entry, no JSON or no array is answered with an empty list
    and overwritten with the empty array. *)
Theorem favorites_survive_reload (stored : HardenedParts.Stored) (clicks : list (bool * MediaItem)) :
  let '(favorites, held) := favoriteSession stored clicks in
  held = HardenedParts.Entries favorites
  /\ Forall (fun fav => HardenedParts.validFavorite fav = true) favorites
  /\ HardenedParts.mountFavorites held = (favorites, held)
  /\ (HardenedParts.loadFavorites stored = None -> HardenedParts.mountFavorites stored = ([], HardenedParts.Entries [])).
Proof.
  destruct (favoriteSession_synced stored clicks) as [Hvalid Hheld].
  destruct (favoriteSession stored clicks) as [favorites held]. simpl in *.
  subst held. repeat split; try assumption.
  - unfold HardenedParts.mountFavorites, HardenedParts.loadFavorites, HardenedParts.saveFavorites.
    rewrite (filter_all _ _ Hvalid). rewrite (filter_all _ _ Hvalid). reflexivity.
  - intros Hnone. unfold HardenedParts.mountFavorites. rewrite Hnone. reflexivity.
Qed.

Lemma NoDup_fmap_filter {A B : Type} (key : A -> B) (f : A -> bool) (l : list A) :
  NoDup (key <$> l) -> NoDup (key <$> List.filter f l).
Proof.
  induction l as [|x l IH]; simpl; [auto|].
  rewrite NoDup_cons. intros [Hnot Hrest].
  destruct (f x); [|exact (IH Hrest)].
  simpl. apply NoDup_cons. split; [|exact (IH Hrest)].
  intros Hin. apply Hnot. apply list_elem_of_fmap in Hin as (y & Hy & Hin).
  apply list_elem_of_fmap. exists y. split; [exact Hy|].
  apply list_elem_of_In. apply list_elem_of_In in Hin.
  apply filter_In in Hin as [Hin _]. exact Hin.
Qed.

(** X22.  [toggleFavorite] keeps the favourites distinct: when no two
    entries share identifier and type, none do after a toggle.  (An entry
    that is a favourite already is taken out, never added again.) *)
Theorem toggleFavorite_keeps_distinct
    (showTV : bool) (item : MediaItem) (favorites : list HardenedParts.Favorite) :
  NoDup (favoriteKey <$> favorites) ->
  NoDup (favoriteKey <$> HardenedParts.toggleFavorite showTV item favorites).
Proof.
  intros H. unfold HardenedParts.toggleFavorite.
  destruct (isValidMediaItem item) eqn:Hv; simpl; [|exact H].
  destruct (existsb (HardenedParts.sameFavorite showTV item) favorites) eqn:Hex.
  - apply NoDup_fmap_filter, H.
  - rewrite fmap_app. simpl. apply NoDup_app. split; [exact H|]. split.
    + intros key Hin Hin'. apply list_elem_of_singleton in Hin'. subst key.
      apply list_elem_of_fmap in Hin as (fav & Hkey & Hin).
      assert (Hsame : HardenedParts.sameFavorite showTV item fav = true).
      { unfold favoriteKey in Hkey. simpl in Hkey. injection Hkey as Hid Hty.
        unfold HardenedParts.sameFavorite. rewrite <- Hid, <- Hty.
        unfold isValidMediaItem in Hv. apply andb_true_iff in Hv as [Hi _].
        destruct (item_id item); [|discriminate].
        rewrite Z.eqb_refl, String.eqb_refl. reflexivity. }
      assert (existsb (HardenedParts.sameFavorite showTV item) favorites = true).
      { apply existsb_exists. exists fav. split; [|exact Hsame].
        apply list_elem_of_In, Hin. }
      congruence.
    + apply NoDup_singleton.
Qed.

Lemma toggleFavorite_keeps_distinct_witness :
  NoDup
    (favoriteKey
       <$> HardenedParts.toggleFavorite true itemA [{| HardenedParts.fav_item := itemA; HardenedParts.fav_type := Some "movie" |}]).
Proof.
  apply toggleFavorite_keeps_distinct. simpl. apply NoDup_singleton.
Defined.

(** ** The seasons of the details dialog *)

Lemma insertSeason_perm (s : HardenedParts.Season) (sorted : list HardenedParts.Season) :
  HardenedParts.insertSeason s sorted ≡ₚ s :: sorted.
Proof.
  induction sorted as [|t rest IH]; simpl; [reflexivity|].
  destruct (HardenedParts.seasonNumber s <? HardenedParts.seasonNumber t); [reflexivity|].
  rewrite IH. apply Permutation_swap.
Qed.

Lemma insertSeason_sorted (s : HardenedParts.Season) (sorted : list HardenedParts.Season) :
  StronglySorted seasonLe sorted -> StronglySorted seasonLe (HardenedParts.insertSeason s sorted).
Proof.
  induction 1 as [|t rest Hrest IH Hall]; simpl.
  - constructor; constructor.
  - destruct (Z.ltb_spec (HardenedParts.seasonNumber s) (HardenedParts.seasonNumber t)) as [Hlt|Hge].
    + constructor; [constructor; assumption|].
      constructor; [unfold seasonLe; lia|].
      eapply Forall_impl; [exact Hall|]. unfold seasonLe. simpl. intros; lia.
    + constructor; [exact IH|].
      rewrite insertSeason_perm. constructor; [unfold seasonLe; lia|exact Hall].
Qed.

Lemma sortSeasons_spec (l : list HardenedParts.Season) :
  StronglySorted seasonLe (HardenedParts.sortSeasons l) /\ HardenedParts.sortSeasons l ≡ₚ l.
Proof.
  unfold HardenedParts.sortSeasons.
  assert (H : forall acc, StronglySorted seasonLe acc ->
                StronglySorted seasonLe (fold_left (fun sorted s => HardenedParts.insertSeason s sorted) l acc)
                /\ fold_left (fun sorted s => HardenedParts.insertSeason s sorted) l acc ≡ₚ acc ++ l).
  { induction l as [|s l IH]; intros acc Hacc; simpl.
    - rewrite app_nil_r. auto.
    - destruct (IH (HardenedParts.insertSeason s acc) (insertSeason_sorted s acc Hacc)) as [H1 H2].
      split; [exact H1|]. rewrite H2, insertSeason_perm.
      simpl. apply Permutation_middle. }
  destruct (H [] ltac:(constructor)) as [H1 H2]. auto.
Qed.

(** X23.  The seasons of the details dialog.  Of the seasons in the answer
    the dialog keeps those with an identifier and a number above zero, so
    the specials (season 0) get no button; nothing else is lost or
    repeated.  The buttons are in ascending order, and the episodes fetched
    first are those of the lowest season kept, whatever its number. *)
Theorem validSeasons_sorted (data_seasons : list HardenedParts.Season) :
  let seasons := HardenedParts.validSeasons data_seasons in
  StronglySorted seasonLe seasons
  /\ seasons ≡ₚ List.filter HardenedParts.shownSeason data_seasons
  /\ Forall (fun s => truthyNum (HardenedParts.season_id s) = true /\ 0 < HardenedParts.seasonNumber s) seasons
  /\ (HardenedParts.firstSeasonToFetch data_seasons = None <-> seasons = [])
  /\ (forall n, HardenedParts.firstSeasonToFetch data_seasons = Some n ->
        Forall (fun s => n <= HardenedParts.seasonNumber s) seasons).
Proof.
  intros seasons.
  destruct (sortSeasons_spec (List.filter HardenedParts.shownSeason data_seasons)) as [Hsorted Hperm].
  fold (HardenedParts.validSeasons data_seasons) in Hsorted, Hperm. fold seasons in Hsorted, Hperm.
  split; [exact Hsorted|]. split; [exact Hperm|]. split; [|split].
  - rewrite Hperm. apply List.Forall_forall. intros s Hin.
    apply filter_In in Hin as [_ Hs]. unfold HardenedParts.shownSeason in Hs.
    apply andb_true_iff in Hs as [Hid Hnum]. split; [exact Hid|].
    unfold HardenedParts.seasonNumber. destruct (HardenedParts.season_number s) as [n|]; [|discriminate].
    simpl. apply Z.ltb_lt, Hnum.
  - unfold HardenedParts.firstSeasonToFetch. fold seasons. destruct seasons; simpl; split; congruence.
  - intros n Hn. unfold HardenedParts.firstSeasonToFetch in Hn. fold seasons in Hn.
    destruct seasons as [|s rest]; [discriminate|]. simpl in Hn. injection Hn as <-.
    inversion Hsorted as [|? ? Hrest Hall]; subst.
    constructor; [lia|exact Hall].
Qed.

(** ** Choosing a category in the hardened component *)

(** A commit whose render changed no dependency of an effect runs no
    effect: all it does is to apply the render to the document. *)
Lemma hardened_commitOnce_same (env : Env) (prev : AppState) (w : World) :
  hardenedDeps prev = hardenedDeps (st w) ->
  Hardened.commitOnce env prev w
  = if Hardened.gridRendered (st w) then w else targetRemoved w.
Proof.
  unfold hardenedDeps. intros [= H1 H2 H3 H4 H5 H6 H7 H8 H9].
  unfold Hardened.commitOnce, Hardened.sameScrollDeps, Hardened.sameLoadDeps. cbv zeta.
  rewrite H1, H2, H3, H4, H5, H6, H7, H8, H9.
  rewrite !Bool.eqb_reflx, !String.eqb_refl, Z.eqb_refl, Nat.eqb_refl. reflexivity.
Qed.

Lemma rendered_frame_inflight (b : bool) (w : World) :
  st (if b then w else targetRemoved w) = st w
  /\ sent (if b then w else targetRemoved w) = sent w
  /\ inflight (if b then w else targetRemoved w) = inflight w.
Proof. destruct b; [ done | ]. repeat split; apply targetRemoved_frame. Qed.

Lemma hardenedFirstPageRequest_deps (env : Env) (a b : AppState) :
  category a = category b -> showTVSeriesPage a = showTVSeriesPage b ->
  selectedLanguage a = selectedLanguage b ->
  hardenedFirstPageRequest env a = hardenedFirstPageRequest env b.
Proof.
  unfold hardenedFirstPageRequest, Hardened.fetchTrending_url,
    Hardened.fetchByCategory_endpoint.
  intros -> -> ->. reflexivity.
Qed.

Lemma hardened_scroll_frame (s : AppState) (w : World) :
  (sent (Hardened.scrollEffect s w) = sent w
   /\ inflight (Hardened.scrollEffect s w) = inflight w
   /\ st (Hardened.scrollEffect s w) = st w)
  /\ (sent (Hardened.scrollEffect_cleanup w) = sent w
      /\ inflight (Hardened.scrollEffect_cleanup w) = inflight w
      /\ st (Hardened.scrollEffect_cleanup w) = st w).
Proof.
  unfold Hardened.scrollEffect, Hardened.scrollEffect_cleanup, disconnectObserver.
  destruct (loading s || negb (hasMore s) || truthyStr (trim (search s)) || showTVDetails s
            || negb (nonEmpty (movies s)));
    destruct (scrollCleanup w); destruct (observerRef w); simpl; auto 10.
Qed.

Lemma hardened_fetchFirstPageOf_spec (rendered : AppState) (env : Env) (w : World) :
  Hardened.keyUnusable env = false ->
  let w' := HardenedParts.fetchFirstPageOf rendered env w in
  sent w' = (sent w ++ [hardenedFirstPageRequest env rendered])%list
  /\ inflight w'
     = (inflight w ++ [(S (length (sent w)), hardenedFirstPageRequest env rendered)])%list
  /\ st w' = setError None (setLoading true (st w)).
Proof.
  intros Hk. unfold HardenedParts.fetchFirstPageOf. rewrite Hk. simpl. auto.
Qed.

Lemma hardened_handleClearSearchOf_spec (rendered : AppState) (env : Env) (w : World) :
  Hardened.keyUnusable env = false ->
  let w' := HardenedParts.handleClearSearchOf rendered env w in
  sent w' = (sent w ++ [hardenedFirstPageRequest env rendered])%list
  /\ inflight w'
     = (inflight w ++ [(S (length (sent w)), hardenedFirstPageRequest env rendered)])%list
  /\ hardenedDeps (st w')
     = (true, true, "", category (st w), 1, showTVSeriesPage (st w),
        selectedLanguage (st w), showTVDetails (st w), 0%nat).
Proof.
  intros Hk. unfold HardenedParts.handleClearSearchOf. cbv zeta.
  match goal with
  | |- context [HardenedParts.fetchFirstPageOf rendered env ?x] =>
      destruct (hardened_fetchFirstPageOf_spec rendered env x Hk) as (H1 & H2 & H3);
      rewrite H1, H2, H3
  end.
  destruct (typingTimeoutRef _); simpl; auto.
Qed.

Lemma hardened_loadEffect_spec (env : Env) (s : AppState) (w : World) :
  Hardened.keyUnusable env = false ->
  truthyStr (trim (search s)) = false ->
  category s = category (st w) ->
  sent (Hardened.loadEffect env s w)
  = (sent w ++ [hardenedFirstPageRequest env (st w)])%list
  /\ inflight (Hardened.loadEffect env s w)
     = (inflight w ++ [(S (length (sent w)), hardenedFirstPageRequest env (st w))])%list
  /\ hardenedDeps (st (Hardened.loadEffect env s w))
     = (true, true, search (st w), category (st w), 1, showTVSeriesPage (st w),
        selectedLanguage (st w), showTVDetails (st w), length (movies (st w))).
Proof.
  intros Hk Hs Hc.
  unfold Hardened.loadEffect, Hardened.fetchFirstPage, Hardened.fetchTrending,
    Hardened.fetchByCategory, hardenedFirstPageRequest, hardenedDeps.
  rewrite Hs, Hk, Hc. simpl.
  destruct (String.eqb (category (st w)) "trending"); simpl; auto.
Qed.

(** The commit after a handler that changed what the load effect depends
    on and left the search box empty. *)
Lemma hardened_commit_reload (env : Env) (prev : AppState) (w1 : World) (cat : string)
    (tv details : bool) (language : string) :
  Hardened.keyUnusable env = false ->
  Hardened.sameLoadDeps prev (st w1) = false ->
  hardenedDeps (st w1) = (true, true, "", cat, 1, tv, language, details, 0%nat) ->
  sent (Hardened.commit env prev w1)
  = (sent w1 ++ [hardenedFirstPageRequest env (st w1)])%list
  /\ inflight (Hardened.commit env prev w1)
     = (inflight w1 ++ [(S (length (sent w1)), hardenedFirstPageRequest env (st w1))])%list
  /\ category (st (Hardened.commit env prev w1)) = cat.
Proof.
  intros Hk Hload Hd. unfold hardenedDeps in Hd.
  injection Hd as Hl Hh Hq Hc Hp Ht Hg Hv Hm.
  assert (Hscroll : Hardened.sameScrollDeps prev (st w1) = false
                    \/ Hardened.sameScrollDeps prev (st w1) = true)
    by (destruct (Hardened.sameScrollDeps prev (st w1)); auto).
  assert (Hfirst : exists w4, Hardened.commitOnce env prev w1
                              = Hardened.loadEffect env (st w1) w4
                              /\ sent w4 = sent w1 /\ inflight w4 = inflight w1
                              /\ st w4 = st w1).
  { unfold Hardened.commitOnce. cbv zeta. rewrite Hload. simpl negb. cbv iota.
    destruct (rendered_frame_inflight (Hardened.gridRendered (st w1)) w1)
      as (Hst0 & Hsent0 & Hin0).
    set (w0 := if Hardened.gridRendered (st w1) then w1 else targetRemoved w1) in *.
    clearbody w0.
    destruct (Hardened.sameScrollDeps prev (st w1)); simpl negb; cbv iota.
    - exists w0. auto.
    - eexists. split; [reflexivity|].
      destruct (hardened_scroll_frame (st w1) (Hardened.scrollEffect_cleanup w0))
        as [(E1 & E2 & E3) _].
      destruct (hardened_scroll_frame (st w1) w0) as [_ (E4 & E5 & E6)].
      rewrite E1, E2, E3, E4, E5, E6. auto. }
  destruct Hfirst as (w4 & Hfirst & Hs4 & Hi4 & Hst4).
  assert (Htrim : truthyStr (trim (search (st w1))) = false) by (rewrite Hq; reflexivity).
  destruct (hardened_loadEffect_spec env (st w1) w4 Hk Htrim
              (f_equal category (eq_sym Hst4))) as (Hs5 & Hi5 & Hd5).
  rewrite Hst4 in Hs5, Hi5, Hd5. rewrite Hs4 in Hs5, Hi5. rewrite Hi4 in Hi5.
  unfold Hardened.commit. rewrite Hfirst.
  rewrite hardened_commitOnce_same.
  - destruct (rendered_frame_inflight
                (Hardened.gridRendered (st (Hardened.loadEffect env (st w1) w4)))
                (Hardened.loadEffect env (st w1) w4)) as (E1 & E2 & E3).
    rewrite E1, E2, E3.
    split; [exact Hs5|]. split; [exact Hi5|].
    unfold hardenedDeps in Hd5. injection Hd5 as _ _ _ Hc5 _ _ _ _ _.
    rewrite Hc5. exact Hc.
  - rewrite Hd5. unfold hardenedDeps. rewrite Hl, Hh, Hp. reflexivity.
Qed.

(** X24.  [onSelect] of the category bar sets the category and then calls
    [handleClearSearch], a callback of the render before: it fetches the
    first page of the category that {e was} selected.  The load effect then
    fetches the first page of the new one.  Both requests are in flight
    together, and the answer to a first page replaces the list whatever
    category it was asked for: the one that arrives last is what the grid
    shows under the new heading.  The "TV Series" button does the same with
    the mode. *)
Theorem hardened_category_select_fetches_old_and_new
    (env : Env) (w : World) (cat : string) :
  Hardened.keyUnusable env = false ->
  cat <> category (st w) ->
  let old := hardenedFirstPageRequest env (st w) in
  let n := length (sent w) in
  (let new := hardenedFirstPageRequest env (setCategory cat (st w)) in
   let w' := Hardened.commit env (st w) (HardenedParts.handleCategory env cat w) in
   sent w' = (sent w ++ [old; new])%list
   /\ inflight w' = (inflight w ++ [(S n, old); (S (S n), new)])%list
   /\ category (st w') = cat)
  /\ (showTVSeriesPage (st w) = false ->
      let new := hardenedFirstPageRequest env
                   (setCategory "popular_tv" (setShowTVSeriesPage true (st w))) in
      let w' := Hardened.commit env (st w) (HardenedParts.handleTVSeries env w) in
      sent w' = (sent w ++ [old; new])%list
      /\ inflight w' = (inflight w ++ [(S n, old); (S (S n), new)])%list)
  /\ (forall s results total_pages total_results,
        movies (Hardened.pageFetched 1 true
                  (Responded 200 (JsonData (Some results) total_pages total_results)) s)
        = List.filter isValidMediaItem results).
Proof.
  intros Hk Hcat old n. split; [|split].
  - cbv zeta. unfold HardenedParts.handleCategory. cbv zeta.
    destruct (hardened_handleClearSearchOf_spec (st w) env
                (withState (setCategory cat) w) Hk) as (Hs & Hi & Hd).
    simpl in Hs, Hi, Hd.
    edestruct (hardened_commit_reload env (st w)
                 (HardenedParts.handleClearSearchOf (st w) env
                    (withState (setCategory cat) w))) as (Hs' & Hi' & Hc');
      [exact Hk| |exact Hd|].
    { unfold Hardened.sameLoadDeps. unfold hardenedDeps in Hd.
      injection Hd as _ _ _ Hc _ _ _ _ _. rewrite Hc.
      assert (String.eqb (category (st w)) cat = false) as ->
        by (apply String.eqb_neq; congruence).
      reflexivity. }
    rewrite Hs', Hi', Hc', Hs, Hi, <- !app_assoc, length_app. simpl.
    replace (length (sent w) + 1)%nat with (S (length (sent w))) by lia.
    unfold hardenedDeps in Hd. injection Hd as _ _ _ Hc Hp Ht Hg _ _.
    rewrite (hardenedFirstPageRequest_deps env _ (setCategory cat (st w)) Hc Ht Hg).
    auto.
  - intros Hmovie. cbv zeta. unfold HardenedParts.handleTVSeries. cbv zeta.
    destruct (hardened_handleClearSearchOf_spec (st w) env
                (withState (setCategory "popular_tv")
                   (withState (setShowTVSeriesPage true) w)) Hk) as (Hs & Hi & Hd).
    simpl in Hs, Hi, Hd.
    edestruct (hardened_commit_reload env (st w)
                 (HardenedParts.handleClearSearchOf (st w) env
                    (withState (setCategory "popular_tv")
                       (withState (setShowTVSeriesPage true) w))))
      as (Hs' & Hi' & Hc'); [exact Hk| |exact Hd|].
    { unfold Hardened.sameLoadDeps. unfold hardenedDeps in Hd.
      injection Hd as _ _ _ _ _ Ht _ _ _. rewrite Ht, Hmovie.
      simpl. rewrite andb_false_r. reflexivity. }
    rewrite Hs', Hi', Hs, Hi, <- !app_assoc, length_app. simpl.
    replace (length (sent w) + 1)%nat with (S (length (sent w))) by lia.
    unfold hardenedDeps in Hd. injection Hd as _ _ _ Hc Hp Ht Hg _ _.
    rewrite (hardenedFirstPageRequest_deps env _
               (setCategory "popular_tv" (setShowTVSeriesPage true (st w))) Hc Ht Hg).
    auto.
  - intros s results total_pages total_results. reflexivity.
Qed.

Lemma hardened_category_select_fetches_old_and_new_witness :
  let w := hardenedLoaded in
  let w' := Hardened.commit browserEnv (st w)
              (HardenedParts.handleCategory browserEnv "popular" w) in
  sent w'
  = [PageRequest
       "https://api.themoviedb.org/3/trending/movie/week?api_key=k3y&page=1&language=en"
       1 true;
     PageRequest
       "https://api.themoviedb.org/3/trending/movie/week?api_key=k3y&page=1&language=en"
       1 true;
     PageRequest
       "https://api.themoviedb.org/3/movie/popular?api_key=k3y&page=1&language=en" 1 true]
  /\ List.map fst (inflight w') = [2%nat; 3%nat]
  /\ category (st w') = "popular".
Proof.
  destruct (hardened_category_select_fetches_old_and_new browserEnv hardenedLoaded "popular"
              eq_refl ltac:(vm_compute; discriminate)) as ((Hs & Hi & Hc) & _ & _).
  cbv zeta. rewrite Hs, Hi, Hc. vm_compute. auto.
Defined.

(** ** Episodes *)

Lemma handleClearSearchOf_rendered (env : Env) (w : World) :
  HardenedParts.handleClearSearchOf (st w) env w = Hardened.handleClearSearch env w.
Proof.
  unfold HardenedParts.handleClearSearchOf, Hardened.handleClearSearch,
    HardenedParts.fetchFirstPageOf, Hardened.fetchFirstPage, Hardened.fetchTrending,
    Hardened.fetchByCategory.
  cbv zeta. simpl.
  destruct (typingTimeoutRef w); simpl;
    destruct (Hardened.keyUnusable env); try reflexivity;
    destruct (String.eqb (category (st w)) "trending"); reflexivity.
Qed.

Lemma hardened_sameLoadDeps_refl (s : AppState) : Hardened.sameLoadDeps s s = true.
Proof.
  unfold Hardened.sameLoadDeps. rewrite !Bool.eqb_reflx, !String.eqb_refl. reflexivity.
Qed.

Lemma hardened_sameLoadDeps_fields (a b : AppState) :
  category a = category b -> showTVSeriesPage a = showTVSeriesPage b ->
  selectedLanguage a = selectedLanguage b -> search a = search b ->
  Hardened.sameLoadDeps a b = true.
Proof.
  intros H1 H2 H3 H4. unfold Hardened.sameLoadDeps. rewrite H1, H2, H3, H4.
  apply hardened_sameLoadDeps_refl.
Qed.

(** A render that changed nothing the load effect depends on leaves the
    hooks as the handler set them. *)
Lemma hardened_commit_st (env : Env) (prev : AppState) (w : World) :
  Hardened.sameLoadDeps prev (st w) = true -> st (Hardened.commit env prev w) = st w.
Proof.
  intros Hload.
  assert (H : forall prev' w', Hardened.sameLoadDeps prev' (st w') = true ->
                               st (Hardened.commitOnce env prev' w') = st w').
  { intros prev' w' H'. unfold Hardened.commitOnce. cbv zeta. rewrite H'. simpl.
    destruct (rendered_frame_inflight (Hardened.gridRendered (st w')) w') as (Hst0 & _).
    set (w0 := if Hardened.gridRendered (st w') then w' else targetRemoved w') in *.
    clearbody w0.
    destruct (negb (Hardened.sameScrollDeps prev' (st w'))); [|exact Hst0].
    destruct (hardened_scroll_frame (st w') (Hardened.scrollEffect_cleanup w0))
      as [(_ & _ & E1) _].
    destruct (hardened_scroll_frame (st w') w0) as [_ (_ & _ & E2)].
    rewrite E1, E2. exact Hst0. }
  unfold Hardened.commit. rewrite H; [apply H, Hload|].
  rewrite (H prev w Hload). apply hardened_sameLoadDeps_refl.
Qed.

(** X25.  From the details dialog of a show, "Watch" on a valid episode
    opens the player on
    [https://vidsrc.to/embed/tv/<show>/<season>/<episode>] and closes the
    dialog; "Back" closes the player and opens the dialog of the same show
    again.  The hooks of the state and [selectedTVShow] are then as they
    were.  [lastSelectedEpisode] is not: "Watch" has stored the show and
    the episode in it, and "Back" reads the hook but does not reset it.
    The season is not part of what makes an episode valid: when it is
    missing the URL holds [undefined] in its place. *)
Theorem hardened_episode_and_back
    (env : Env) (p : HardenedParts.Page) (show : MediaItem) (id : Z)
    (episode : HardenedParts.Episode) :
  showTVSeriesPage (st (HardenedParts.world p)) = true ->
  watchUrl (st (HardenedParts.world p)) = None ->
  showTVDetails (st (HardenedParts.world p)) = true ->
  HardenedParts.selectedTVShow p = Some show ->
  item_id show = Some id -> id <> 0 ->
  HardenedParts.isValidEpisode episode = true ->
  let watching := HardenedParts.after env (HardenedParts.handleEpisodeSelect episode) p in
  let back := HardenedParts.after env HardenedParts.handleBackFromWatch watching in
  watchUrl (st (HardenedParts.world watching))
  = Some ("https://vidsrc.to/embed/tv/" +:+ showZ id
          +:+ "/" +:+ Js.show (HardenedParts.episode_season_number episode)
          +:+ "/" +:+ Js.show (HardenedParts.episode_number episode))
  /\ HardenedParts.detailsOpen watching = false
  /\ st (HardenedParts.world back) = st (HardenedParts.world p)
  /\ HardenedParts.selectedTVShow back = Some show
  /\ HardenedParts.detailsOpen back = true
  /\ HardenedParts.lastSelectedEpisode watching = Some (show, episode)
  /\ HardenedParts.lastSelectedEpisode back = Some (show, episode).
Proof.
  intros Htv Hurl Hdetails Hshow Hid Hnz Hvalid watching back.
  assert (Hw : st (HardenedParts.world watching)
               = setShowTVDetails false
                   (setWatchUrl
                      (Some ("https://vidsrc.to/embed/tv/" +:+ showZ id
                             +:+ "/" +:+ Js.show (HardenedParts.episode_season_number episode)
                             +:+ "/" +:+ Js.show (HardenedParts.episode_number episode)))
                      (st (HardenedParts.world p)))
               /\ HardenedParts.selectedTVShow watching = None
               /\ HardenedParts.lastSelectedEpisode watching = Some (show, episode)).
  { subst watching. unfold HardenedParts.after, HardenedParts.handleEpisodeSelect.
    rewrite Hshow, Hid, Hvalid. simpl.
    destruct (Z.eqb_spec id 0); [contradiction|]. simpl.
    rewrite hardened_commit_st; [auto|].
    apply hardened_sameLoadDeps_fields; reflexivity. }
  destruct Hw as (Hst & Hsel & Hlast). clearbody watching.
  assert (Hb : st (HardenedParts.world back) = st (HardenedParts.world p)
               /\ HardenedParts.selectedTVShow back = Some show
               /\ HardenedParts.lastSelectedEpisode back = Some (show, episode)).
  { subst back. unfold HardenedParts.after, HardenedParts.handleBackFromWatch.
    cbv zeta. rewrite Hst, Hlast. simpl. rewrite Htv. simpl.
    rewrite hardened_commit_st.
    - simpl. rewrite Hst. split; [|split; [reflexivity|exact Hlast]].
      destruct (st (HardenedParts.world p)). simpl in *. subst. reflexivity.
    - simpl. rewrite Hst. apply hardened_sameLoadDeps_fields; reflexivity. }
  destruct Hb as (Hbst & Hbsel & Hblast).
  split; [rewrite Hst; reflexivity|].
  split; [unfold HardenedParts.detailsOpen; rewrite Hst; reflexivity|].
  split; [exact Hbst|]. split; [exact Hbsel|].
  split; [unfold HardenedParts.detailsOpen; rewrite Hbst, Hbsel, Hdetails; reflexivity|].
  split; [exact Hlast|exact Hblast].
Qed.

Lemma hardened_episode_and_back_witness :
  let watching :=
    HardenedParts.after browserEnv (HardenedParts.handleEpisodeSelect episodeTwo)
      hardenedDetails in
  let back := HardenedParts.after browserEnv HardenedParts.handleBackFromWatch watching in
  watchUrl (st (HardenedParts.world watching)) = Some "https://vidsrc.to/embed/tv/1/1/2"
  /\ st (HardenedParts.world back) = st (HardenedParts.world hardenedDetails)
  /\ HardenedParts.selectedTVShow back = Some itemA
  /\ HardenedParts.lastSelectedEpisode hardenedDetails = None
  /\ HardenedParts.lastSelectedEpisode back = Some (itemA, episodeTwo).
Proof.
  assert (H1 : showTVSeriesPage (st (HardenedParts.world hardenedDetails)) = true)
    by (vm_compute; reflexivity).
  assert (H2 : watchUrl (st (HardenedParts.world hardenedDetails)) = None)
    by (vm_compute; reflexivity).
  assert (H3 : showTVDetails (st (HardenedParts.world hardenedDetails)) = true)
    by (vm_compute; reflexivity).
  assert (H4 : HardenedParts.selectedTVShow hardenedDetails = Some itemA)
    by (vm_compute; reflexivity).
  assert (H5 : HardenedParts.lastSelectedEpisode hardenedDetails = None)
    by (vm_compute; reflexivity).
  pose proof (hardened_episode_and_back browserEnv hardenedDetails itemA 1 episodeTwo
                H1 H2 H3 H4 eq_refl ltac:(discriminate) eq_refl) as H.
  cbv zeta in H. destruct H as (Hurl & _ & Hst & Hsel & _ & _ & Hlast).
  intros watching back.
  split; [ exact Hurl | ].
  split; [ exact Hst | ].
  split; [ exact Hsel | ].
  split; [ exact H5 | exact Hlast ].
Defined.

(** ** Preferences *)

(** X26.  The preferences of the second component never
    survive a reload.  On its own the effect that reads them would restore
    what the effect that writes them stored; but the writing effect is
    declared first, so when the page is mounted it overwrites the storage
    with the initial hooks before the reading effect looks at it: whatever
    was stored, the page comes up with the initial hooks. *)
Theorem preferences_lost_on_reload
    (stored : Preferences.Stored) (tv : bool) (category search : string) :
  category <> "" -> truthyStr (trim search) = true \/ search = "" ->
  let hooks :=
    {| Preferences.hook_showTVSeriesPage := Bool tv;
       Preferences.hook_category := Str category;
       Preferences.hook_search := Str search |} in
  Preferences.loadPreferences (Preferences.savePreferences hooks) Preferences.initialHooks
  = hooks
  /\ Preferences.mountPreferences stored
     = (Preferences.initialHooks, Preferences.savePreferences Preferences.initialHooks)
  /\ Preferences.mountPreferences (Preferences.savePreferences hooks)
     = (Preferences.initialHooks, Preferences.savePreferences Preferences.initialHooks).
Proof.
  intros Hc Hs hooks. split; [|split; reflexivity].
  subst hooks. unfold Preferences.loadPreferences, Preferences.savePreferences. simpl.
  assert (Hcat : Preferences.orElse (Str category) (Str "trending") = Str category).
  { unfold Preferences.orElse. simpl. unfold truthyStr.
    destruct category; [congruence|reflexivity]. }
  rewrite Hcat.
  assert (Htv : Preferences.orElse (Bool tv) (Bool false) = Bool tv)
    by (destruct tv; reflexivity).
  rewrite Htv.
  destruct Hs as [Hs| ->]; [|reflexivity].
  assert (Ht : truthyStr search = true).
  { unfold truthyStr. destruct search; [discriminate Hs|reflexivity]. }
  rewrite Ht, Hs. reflexivity.
Qed.

Lemma preferences_lost_on_reload_witness :
  let hooks :=
    {| Preferences.hook_showTVSeriesPage := Bool true;
       Preferences.hook_category := Str "tv_drama";
       Preferences.hook_search := Str "bat" |} in
  Preferences.loadPreferences (Preferences.savePreferences hooks) Preferences.initialHooks
  = hooks
  /\ Preferences.mountPreferences Preferences.NotJson
     = (Preferences.initialHooks, Preferences.savePreferences Preferences.initialHooks)
  /\ Preferences.mountPreferences (Preferences.savePreferences hooks)
     = (Preferences.initialHooks, Preferences.savePreferences Preferences.initialHooks).
Proof.
  exact (preferences_lost_on_reload Preferences.NotJson true "tv_drama" "bat"
           ltac:(discriminate) (or_introl eq_refl)).
Defined.

(** ** The image component inside [src/App.js] *)

Lemma appjs_image_notify_props (env : Env) (i i' : AppJsImage.Image)
    (ev : AppJsImage.ImageEvent) :
  AppJsImage.notify env i ev = Normal i' ->
  AppJsImage.src i' = AppJsImage.src i /\ AppJsImage.size i' = AppJsImage.size i
  /\ AppJsImage.lazy i' = AppJsImage.lazy i
  /\ AppJsImage.priority i' = AppJsImage.priority i.
Proof.
  destruct ev as [b|]; simpl.
  - destruct (AppJsImage.watching i && b); [|intros [= <-]; auto].
    unfold AppJsImage.lazyEffect, AppJsImage.imageUrl. simpl.
    destruct (getImageUrl env (AppJsImage.src i) (AppJsImage.size i)) as [url|m];
      simpl; [|discriminate].
    rewrite !orb_true_r. simpl. intros [= <-]. auto.
  - unfold AppJsImage.render, AppJsImage.imageUrl.
    destruct (getImageUrl env (AppJsImage.src i) (AppJsImage.size i)) as [[url|]|m];
      simpl; try discriminate.
    + destruct (AppJsImage.hasError i); simpl; [intros [= <-]; auto|].
      destruct (negb (AppJsImage.isVisible i) && AppJsImage.lazy i
                && negb (AppJsImage.priority i)); simpl; intros [= <-]; auto.
    + intros [= <-]; auto.
Qed.

(** Without a usable path no event does anything. *)
Lemma appjs_image_no_url (env : Env) (evs : list AppJsImage.ImageEvent)
    (i : AppJsImage.Image) :
  AppJsImage.imageUrl env i = Normal None -> AppJsImage.watching i = false ->
  AppJsImage.notifyAll env evs i = Normal i.
Proof.
  intros Hurl Hw. induction evs as [|ev evs IH]; [reflexivity|].
  simpl. assert (AppJsImage.notify env i ev = Normal i) as ->; [|exact IH].
  destruct ev as [b|]; simpl.
  - rewrite Hw. reflexivity.
  - unfold AppJsImage.render. rewrite Hurl. reflexivity.
Qed.

(** An image that failed to load shows "No poster" from then on. *)
Lemma appjs_image_failed (env : Env) (url : string) (evs : list AppJsImage.ImageEvent)
    (i : AppJsImage.Image) :
  AppJsImage.imageUrl env i = Normal (Some url) -> AppJsImage.hasError i = true ->
  exists i', AppJsImage.notifyAll env evs i = Normal i'
             /\ AppJsImage.render env i' = Normal AppJsImage.NoPoster.
Proof.
  revert i. induction evs as [|ev evs IH]; intros i Hurl Herr.
  - exists i. split; [reflexivity|]. unfold AppJsImage.render. rewrite Hurl. simpl.
    rewrite Herr. reflexivity.
  - simpl.
    assert (H : exists i1, AppJsImage.notify env i ev = Normal i1
                           /\ AppJsImage.imageUrl env i1 = Normal (Some url)
                           /\ AppJsImage.hasError i1 = true).
    { destruct ev as [b|]; simpl.
      - destruct (AppJsImage.watching i && b); [|exists i; auto].
        unfold AppJsImage.lazyEffect.
        assert (AppJsImage.imageUrl env
                  (AppJsImage.lazyEffect_cleanup
                     (AppJsImage.setWatching false (AppJsImage.setIsVisible true i)))
                = Normal (Some url)) as -> by exact Hurl.
        simpl. rewrite !orb_true_r. simpl. eexists. split; [reflexivity|]. auto.
      - unfold AppJsImage.render. rewrite Hurl. simpl. rewrite Herr. simpl.
        exists i. auto. }
    destruct H as (i1 & -> & Hurl1 & Herr1). simpl. apply IH; assumption.
Qed.

(** While only intersections arrive, a lazy image with a path is the
    skeleton until the first entry that intersects, and the picture after. *)
Lemma appjs_image_entries (env : Env) (url : string) (entries : list bool)
    (i : AppJsImage.Image) :
  AppJsImage.imageUrl env i = Normal (Some url) ->
  AppJsImage.lazy i = true -> AppJsImage.priority i = false ->
  AppJsImage.hasError i = false ->
  AppJsImage.watching i = negb (AppJsImage.isVisible i) ->
  exists i', AppJsImage.notifyAll env (AppJsImage.Intersects <$> entries) i = Normal i'
             /\ AppJsImage.render env i'
                = Normal (if AppJsImage.isVisible i || existsb id entries
                          then AppJsImage.Img url else AppJsImage.Skeleton)
             /\ AppJsImage.observers i' = AppJsImage.observers i
             /\ AppJsImage.watching i'
                = negb (AppJsImage.isVisible i || existsb id entries).
Proof.
  revert i. induction entries as [|b entries IH]; intros i Hurl Hlazy Hprio Herr Hw.
  - exists i. simpl. rewrite orb_false_r. split; [reflexivity|].
    split; [|auto].
    unfold AppJsImage.render. rewrite Hurl. simpl. rewrite Herr, Hlazy, Hprio.
    destruct (AppJsImage.isVisible i); reflexivity.
  - simpl. destruct (AppJsImage.watching i && b) eqn:Hwb.
    + apply andb_true_iff in Hwb as [Hwt ->].
      unfold AppJsImage.lazyEffect.
      assert (AppJsImage.imageUrl env
                (AppJsImage.lazyEffect_cleanup
                   (AppJsImage.setWatching false (AppJsImage.setIsVisible true i)))
              = Normal (Some url)) as -> by exact Hurl.
      simpl. rewrite !orb_true_r. simpl.
      destruct (IH (AppJsImage.lazyEffect_cleanup
                      (AppJsImage.setWatching false (AppJsImage.setIsVisible true i))))
        as (i' & Hrun & Hview & Hobs & Hwatch); try assumption; try reflexivity.
      exists i'. simpl in *. auto.
    + destruct (IH i Hurl Hlazy Hprio Herr Hw) as (i' & Hrun & Hview & Hobs & Hwatch).
      exists i'. rewrite Hw in Hwb.
      destruct (AppJsImage.isVisible i); [simpl in *; auto|].
      simpl in Hwb. subst b. simpl in *. auto.
Qed.

(** X27.  The image component inside [src/App.js].  When [getImageUrl]
    answers [null] for the path, the component shows "No poster" whatever
    happens and never makes an observer.  A lazy image with a path makes
    one observer, shows the skeleton until the first entry that intersects
    and the picture from then on, and stops watching.  Once the picture has
    failed to load, "No poster" stays. *)
Theorem appjs_image_views (env : Env) (src : Value) (size : string) :
  (getImageUrl env src size = Normal None ->
   forall lazy priority evs,
     exists i, AppJsImage.mount env src size lazy priority = Normal i
               /\ AppJsImage.notifyAll env evs i = Normal i
               /\ AppJsImage.render env i = Normal AppJsImage.NoPoster
               /\ AppJsImage.observers i = 0%nat)
  /\ (forall url, getImageUrl env src size = Normal (Some url) ->
      forall entries,
        exists i i', AppJsImage.mount env src size true false = Normal i
                     /\ AppJsImage.notifyAll env (AppJsImage.Intersects <$> entries) i
                        = Normal i'
                     /\ AppJsImage.render env i'
                        = Normal (if existsb id entries
                                  then AppJsImage.Img url else AppJsImage.Skeleton)
                     /\ AppJsImage.observers i' = 1%nat
                     /\ AppJsImage.watching i' = negb (existsb id entries))
  /\ (forall url, getImageUrl env src size = Normal (Some url) ->
      forall lazy priority before later i,
        AppJsImage.mount env src size lazy priority = Normal i ->
        forall i', AppJsImage.notifyAll env before i = Normal i' ->
          AppJsImage.render env i' = Normal (AppJsImage.Img url) ->
          exists i'', AppJsImage.notifyAll env (AppJsImage.LoadFails :: later) i'
                      = Normal i''
                      /\ AppJsImage.render env i'' = Normal AppJsImage.NoPoster).
Proof.
  split; [|split].
  - intros Hnone lazy priority evs.
    unfold AppJsImage.mount, AppJsImage.lazyEffect, AppJsImage.imageUrl. simpl.
    rewrite Hnone. simpl. rewrite !orb_true_r. eexists. split; [reflexivity|].
    split; [apply appjs_image_no_url; [exact Hnone|reflexivity]|].
    split; [|reflexivity].
    unfold AppJsImage.render, AppJsImage.imageUrl. simpl. rewrite Hnone. reflexivity.
  - intros url Hurl entries.
    unfold AppJsImage.mount, AppJsImage.lazyEffect, AppJsImage.imageUrl. simpl.
    rewrite Hurl. simpl. eexists.
    match goal with
    | |- exists i', Normal ?i = _ /\ _ =>
        destruct (appjs_image_entries env url entries i Hurl eq_refl eq_refl eq_refl eq_refl)
          as (i' & Hrun & Hview & Hobs & Hwatch)
    end.
    exists i'. simpl in *. auto.
  - intros url Hurl lazy priority before later i Hmount i' Hrun Hview. simpl.
    assert (Hurl' : AppJsImage.imageUrl env i' = Normal (Some url)).
    { unfold AppJsImage.render in Hview.
      destruct (AppJsImage.imageUrl env i') as [[u|]|m]; simpl in Hview;
        try discriminate.
      destruct (AppJsImage.hasError i'); [discriminate|].
      destruct (negb (AppJsImage.isVisible i') && AppJsImage.lazy i'
                && negb (AppJsImage.priority i')); [discriminate|].
      congruence. }
    rewrite Hview. simpl.
    apply (appjs_image_failed env url later); [exact Hurl'|reflexivity].
Qed.
